(** * Branch lifecycle and credential broker of [tidb_agent.py]

    A shallow embedding of the branch manager, the credential cache, the
    readiness poll, the credential resolution, the two statement
    executors and the branch tools of [src/tidb_agent.py], and of the
    script [src/dev/delete_all_branches.py]; followed by the properties
    of the specification that concern them and by further properties of
    the code.  Left out: [reset_branch], the construction of the model and
    of the agent, and the Streamlit application.

    Conventions of the embedding.
    - Python values that come out of JSON bodies are terms of [json]
      (None, bool, int, str, list, dict); floats are not modelled.
    - A Python [dict] with string keys is an association list in insertion
      order ([pydict]); [d[k] = v] replaces in place or appends.
    - A [str] is given by its UTF-8 encoding (a lone surrogate, which
      has none, is not modelled).  [strip], [int] and [repr] follow the
      whitespace, decimal-digit and printable tables of Unicode (14.0,
      those of CPython 3.11); [lower] is that of the ASCII letters, which
      is all that a comparison with ["select"] sees.  Integers are
      unbounded: the limit that CPython puts on the number of digits of
      [int(s)] and [str(n)] is not modelled.
    - The credentials file is given by its rows, each with the seven
      cells that [_write_admin_credentials] writes; the quoting of the
      [csv] module, which returns every cell as it was written, is not
      modelled.
    - A function that can raise returns in the monad [M]: the world is
      threaded through and survives an exception, as the effects of a
      Python call survive its [raise].
    - Every call that leaves the process (HTTP request, [time.sleep],
      database driver) is appended to the [trace] of the world; what the
      outside answers is a function [remote] of the trace so far and of
      the call, so that a theorem quantified over [remote] holds of every
      run. *)

From Stdlib Require Import List String Ascii NArith ZArith Bool Arith Lia.
From Stdlib Require Import DecimalString DecimalZ DecimalPos.
Import ListNotations.

Set Warnings "-register-all".

Local Open Scope list_scope.
Local Open Scope string_scope.

(** ** Python strings *)

Module PyStr.

(** A [str] is given by its UTF-8 encoding; a character of the ASCII
    range is one byte. *)

(** [str.isspace] for a character of one byte: TAB, LF, VT, FF, CR, FS,
    GS, RS, US and the space. *)
Definition is_space (c : ascii) : bool :=
  let n := nat_of_ascii c in
  (((9 <=? n) && (n <=? 13)) || ((28 <=? n) && (n <=? 32)))%nat.

(** [str.isspace] for a character of two bytes: U+0085 and U+00A0. *)
Definition is_space2 (c1 c2 : ascii) : bool :=
  let a := nat_of_ascii c1 in
  let b := nat_of_ascii c2 in
  ((a =? 194) && ((b =? 133) || (b =? 160)))%nat.

(** [str.isspace] for a character of three bytes: U+1680, U+2000 to
    U+200A, U+2028, U+2029, U+202F, U+205F and U+3000.  No character of
    four bytes is whitespace. *)
Definition is_space3 (c1 c2 c3 : ascii) : bool :=
  let a := nat_of_ascii c1 in
  let b := nat_of_ascii c2 in
  let c := nat_of_ascii c3 in
  (((a =? 225) && (b =? 154) && (c =? 128))
   || ((a =? 226) && (b =? 128)
       && (((128 <=? c) && (c <=? 138)) || (c =? 168) || (c =? 169) || (c =? 175)))
   || ((a =? 226) && (b =? 129) && (c =? 159))
   || ((a =? 227) && (b =? 128) && (c =? 128)))%nat.

(** [s.lstrip()] *)
Fixpoint lstrip (s : string) : string :=
  match s with
  | EmptyString => EmptyString
  | String c1 r1 =>
      if is_space c1 then lstrip r1
      else
        match r1 with
        | EmptyString => s
        | String c2 r2 =>
            if is_space2 c1 c2 then lstrip r2
            else
              match r2 with
              | EmptyString => s
              | String c3 r3 => if is_space3 c1 c2 c3 then lstrip r3 else s
              end
        end
  end.

(** [s.rstrip()]: nothing is left of a string of whitespace; otherwise
    the first byte stays and the rest is stripped. *)
Fixpoint rstrip (s : string) : string :=
  match s with
  | EmptyString => EmptyString
  | String c r =>
      match lstrip s with
      | EmptyString => EmptyString
      | _ => String c (rstrip r)
      end
  end.

(** [s.strip()] *)
Definition strip (s : string) : string := rstrip (lstrip s).

Definition is_digit (c : ascii) : bool :=
  let n := nat_of_ascii c in ((48 <=? n) && (n <=? 57))%nat.

Definition lower_char (c : ascii) : ascii :=
  let n := nat_of_ascii c in
  if ((65 <=? n) && (n <=? 90))%nat then ascii_of_nat (n + 32) else c.

(** [s.lower()], on the letters of the ASCII range.  A cased character
    outside it is left as it is; its lower case has no ASCII letter,
    except for U+0130 and U+212A whose lower cases hold [i] and [k],
    so that no comparison with a text of the other ASCII letters tells
    the difference. *)
Fixpoint lower (s : string) : string :=
  match s with
  | EmptyString => EmptyString
  | String c s' => String (lower_char c) (lower s')
  end.

(** [s.startswith(p)] *)
Definition startswith (s p : string) : bool := String.prefix p s.

(** [c in s] for a single character. *)
Fixpoint contains (c : ascii) (s : string) : bool :=
  match s with
  | EmptyString => false
  | String a s' => Ascii.eqb a c || contains c s'
  end.

(** [sep.join(l)] *)
Fixpoint join (sep : string) (l : list string) : string :=
  match l with
  | [] => ""
  | [x] => x
  | x :: rest => x ++ sep ++ join sep rest
  end.

(** [str(z)] for an [int]. *)
Definition of_Z (z : Z) : string := NilZero.string_of_int (Z.to_int z).

(** *** [int(s)]

    [int] first turns the text into ASCII
    ([_PyUnicode_TransformDecimalAndSpaceToASCII]): a character below 127
    stays, a whitespace character becomes a space, a decimal digit of any
    script becomes its ASCII digit, and anything else a question mark.
    The result is read by [PyLong_FromString]. *)

(** The first of each run of ten decimal digits (Unicode 14.0, the
    tables of CPython 3.11). *)
Definition decimal_zeros : list N :=
  [ 0x30; 0x660; 0x6f0; 0x7c0; 0x966; 0x9e6; 0xa66; 0xae6; 0xb66; 0xbe6; 0xc66; 0xce6;
    0xd66; 0xde6; 0xe50; 0xed0; 0xf20; 0x1040; 0x1090; 0x17e0; 0x1810; 0x1946; 0x19d0;
    0x1a80; 0x1a90; 0x1b50; 0x1bb0; 0x1c40; 0x1c50; 0xa620; 0xa8d0; 0xa900; 0xa9d0;
    0xa9f0; 0xaa50; 0xabf0; 0xff10; 0x104a0; 0x10d30; 0x11066; 0x110f0; 0x11136;
    0x111d0; 0x112f0; 0x11450; 0x114d0; 0x11650; 0x116c0; 0x11730; 0x118e0; 0x11950;
    0x11c50; 0x11d50; 0x11da0; 0x16a60; 0x16ac0; 0x16b50; 0x1d7ce; 0x1d7d8; 0x1d7e2;
    0x1d7ec; 0x1d7f6; 0x1e140; 0x1e2f0; 0x1e950; 0x1fbf0 ]%N.

(** [Py_UNICODE_TODECIMAL] *)
Definition decimal_value (cp : N) : option N :=
  match find (fun zero => (zero <=? cp) && (cp <? zero + 10))%N decimal_zeros with
  | Some zero => Some (cp - zero)%N
  | None => None
  end.

(** [Py_UNICODE_ISSPACE] *)
Definition is_space_code (cp : N) : bool :=
  (((9 <=? cp) && (cp <=? 13)) || ((28 <=? cp) && (cp <=? 32))
   || (cp =? 0x85) || (cp =? 0xa0) || (cp =? 0x1680)
   || ((0x2000 <=? cp) && (cp <=? 0x200a))
   || (cp =? 0x2028) || (cp =? 0x2029) || (cp =? 0x202f) || (cp =? 0x205f)
   || (cp =? 0x3000))%N.

Definition to_ascii (cp : N) : ascii :=
  if (cp <? 127)%N then ascii_of_N cp
  else if is_space_code cp then " "%char
  else match decimal_value cp with
       | Some d => ascii_of_N (48 + d)
       | None => "?"%char
       end.

(** A byte that continues a character. *)
Definition is_continuation (c : ascii) : bool :=
  let n := N_of_ascii c in ((128 <=? n) && (n <=? 191))%N.

Definition low6 (c : ascii) : N := (N_of_ascii c - 128)%N.

(** The text of ASCII that [int] reads: UTF-8 is decoded character by
    character; a byte that starts no character gives a question mark. *)
Fixpoint to_ascii_text (s : string) : string :=
  match s with
  | EmptyString => EmptyString
  | String c1 r1 =>
      let a := N_of_ascii c1 in
      if (a <? 128)%N then String (to_ascii a) (to_ascii_text r1)
      else
        match r1 with
        | String c2 r2 =>
            if ((192 <=? a) && (a <=? 223))%N && is_continuation c2
            then String (to_ascii ((a - 192) * 64 + low6 c2)) (to_ascii_text r2)
            else
              match r2 with
              | String c3 r3 =>
                  if ((224 <=? a) && (a <=? 239))%N && is_continuation c2 && is_continuation c3
                  then String (to_ascii ((a - 224) * 4096 + low6 c2 * 64 + low6 c3))
                         (to_ascii_text r3)
                  else
                    match r3 with
                    | String c4 r4 =>
                        if ((240 <=? a) && (a <=? 247))%N && is_continuation c2
                           && is_continuation c3 && is_continuation c4
                        then String (to_ascii ((a - 240) * 262144 + low6 c2 * 4096
                                               + low6 c3 * 64 + low6 c4))
                               (to_ascii_text r4)
                        else String "?" (to_ascii_text r1)
                    | EmptyString => String "?" (to_ascii_text r1)
                    end
              | EmptyString => String "?" (to_ascii_text r1)
              end
        | EmptyString => String "?" EmptyString
        end
  end.

(** [Py_ISSPACE]: the whitespace that [PyLong_FromString] skips. *)
Definition is_c_space (c : ascii) : bool :=
  let n := nat_of_ascii c in
  (((9 <=? n) && (n <=? 13)) || (n =? 32))%nat.

(** The text without the whitespace at its start, and at its end. *)
Fixpoint lskip (s : string) : string :=
  match s with
  | EmptyString => EmptyString
  | String c s' => if is_c_space c then lskip s' else s
  end.

Definition reverse (s : string) : string :=
  string_of_list_ascii (rev (list_ascii_of_string s)).

Definition rskip (s : string) : string := reverse (lskip (reverse s)).

(** The digits of an integer literal, underscores removed; [None] when an
    underscore is not between two digits or when there is no digit. *)
Fixpoint digits (after_digit : bool) (s : string) : option string :=
  match s with
  | EmptyString => if after_digit then Some EmptyString else None
  | String c s' =>
      if is_digit c then option_map (String c) (digits true s')
      else if Ascii.eqb c "_" then
        if after_digit then
          match s' with
          | EmptyString => None
          | _ => digits false s'
          end
        else None
      else None
  end.

Definition unsigned_of (s : string) : option Z :=
  match digits false s with
  | Some ds => option_map Z.of_uint (NilEmpty.uint_of_string ds)
  | None => None
  end.

(** [int(s)] for a [str], base 10; [None] stands for [ValueError]. *)
Definition to_Z (s : string) : option Z :=
  match rskip (lskip (to_ascii_text s)) with
  | String "+" r => unsigned_of r
  | String "-" r => option_map Z.opp (unsigned_of r)
  | t => unsigned_of t
  end.

(** *** [repr(s)]

    [repr] writes a printable character as it is and escapes the others.
    The characters from 128 on that [str.isprintable] refuses, as closed
    intervals of code points (Unicode 14.0, the tables of CPython 3.11). *)
Definition unprintable : list (N * N) :=
  [ (0x80, 0xa0); (0xad, 0xad); (0x378, 0x379); (0x380, 0x383); (0x38b, 0x38b);
    (0x38d, 0x38d); (0x3a2, 0x3a2); (0x530, 0x530); (0x557, 0x558); (0x58b, 0x58c);
    (0x590, 0x590); (0x5c8, 0x5cf); (0x5eb, 0x5ee); (0x5f5, 0x605); (0x61c, 0x61c);
    (0x6dd, 0x6dd); (0x70e, 0x70f); (0x74b, 0x74c); (0x7b2, 0x7bf); (0x7fb, 0x7fc);
    (0x82e, 0x82f); (0x83f, 0x83f); (0x85c, 0x85d); (0x85f, 0x85f); (0x86b, 0x86f);
    (0x88f, 0x897); (0x8e2, 0x8e2); (0x984, 0x984); (0x98d, 0x98e); (0x991, 0x992);
    (0x9a9, 0x9a9); (0x9b1, 0x9b1); (0x9b3, 0x9b5); (0x9ba, 0x9bb); (0x9c5, 0x9c6);
    (0x9c9, 0x9ca); (0x9cf, 0x9d6); (0x9d8, 0x9db); (0x9de, 0x9de); (0x9e4, 0x9e5);
    (0x9ff, 0xa00); (0xa04, 0xa04); (0xa0b, 0xa0e); (0xa11, 0xa12); (0xa29, 0xa29);
    (0xa31, 0xa31); (0xa34, 0xa34); (0xa37, 0xa37); (0xa3a, 0xa3b); (0xa3d, 0xa3d);
    (0xa43, 0xa46); (0xa49, 0xa4a); (0xa4e, 0xa50); (0xa52, 0xa58); (0xa5d, 0xa5d);
    (0xa5f, 0xa65); (0xa77, 0xa80); (0xa84, 0xa84); (0xa8e, 0xa8e); (0xa92, 0xa92);
    (0xaa9, 0xaa9); (0xab1, 0xab1); (0xab4, 0xab4); (0xaba, 0xabb); (0xac6, 0xac6);
    (0xaca, 0xaca); (0xace, 0xacf); (0xad1, 0xadf); (0xae4, 0xae5); (0xaf2, 0xaf8);
    (0xb00, 0xb00); (0xb04, 0xb04); (0xb0d, 0xb0e); (0xb11, 0xb12); (0xb29, 0xb29);
    (0xb31, 0xb31); (0xb34, 0xb34); (0xb3a, 0xb3b); (0xb45, 0xb46); (0xb49, 0xb4a);
    (0xb4e, 0xb54); (0xb58, 0xb5b); (0xb5e, 0xb5e); (0xb64, 0xb65); (0xb78, 0xb81);
    (0xb84, 0xb84); (0xb8b, 0xb8d); (0xb91, 0xb91); (0xb96, 0xb98); (0xb9b, 0xb9b);
    (0xb9d, 0xb9d); (0xba0, 0xba2); (0xba5, 0xba7); (0xbab, 0xbad); (0xbba, 0xbbd);
    (0xbc3, 0xbc5); (0xbc9, 0xbc9); (0xbce, 0xbcf); (0xbd1, 0xbd6); (0xbd8, 0xbe5);
    (0xbfb, 0xbff); (0xc0d, 0xc0d); (0xc11, 0xc11); (0xc29, 0xc29); (0xc3a, 0xc3b);
    (0xc45, 0xc45); (0xc49, 0xc49); (0xc4e, 0xc54); (0xc57, 0xc57); (0xc5b, 0xc5c);
    (0xc5e, 0xc5f); (0xc64, 0xc65); (0xc70, 0xc76); (0xc8d, 0xc8d); (0xc91, 0xc91);
    (0xca9, 0xca9); (0xcb4, 0xcb4); (0xcba, 0xcbb); (0xcc5, 0xcc5); (0xcc9, 0xcc9);
    (0xcce, 0xcd4); (0xcd7, 0xcdc); (0xcdf, 0xcdf); (0xce4, 0xce5); (0xcf0, 0xcf0);
    (0xcf3, 0xcff); (0xd0d, 0xd0d); (0xd11, 0xd11); (0xd45, 0xd45); (0xd49, 0xd49);
    (0xd50, 0xd53); (0xd64, 0xd65); (0xd80, 0xd80); (0xd84, 0xd84); (0xd97, 0xd99);
    (0xdb2, 0xdb2); (0xdbc, 0xdbc); (0xdbe, 0xdbf); (0xdc7, 0xdc9); (0xdcb, 0xdce);
    (0xdd5, 0xdd5); (0xdd7, 0xdd7); (0xde0, 0xde5); (0xdf0, 0xdf1); (0xdf5, 0xe00);
    (0xe3b, 0xe3e); (0xe5c, 0xe80); (0xe83, 0xe83); (0xe85, 0xe85); (0xe8b, 0xe8b);
    (0xea4, 0xea4); (0xea6, 0xea6); (0xebe, 0xebf); (0xec5, 0xec5); (0xec7, 0xec7);
    (0xece, 0xecf); (0xeda, 0xedb); (0xee0, 0xeff); (0xf48, 0xf48); (0xf6d, 0xf70);
    (0xf98, 0xf98); (0xfbd, 0xfbd); (0xfcd, 0xfcd); (0xfdb, 0xfff); (0x10c6, 0x10c6);
    (0x10c8, 0x10cc); (0x10ce, 0x10cf); (0x1249, 0x1249); (0x124e, 0x124f);
    (0x1257, 0x1257); (0x1259, 0x1259); (0x125e, 0x125f); (0x1289, 0x1289);
    (0x128e, 0x128f); (0x12b1, 0x12b1); (0x12b6, 0x12b7); (0x12bf, 0x12bf);
    (0x12c1, 0x12c1); (0x12c6, 0x12c7); (0x12d7, 0x12d7); (0x1311, 0x1311);
    (0x1316, 0x1317); (0x135b, 0x135c); (0x137d, 0x137f); (0x139a, 0x139f);
    (0x13f6, 0x13f7); (0x13fe, 0x13ff); (0x1680, 0x1680); (0x169d, 0x169f);
    (0x16f9, 0x16ff); (0x1716, 0x171e); (0x1737, 0x173f); (0x1754, 0x175f);
    (0x176d, 0x176d); (0x1771, 0x1771); (0x1774, 0x177f); (0x17de, 0x17df);
    (0x17ea, 0x17ef); (0x17fa, 0x17ff); (0x180e, 0x180e); (0x181a, 0x181f);
    (0x1879, 0x187f); (0x18ab, 0x18af); (0x18f6, 0x18ff); (0x191f, 0x191f);
    (0x192c, 0x192f); (0x193c, 0x193f); (0x1941, 0x1943); (0x196e, 0x196f);
    (0x1975, 0x197f); (0x19ac, 0x19af); (0x19ca, 0x19cf); (0x19db, 0x19dd);
    (0x1a1c, 0x1a1d); (0x1a5f, 0x1a5f); (0x1a7d, 0x1a7e); (0x1a8a, 0x1a8f);
    (0x1a9a, 0x1a9f); (0x1aae, 0x1aaf); (0x1acf, 0x1aff); (0x1b4d, 0x1b4f);
    (0x1b7f, 0x1b7f); (0x1bf4, 0x1bfb); (0x1c38, 0x1c3a); (0x1c4a, 0x1c4c);
    (0x1c89, 0x1c8f); (0x1cbb, 0x1cbc); (0x1cc8, 0x1ccf); (0x1cfb, 0x1cff);
    (0x1f16, 0x1f17); (0x1f1e, 0x1f1f); (0x1f46, 0x1f47); (0x1f4e, 0x1f4f);
    (0x1f58, 0x1f58); (0x1f5a, 0x1f5a); (0x1f5c, 0x1f5c); (0x1f5e, 0x1f5e);
    (0x1f7e, 0x1f7f); (0x1fb5, 0x1fb5); (0x1fc5, 0x1fc5); (0x1fd4, 0x1fd5);
    (0x1fdc, 0x1fdc); (0x1ff0, 0x1ff1); (0x1ff5, 0x1ff5); (0x1fff, 0x200f);
    (0x2028, 0x202f); (0x205f, 0x206f); (0x2072, 0x2073); (0x208f, 0x208f);
    (0x209d, 0x209f); (0x20c1, 0x20cf); (0x20f1, 0x20ff); (0x218c, 0x218f);
    (0x2427, 0x243f); (0x244b, 0x245f); (0x2b74, 0x2b75); (0x2b96, 0x2b96);
    (0x2cf4, 0x2cf8); (0x2d26, 0x2d26); (0x2d28, 0x2d2c); (0x2d2e, 0x2d2f);
    (0x2d68, 0x2d6e); (0x2d71, 0x2d7e); (0x2d97, 0x2d9f); (0x2da7, 0x2da7);
    (0x2daf, 0x2daf); (0x2db7, 0x2db7); (0x2dbf, 0x2dbf); (0x2dc7, 0x2dc7);
    (0x2dcf, 0x2dcf); (0x2dd7, 0x2dd7); (0x2ddf, 0x2ddf); (0x2e5e, 0x2e7f);
    (0x2e9a, 0x2e9a); (0x2ef4, 0x2eff); (0x2fd6, 0x2fef); (0x2ffc, 0x3000);
    (0x3040, 0x3040); (0x3097, 0x3098); (0x3100, 0x3104); (0x3130, 0x3130);
    (0x318f, 0x318f); (0x31e4, 0x31ef); (0x321f, 0x321f); (0xa48d, 0xa48f);
    (0xa4c7, 0xa4cf); (0xa62c, 0xa63f); (0xa6f8, 0xa6ff); (0xa7cb, 0xa7cf);
    (0xa7d2, 0xa7d2); (0xa7d4, 0xa7d4); (0xa7da, 0xa7f1); (0xa82d, 0xa82f);
    (0xa83a, 0xa83f); (0xa878, 0xa87f); (0xa8c6, 0xa8cd); (0xa8da, 0xa8df);
    (0xa954, 0xa95e); (0xa97d, 0xa97f); (0xa9ce, 0xa9ce); (0xa9da, 0xa9dd);
    (0xa9ff, 0xa9ff); (0xaa37, 0xaa3f); (0xaa4e, 0xaa4f); (0xaa5a, 0xaa5b);
    (0xaac3, 0xaada); (0xaaf7, 0xab00); (0xab07, 0xab08); (0xab0f, 0xab10);
    (0xab17, 0xab1f); (0xab27, 0xab27); (0xab2f, 0xab2f); (0xab6c, 0xab6f);
    (0xabee, 0xabef); (0xabfa, 0xabff); (0xd7a4, 0xd7af); (0xd7c7, 0xd7ca);
    (0xd7fc, 0xf8ff); (0xfa6e, 0xfa6f); (0xfada, 0xfaff); (0xfb07, 0xfb12);
    (0xfb18, 0xfb1c); (0xfb37, 0xfb37); (0xfb3d, 0xfb3d); (0xfb3f, 0xfb3f);
    (0xfb42, 0xfb42); (0xfb45, 0xfb45); (0xfbc3, 0xfbd2); (0xfd90, 0xfd91);
    (0xfdc8, 0xfdce); (0xfdd0, 0xfdef); (0xfe1a, 0xfe1f); (0xfe53, 0xfe53);
    (0xfe67, 0xfe67); (0xfe6c, 0xfe6f); (0xfe75, 0xfe75); (0xfefd, 0xff00);
    (0xffbf, 0xffc1); (0xffc8, 0xffc9); (0xffd0, 0xffd1); (0xffd8, 0xffd9);
    (0xffdd, 0xffdf); (0xffe7, 0xffe7); (0xffef, 0xfffb); (0xfffe, 0xffff);
    (0x1000c, 0x1000c); (0x10027, 0x10027); (0x1003b, 0x1003b); (0x1003e, 0x1003e);
    (0x1004e, 0x1004f); (0x1005e, 0x1007f); (0x100fb, 0x100ff); (0x10103, 0x10106);
    (0x10134, 0x10136); (0x1018f, 0x1018f); (0x1019d, 0x1019f); (0x101a1, 0x101cf);
    (0x101fe, 0x1027f); (0x1029d, 0x1029f); (0x102d1, 0x102df); (0x102fc, 0x102ff);
    (0x10324, 0x1032c); (0x1034b, 0x1034f); (0x1037b, 0x1037f); (0x1039e, 0x1039e);
    (0x103c4, 0x103c7); (0x103d6, 0x103ff); (0x1049e, 0x1049f); (0x104aa, 0x104af);
    (0x104d4, 0x104d7); (0x104fc, 0x104ff); (0x10528, 0x1052f); (0x10564, 0x1056e);
    (0x1057b, 0x1057b); (0x1058b, 0x1058b); (0x10593, 0x10593); (0x10596, 0x10596);
    (0x105a2, 0x105a2); (0x105b2, 0x105b2); (0x105ba, 0x105ba); (0x105bd, 0x105ff);
    (0x10737, 0x1073f); (0x10756, 0x1075f); (0x10768, 0x1077f); (0x10786, 0x10786);
    (0x107b1, 0x107b1); (0x107bb, 0x107ff); (0x10806, 0x10807); (0x10809, 0x10809);
    (0x10836, 0x10836); (0x10839, 0x1083b); (0x1083d, 0x1083e); (0x10856, 0x10856);
    (0x1089f, 0x108a6); (0x108b0, 0x108df); (0x108f3, 0x108f3); (0x108f6, 0x108fa);
    (0x1091c, 0x1091e); (0x1093a, 0x1093e); (0x10940, 0x1097f); (0x109b8, 0x109bb);
    (0x109d0, 0x109d1); (0x10a04, 0x10a04); (0x10a07, 0x10a0b); (0x10a14, 0x10a14);
    (0x10a18, 0x10a18); (0x10a36, 0x10a37); (0x10a3b, 0x10a3e); (0x10a49, 0x10a4f);
    (0x10a59, 0x10a5f); (0x10aa0, 0x10abf); (0x10ae7, 0x10aea); (0x10af7, 0x10aff);
    (0x10b36, 0x10b38); (0x10b56, 0x10b57); (0x10b73, 0x10b77); (0x10b92, 0x10b98);
    (0x10b9d, 0x10ba8); (0x10bb0, 0x10bff); (0x10c49, 0x10c7f); (0x10cb3, 0x10cbf);
    (0x10cf3, 0x10cf9); (0x10d28, 0x10d2f); (0x10d3a, 0x10e5f); (0x10e7f, 0x10e7f);
    (0x10eaa, 0x10eaa); (0x10eae, 0x10eaf); (0x10eb2, 0x10eff); (0x10f28, 0x10f2f);
    (0x10f5a, 0x10f6f); (0x10f8a, 0x10faf); (0x10fcc, 0x10fdf); (0x10ff7, 0x10fff);
    (0x1104e, 0x11051); (0x11076, 0x1107e); (0x110bd, 0x110bd); (0x110c3, 0x110cf);
    (0x110e9, 0x110ef); (0x110fa, 0x110ff); (0x11135, 0x11135); (0x11148, 0x1114f);
    (0x11177, 0x1117f); (0x111e0, 0x111e0); (0x111f5, 0x111ff); (0x11212, 0x11212);
    (0x1123f, 0x1127f); (0x11287, 0x11287); (0x11289, 0x11289); (0x1128e, 0x1128e);
    (0x1129e, 0x1129e); (0x112aa, 0x112af); (0x112eb, 0x112ef); (0x112fa, 0x112ff);
    (0x11304, 0x11304); (0x1130d, 0x1130e); (0x11311, 0x11312); (0x11329, 0x11329);
    (0x11331, 0x11331); (0x11334, 0x11334); (0x1133a, 0x1133a); (0x11345, 0x11346);
    (0x11349, 0x1134a); (0x1134e, 0x1134f); (0x11351, 0x11356); (0x11358, 0x1135c);
    (0x11364, 0x11365); (0x1136d, 0x1136f); (0x11375, 0x113ff); (0x1145c, 0x1145c);
    (0x11462, 0x1147f); (0x114c8, 0x114cf); (0x114da, 0x1157f); (0x115b6, 0x115b7);
    (0x115de, 0x115ff); (0x11645, 0x1164f); (0x1165a, 0x1165f); (0x1166d, 0x1167f);
    (0x116ba, 0x116bf); (0x116ca, 0x116ff); (0x1171b, 0x1171c); (0x1172c, 0x1172f);
    (0x11747, 0x117ff); (0x1183c, 0x1189f); (0x118f3, 0x118fe); (0x11907, 0x11908);
    (0x1190a, 0x1190b); (0x11914, 0x11914); (0x11917, 0x11917); (0x11936, 0x11936);
    (0x11939, 0x1193a); (0x11947, 0x1194f); (0x1195a, 0x1199f); (0x119a8, 0x119a9);
    (0x119d8, 0x119d9); (0x119e5, 0x119ff); (0x11a48, 0x11a4f); (0x11aa3, 0x11aaf);
    (0x11af9, 0x11bff); (0x11c09, 0x11c09); (0x11c37, 0x11c37); (0x11c46, 0x11c4f);
    (0x11c6d, 0x11c6f); (0x11c90, 0x11c91); (0x11ca8, 0x11ca8); (0x11cb7, 0x11cff);
    (0x11d07, 0x11d07); (0x11d0a, 0x11d0a); (0x11d37, 0x11d39); (0x11d3b, 0x11d3b);
    (0x11d3e, 0x11d3e); (0x11d48, 0x11d4f); (0x11d5a, 0x11d5f); (0x11d66, 0x11d66);
    (0x11d69, 0x11d69); (0x11d8f, 0x11d8f); (0x11d92, 0x11d92); (0x11d99, 0x11d9f);
    (0x11daa, 0x11edf); (0x11ef9, 0x11faf); (0x11fb1, 0x11fbf); (0x11ff2, 0x11ffe);
    (0x1239a, 0x123ff); (0x1246f, 0x1246f); (0x12475, 0x1247f); (0x12544, 0x12f8f);
    (0x12ff3, 0x12fff); (0x1342f, 0x143ff); (0x14647, 0x167ff); (0x16a39, 0x16a3f);
    (0x16a5f, 0x16a5f); (0x16a6a, 0x16a6d); (0x16abf, 0x16abf); (0x16aca, 0x16acf);
    (0x16aee, 0x16aef); (0x16af6, 0x16aff); (0x16b46, 0x16b4f); (0x16b5a, 0x16b5a);
    (0x16b62, 0x16b62); (0x16b78, 0x16b7c); (0x16b90, 0x16e3f); (0x16e9b, 0x16eff);
    (0x16f4b, 0x16f4e); (0x16f88, 0x16f8e); (0x16fa0, 0x16fdf); (0x16fe5, 0x16fef);
    (0x16ff2, 0x16fff); (0x187f8, 0x187ff); (0x18cd6, 0x18cff); (0x18d09, 0x1afef);
    (0x1aff4, 0x1aff4); (0x1affc, 0x1affc); (0x1afff, 0x1afff); (0x1b123, 0x1b14f);
    (0x1b153, 0x1b163); (0x1b168, 0x1b16f); (0x1b2fc, 0x1bbff); (0x1bc6b, 0x1bc6f);
    (0x1bc7d, 0x1bc7f); (0x1bc89, 0x1bc8f); (0x1bc9a, 0x1bc9b); (0x1bca0, 0x1ceff);
    (0x1cf2e, 0x1cf2f); (0x1cf47, 0x1cf4f); (0x1cfc4, 0x1cfff); (0x1d0f6, 0x1d0ff);
    (0x1d127, 0x1d128); (0x1d173, 0x1d17a); (0x1d1eb, 0x1d1ff); (0x1d246, 0x1d2df);
    (0x1d2f4, 0x1d2ff); (0x1d357, 0x1d35f); (0x1d379, 0x1d3ff); (0x1d455, 0x1d455);
    (0x1d49d, 0x1d49d); (0x1d4a0, 0x1d4a1); (0x1d4a3, 0x1d4a4); (0x1d4a7, 0x1d4a8);
    (0x1d4ad, 0x1d4ad); (0x1d4ba, 0x1d4ba); (0x1d4bc, 0x1d4bc); (0x1d4c4, 0x1d4c4);
    (0x1d506, 0x1d506); (0x1d50b, 0x1d50c); (0x1d515, 0x1d515); (0x1d51d, 0x1d51d);
    (0x1d53a, 0x1d53a); (0x1d53f, 0x1d53f); (0x1d545, 0x1d545); (0x1d547, 0x1d549);
    (0x1d551, 0x1d551); (0x1d6a6, 0x1d6a7); (0x1d7cc, 0x1d7cd); (0x1da8c, 0x1da9a);
    (0x1daa0, 0x1daa0); (0x1dab0, 0x1deff); (0x1df1f, 0x1dfff); (0x1e007, 0x1e007);
    (0x1e019, 0x1e01a); (0x1e022, 0x1e022); (0x1e025, 0x1e025); (0x1e02b, 0x1e0ff);
    (0x1e12d, 0x1e12f); (0x1e13e, 0x1e13f); (0x1e14a, 0x1e14d); (0x1e150, 0x1e28f);
    (0x1e2af, 0x1e2bf); (0x1e2fa, 0x1e2fe); (0x1e300, 0x1e7df); (0x1e7e7, 0x1e7e7);
    (0x1e7ec, 0x1e7ec); (0x1e7ef, 0x1e7ef); (0x1e7ff, 0x1e7ff); (0x1e8c5, 0x1e8c6);
    (0x1e8d7, 0x1e8ff); (0x1e94c, 0x1e94f); (0x1e95a, 0x1e95d); (0x1e960, 0x1ec70);
    (0x1ecb5, 0x1ed00); (0x1ed3e, 0x1edff); (0x1ee04, 0x1ee04); (0x1ee20, 0x1ee20);
    (0x1ee23, 0x1ee23); (0x1ee25, 0x1ee26); (0x1ee28, 0x1ee28); (0x1ee33, 0x1ee33);
    (0x1ee38, 0x1ee38); (0x1ee3a, 0x1ee3a); (0x1ee3c, 0x1ee41); (0x1ee43, 0x1ee46);
    (0x1ee48, 0x1ee48); (0x1ee4a, 0x1ee4a); (0x1ee4c, 0x1ee4c); (0x1ee50, 0x1ee50);
    (0x1ee53, 0x1ee53); (0x1ee55, 0x1ee56); (0x1ee58, 0x1ee58); (0x1ee5a, 0x1ee5a);
    (0x1ee5c, 0x1ee5c); (0x1ee5e, 0x1ee5e); (0x1ee60, 0x1ee60); (0x1ee63, 0x1ee63);
    (0x1ee65, 0x1ee66); (0x1ee6b, 0x1ee6b); (0x1ee73, 0x1ee73); (0x1ee78, 0x1ee78);
    (0x1ee7d, 0x1ee7d); (0x1ee7f, 0x1ee7f); (0x1ee8a, 0x1ee8a); (0x1ee9c, 0x1eea0);
    (0x1eea4, 0x1eea4); (0x1eeaa, 0x1eeaa); (0x1eebc, 0x1eeef); (0x1eef2, 0x1efff);
    (0x1f02c, 0x1f02f); (0x1f094, 0x1f09f); (0x1f0af, 0x1f0b0); (0x1f0c0, 0x1f0c0);
    (0x1f0d0, 0x1f0d0); (0x1f0f6, 0x1f0ff); (0x1f1ae, 0x1f1e5); (0x1f203, 0x1f20f);
    (0x1f23c, 0x1f23f); (0x1f249, 0x1f24f); (0x1f252, 0x1f25f); (0x1f266, 0x1f2ff);
    (0x1f6d8, 0x1f6dc); (0x1f6ed, 0x1f6ef); (0x1f6fd, 0x1f6ff); (0x1f774, 0x1f77f);
    (0x1f7d9, 0x1f7df); (0x1f7ec, 0x1f7ef); (0x1f7f1, 0x1f7ff); (0x1f80c, 0x1f80f);
    (0x1f848, 0x1f84f); (0x1f85a, 0x1f85f); (0x1f888, 0x1f88f); (0x1f8ae, 0x1f8af);
    (0x1f8b2, 0x1f8ff); (0x1fa54, 0x1fa5f); (0x1fa6e, 0x1fa6f); (0x1fa75, 0x1fa77);
    (0x1fa7d, 0x1fa7f); (0x1fa87, 0x1fa8f); (0x1faad, 0x1faaf); (0x1fabb, 0x1fabf);
    (0x1fac6, 0x1facf); (0x1fada, 0x1fadf); (0x1fae8, 0x1faef); (0x1faf7, 0x1faff);
    (0x1fb93, 0x1fb93); (0x1fbcb, 0x1fbef); (0x1fbfa, 0x1ffff); (0x2a6e0, 0x2a6ff);
    (0x2b739, 0x2b73f); (0x2b81e, 0x2b81f); (0x2cea2, 0x2ceaf); (0x2ebe1, 0x2f7ff);
    (0x2fa1e, 0x2ffff); (0x3134b, 0xe00ff); (0xe01f0, 0x10ffff) ]%N.

(** [Py_UNICODE_ISPRINTABLE], from 128 on. *)
Definition is_printable (cp : N) : bool :=
  negb (existsb (fun r => (fst r <=? cp) && (cp <=? snd r))%N unprintable).

Definition dquote : ascii := ascii_of_nat 34.
Definition squote : ascii := ascii_of_nat 39.
Definition backslash : ascii := ascii_of_nat 92.

Definition hex_digit (n : nat) : ascii :=
  match String.get n "0123456789abcdef" with
  | Some c => c
  | None => "0"%char
  end.

(** The last [width] hexadecimal digits of [n], before [acc]. *)
Fixpoint hex (width : nat) (n : N) (acc : string) : string :=
  match width with
  | O => acc
  | S k => hex k (n / 16)%N (String (hex_digit (N.to_nat (n mod 16)%N)) acc)
  end.

(** The escape of a character from 128 on that is not printable. *)
Definition escape (cp : N) : string :=
  String backslash
    (if (cp <=? 0xff)%N then String "x" (hex 2 cp "")
     else if (cp <=? 0xffff)%N then String "u" (hex 4 cp "")
     else String "U" (hex 8 cp "")).

(** One character below 128 of [repr(s)], [q] being the quote chosen for
    [s]. *)
Definition repr_char (q c : ascii) : string :=
  let n := nat_of_ascii c in
  if Ascii.eqb c q || Ascii.eqb c backslash then String backslash (String c "")
  else if (n =? 9)%nat then String backslash "t"
  else if (n =? 10)%nat then String backslash "n"
  else if (n =? 13)%nat then String backslash "r"
  else if ((n <? 32) || (n =? 127))%nat then
    String backslash (String "x" (String (hex_digit (n / 16)) (String (hex_digit (n mod 16)) "")))
  else String c "".

(** The characters of [repr(s)] between the quotes: UTF-8 is decoded
    character by character; a byte that starts no character is left as
    it is. *)
Fixpoint repr_text (q : ascii) (s : string) : string :=
  match s with
  | EmptyString => EmptyString
  | String c1 r1 =>
      let a := N_of_ascii c1 in
      if (a <? 128)%N then repr_char q c1 ++ repr_text q r1
      else
        match r1 with
        | String c2 r2 =>
            if ((192 <=? a) && (a <=? 223))%N && is_continuation c2
            then
              let cp := ((a - 192) * 64 + low6 c2)%N in
              if is_printable cp then String c1 (String c2 (repr_text q r2))
              else escape cp ++ repr_text q r2
            else
              match r2 with
              | String c3 r3 =>
                  if ((224 <=? a) && (a <=? 239))%N && is_continuation c2 && is_continuation c3
                  then
                    let cp := ((a - 224) * 4096 + low6 c2 * 64 + low6 c3)%N in
                    if is_printable cp
                    then String c1 (String c2 (String c3 (repr_text q r3)))
                    else escape cp ++ repr_text q r3
                  else
                    match r3 with
                    | String c4 r4 =>
                        if ((240 <=? a) && (a <=? 247))%N && is_continuation c2
                           && is_continuation c3 && is_continuation c4
                        then
                          let cp := ((a - 240) * 262144 + low6 c2 * 4096
                                     + low6 c3 * 64 + low6 c4)%N in
                          if is_printable cp
                          then String c1 (String c2 (String c3 (String c4 (repr_text q r4))))
                          else escape cp ++ repr_text q r4
                        else String c1 (repr_text q r1)
                    | EmptyString => String c1 (repr_text q r1)
                    end
              | EmptyString => String c1 (repr_text q r1)
              end
        | EmptyString => String c1 EmptyString
        end
  end.

(** [repr(s)] for a [str]: single quotes unless [s] has a single quote and
    no double quote. *)
Definition repr (s : string) : string :=
  let q := if contains squote s && negb (contains dquote s) then dquote else squote in
  String q (repr_text q s ++ String q "").

End PyStr.

(** ** JSON values as Python objects *)

Inductive json : Type :=
| JNull
| JBool (b : bool)
| JNum (z : Z)
| JStr (s : string)
| JArr (l : list json)
| JObj (d : list (string * json)).

(** A Python dict with [str] keys, in insertion order. *)
Definition pydict : Type := list (string * json).

(** Truth value of an object ([bool(v)], as tested by [if], [not], [or]). *)
Definition truthy (v : json) : bool :=
  match v with
  | JNull => false
  | JBool b => b
  | JNum z => negb (z =? 0)%Z
  | JStr s => negb (s =? "")
  | JArr l => match l with [] => false | _ => true end
  | JObj d => match d with [] => false | _ => true end
  end.

(** [a or b] *)
Definition py_or (a b : json) : json := if truthy a then a else b.

(** A value of type [Optional[str]], as [os.getenv] returns it. *)
Definition of_opt (o : option string) : json :=
  match o with
  | Some s => JStr s
  | None => JNull
  end.

Definition truthy_opt (o : option string) : bool := truthy (of_opt o).

(** [v == s] for a [str] [s]: only the same string is equal to it. *)
Definition eq_str (v : json) (s : string) : bool :=
  match v with
  | JStr t => t =? s
  | _ => false
  end.

(** [repr(v)] *)
Fixpoint py_repr (v : json) : string :=
  match v with
  | JNull => "None"
  | JBool true => "True"
  | JBool false => "False"
  | JNum z => PyStr.of_Z z
  | JStr s => PyStr.repr s
  | JArr l => "[" ++ PyStr.join ", " (map py_repr l) ++ "]"
  | JObj d =>
      "{" ++ PyStr.join ", " (map (fun kv => PyStr.repr (fst kv) ++ ": " ++ py_repr (snd kv)) d) ++ "}"
  end.

(** [str(v)], also what an f-string interpolates. *)
Definition py_str (v : json) : string :=
  match v with
  | JStr s => s
  | _ => py_repr v
  end.

(** Whether [hash(v)] succeeds: lists and dicts are unhashable. *)
Definition hashable (v : json) : bool :=
  match v with
  | JArr _ | JObj _ => false
  | _ => true
  end.

(** Structural equality.  It is Python's [==] wherever one side is a
    [str] or a tuple of [str], the only comparisons the program makes. *)
Fixpoint json_eqb (a b : json) : bool :=
  match a, b with
  | JNull, JNull => true
  | JBool x, JBool y => Bool.eqb x y
  | JNum x, JNum y => (x =? y)%Z
  | JStr x, JStr y => (x =? y)
  | JArr x, JArr y =>
      (fix go (x y : list json) : bool :=
         match x, y with
         | [], [] => true
         | a :: x', b :: y' => json_eqb a b && go x' y'
         | _, _ => false
         end) x y
  | JObj x, JObj y =>
      (fix go (x y : list (string * json)) : bool :=
         match x, y with
         | [], [] => true
         | (k, a) :: x', (k', b) :: y' => (k =? k') && json_eqb a b && go x' y'
         | _, _ => false
         end) x y
  | _, _ => false
  end.

(** ** Dictionaries in insertion order *)

Section Dict.
Context {K V : Type}.
Variable eqb : K -> K -> bool.

(** [d.get(k)] *)
Fixpoint dict_get (k : K) (d : list (K * V)) : option V :=
  match d with
  | [] => None
  | (k', v) :: rest => if eqb k' k then Some v else dict_get k rest
  end.

(** [d[k] = v] *)
Fixpoint dict_set (k : K) (v : V) (d : list (K * V)) : list (K * V) :=
  match d with
  | [] => [(k, v)]
  | (k', v') :: rest => if eqb k' k then (k', v) :: rest else (k', v') :: dict_set k v rest
  end.

(** [del d[k]] *)
Fixpoint dict_del (k : K) (d : list (K * V)) : list (K * V) :=
  match d with
  | [] => []
  | (k', v') :: rest => if eqb k' k then rest else (k', v') :: dict_del k rest
  end.

(** [k in d] *)
Definition dict_mem (k : K) (d : list (K * V)) : bool :=
  match dict_get k d with
  | Some _ => true
  | None => false
  end.

(** [d.values()] *)
Definition dict_values (d : list (K * V)) : list V := map snd d.

End Dict.

(** [d.get(k)] and [d.get(k, default)] on a dict with [str] keys. *)
Definition get (k : string) (d : pydict) : json :=
  match dict_get String.eqb k d with
  | Some v => v
  | None => JNull
  end.

Definition get_or (k : string) (default : json) (d : pydict) : json :=
  match dict_get String.eqb k d with
  | Some v => v
  | None => default
  end.

(** ** Exceptions, outside calls and the world *)

Inductive exn : Type :=
| RuntimeError (msg : string)
| HTTPError        (* [requests]: a failed request or [raise_for_status] *)
| AttributeError
| TypeError
| IndexError
| KeyError
| ValueError
| OverflowError
| DatabaseError.   (* raised by the database driver *)

Inductive outcome (A : Type) : Type :=
| Ok (a : A)
| Raise (e : exn).
Arguments Ok {A} a.
Arguments Raise {A} e.

(** What leaves the process.  The strings of an HTTP call are the
    interpolated parts of its URL. *)
Inductive call : Type :=
| GET_clusters                                         (* GET /clusters *)
| GET_branches (cluster : string)                      (* GET /clusters/{c}/branches *)
| POST_branches (cluster : string) (payload : pydict)  (* POST /clusters/{c}/branches *)
| GET_branch (cluster branch_id : string)              (* GET /clusters/{c}/branches/{b} *)
| DELETE_branch (cluster branch_id : string)           (* DELETE /clusters/{c}/branches/{b} *)
| POST_admin_user (project cluster branch_name : string)
    (* POST {admin}/api/internal/projects/{p}/clusters/{c}/branches/{name}/users *)
| Sleep (seconds : Z)                                  (* time.sleep *)
| DB_connect (host : json) (port : Z) (username password database : json)
| DB_query (sql : string)
| DB_execute (sql : string).

(** The answer of the outside to a call, given the calls made so far;
    [None] is a failed request ([HTTPError], or the driver's error). *)
Definition server : Type := list call -> call -> option json.

(** One line of [branch_credentials.csv] under its header
    [branchName,clusterId,username,password,host,port,database]. *)
Record csv_row : Type := {
  c_branchName : string;
  c_clusterId : string;
  c_username : string;
  c_password : string;
  c_host : string;
  c_port : string;
  c_database : string }.

(** The [BranchManager] dataclass ([base_url] and [admin_base_url] are
    constants of the URLs and are left out). *)
Record BranchManager : Type := {
  public_key : option string;
  private_key : option string;
  access_token : option string;
  cluster_id : json;
  project_id : option string }.

(** The process environment, read when the module is imported. *)
Record Config : Type := {
  TIDBCLOUD_ACCESS_TOKEN : option string;
  TIDBCLOUD_PUBLIC_KEY : option string;
  TIDBCLOUD_PRIVATE_KEY : option string;
  TIDBCLOUD_PROJECT_ID : option string;
  SERVERLESS_CLUSTER_ID : option string;
  SERVERLESS_CLUSTER_HOST : option string;
  SERVERLESS_CLUSTER_USERNAME : option string;
  SERVERLESS_CLUSTER_PASSWORD : option string;
  SERVERLESS_CLUSTER_DATABASE_NAME : option string;
  SERVERLESS_CLUSTER_PORT : Z   (* int(os.getenv("SERVERLESS_CLUSTER_PORT", "4000")) *) }.

(** The mutable state: the credentials file ([None] when it does not
    exist), the globals [_branch_manager] and [_tidb_client] (whether the
    default client has been built), and the calls made so far. *)
Record world : Type := {
  credentials_file : option (list csv_row);
  _branch_manager : option BranchManager;
  _tidb_client : bool;
  trace : list call }.

Definition with_file (f : option (list csv_row)) (w : world) : world :=
  {| credentials_file := f;
     _branch_manager := _branch_manager w;
     _tidb_client := _tidb_client w;
     trace := trace w |}.

Definition with_manager (m : option BranchManager) (w : world) : world :=
  {| credentials_file := credentials_file w;
     _branch_manager := m;
     _tidb_client := _tidb_client w;
     trace := trace w |}.

Definition with_client (b : bool) (w : world) : world :=
  {| credentials_file := credentials_file w;
     _branch_manager := _branch_manager w;
     _tidb_client := b;
     trace := trace w |}.

Definition record_call (c : call) (w : world) : world :=
  {| credentials_file := credentials_file w;
     _branch_manager := _branch_manager w;
     _tidb_client := _tidb_client w;
     trace := (trace w ++ [c])%list |}.

(** ** The monad of state and exceptions *)

Definition M (A : Type) : Type := world -> outcome A * world.

Definition ret {A : Type} (a : A) : M A := fun w => (Ok a, w).

Definition raise {A : Type} (e : exn) : M A := fun w => (Raise e, w).

Definition bind {A B : Type} (m : M A) (f : A -> M B) : M B :=
  fun w =>
    match m w with
    | (Ok a, w') => f a w'
    | (Raise e, w') => (Raise e, w')
    end.

(** [try: m  except Exception: pass] *)
Definition try_pass (m : M unit) : M unit :=
  fun w =>
    match m w with
    | (Ok a, w') => (Ok a, w')
    | (Raise _, w') => (Ok tt, w')
    end.

Declare Scope py_scope.
Delimit Scope py_scope with py.
Notation "x <- m ;; k" := (bind m (fun x => k))
  (at level 61, m at next level, right associativity) : py_scope.
Notation "m ;; k" := (bind m (fun _ => k))
  (at level 61, right associativity) : py_scope.
Local Open Scope py_scope.

Definition lift {A : Type} (o : outcome A) : M A := fun w => (o, w).

(** ** Attribute and item access on JSON values *)

(** [v.get(k)]: only a dict has the method. *)
Definition py_get (k : string) (v : json) : outcome json :=
  match v with
  | JObj d => Ok (get k d)
  | _ => Raise AttributeError
  end.

(** [v.get(k, default)] *)
Definition py_get_or (k : string) (default : json) (v : json) : outcome json :=
  match v with
  | JObj d => Ok (get_or k default d)
  | _ => Raise AttributeError
  end.

(** [v[0]] *)
Definition py_first (v : json) : outcome json :=
  match v with
  | JArr (x :: _) => Ok x
  | JArr [] => Raise IndexError
  | JStr (String c _) => Ok (JStr (String c ""))
  | JStr EmptyString => Raise IndexError
  | JObj _ => Raise KeyError
  | _ => Raise TypeError
  end.

(** The items that [for x in v] goes through. *)
Definition py_iter (v : json) : outcome (list json) :=
  match v with
  | JArr l => Ok l
  | JObj d => Ok (map (fun kv => JStr (fst kv)) d)
  | JStr s => Ok (map (fun c => JStr (String c "")) (list_ascii_of_string s))
  | _ => Raise TypeError
  end.

(** [v.k] on a result object, given by the dict of its attributes. *)
Definition py_attr (k : string) (v : json) : outcome json :=
  match v with
  | JObj d =>
      match dict_get String.eqb k d with
      | Some x => Ok x
      | None => Raise AttributeError
      end
  | _ => Raise AttributeError
  end.

(** [int(v)] *)
Definition py_int (v : json) : outcome Z :=
  match v with
  | JNum z => Ok z
  | JBool b => Ok (if b then 1 else 0)%Z
  | JStr s => match PyStr.to_Z s with Some z => Ok z | None => Raise ValueError end
  | _ => Raise TypeError
  end.

(** ** The credential cache store *)

(** The in-memory cache: a dict from [(branchName, clusterId)] to a
    record, in insertion order. *)
Definition cache_key : Type := (json * json)%type.
Definition cache : Type := list (cache_key * pydict).

Definition key_eqb (a b : cache_key) : bool :=
  json_eqb (fst a) (fst b) && json_eqb (snd a) (snd b).

Definition key_hashable (k : cache_key) : bool := hashable (fst k) && hashable (snd k).

(** ["port": int(row["port"]) if row.get("port") else None] *)
Definition port_of_cell (cell : string) : outcome json :=
  if truthy (JStr cell) then
    match PyStr.to_Z cell with
    | Some z => Ok (JNum z)
    | None => Raise ValueError
    end
  else Ok JNull.

(** The record that [_load_admin_credentials] builds from a row. *)
Definition record_of_row (row : csv_row) (port : json) : pydict :=
  [ ("branchName", JStr (c_branchName row));
    ("clusterId", JStr (c_clusterId row));
    ("username", JStr (c_username row));
    ("password", JStr (c_password row));
    ("host", JStr (c_host row));
    ("port", port);
    ("database", JStr (c_database row)) ].

(** [for row in reader: records[key] = {...}] *)
Fixpoint load_rows (rows : list csv_row) (records : cache) : outcome cache :=
  match rows with
  | [] => Ok records
  | row :: rest =>
      match port_of_cell (c_port row) with
      | Ok port =>
          let key := (JStr (c_branchName row), JStr (c_clusterId row)) in
          load_rows rest (dict_set key_eqb key (record_of_row row port) records)
      | Raise e => Raise e
      end
  end.

(** What [_load_admin_credentials] reads from the file: nothing when
    the file does not exist. *)
Definition load_file (file : option (list csv_row)) : outcome cache :=
  match file with
  | None => Ok []
  | Some rows => load_rows rows []
  end.

Definition _load_admin_credentials : M cache :=
  fun w => (load_file (credentials_file w), w).

(** What [csv.writer] puts in a cell: nothing for [None], the string
    itself, [str(v)] for the rest. *)
Definition csv_cell (v : json) : string :=
  match v with
  | JNull => ""
  | _ => py_str v
  end.

(** [writer.writerow(entry)]: a missing field is written as [""]. *)
Definition row_of_record (entry : pydict) : csv_row :=
  let cell k := csv_cell (get_or k (JStr "") entry) in
  {| c_branchName := cell "branchName";
     c_clusterId := cell "clusterId";
     c_username := cell "username";
     c_password := cell "password";
     c_host := cell "host";
     c_port := cell "port";
     c_database := cell "database" |}.

Definition _write_admin_credentials (records : cache) : M unit :=
  fun w => (Ok tt, with_file (Some (map row_of_record (dict_values records))) w).

(** The key and the record under which [_store_admin_credential] keeps
    an entry. *)
Definition key_of_entry (entry : pydict) : cache_key :=
  (get_or "branchName" (JStr "") entry, get_or "clusterId" (JStr "") entry).

Definition record_of_entry (entry : pydict) : pydict :=
  [ ("branchName", get_or "branchName" (JStr "") entry);
    ("clusterId", get_or "clusterId" (JStr "") entry);
    ("username", get_or "username" (JStr "") entry);
    ("password", get_or "password" (JStr "") entry);
    ("host", get_or "host" (JStr "") entry);
    ("port", get "port" entry);
    ("database", get_or "database" (JStr "") entry) ].

Definition _store_admin_credential (entry : pydict) : M unit :=
  records <- _load_admin_credentials ;;
  let key := key_of_entry entry in
  if negb (key_hashable key) then raise TypeError
  else _write_admin_credentials (dict_set key_eqb key (record_of_entry entry) records).

Definition _get_cached_admin_credential (branch_name : string) (cluster : json)
  : M (option pydict) :=
  records <- _load_admin_credentials ;;
  let key := (JStr branch_name, cluster) in
  if negb (key_hashable key) then raise TypeError
  else ret (dict_get key_eqb key records).

Definition _delete_admin_credential (branch_name cluster : json) : M unit :=
  records <- _load_admin_credentials ;;
  let key := (branch_name, cluster) in
  if negb (key_hashable key) then raise TypeError
  else if dict_mem key_eqb key records
       then _write_admin_credentials (dict_del key_eqb key records)
       else ret tt.

(** ** The program *)

Section Program.

Variable cfg : Config.
Variable remote : server.

(** *** Module-level constants *)

(** [(os.getenv("TIDBCLOUD_ACCESS_TOKEN") or "").strip() or None] *)
Definition _access_token : option string :=
  let raw := match TIDBCLOUD_ACCESS_TOKEN cfg with
             | Some s => if truthy (JStr s) then s else ""
             | None => ""
             end in
  let stripped := PyStr.strip raw in
  if truthy (JStr stripped) then Some stripped else None.

Definition _public_key : option string := TIDBCLOUD_PUBLIC_KEY cfg.
Definition _private_key : option string := TIDBCLOUD_PRIVATE_KEY cfg.
Definition _project_id : option string := TIDBCLOUD_PROJECT_ID cfg.
Definition DEFAULT_DATABASE : option string := SERVERLESS_CLUSTER_DATABASE_NAME cfg.
Definition DEFAULT_PORT : Z := SERVERLESS_CLUSTER_PORT cfg.

(** *** The outside *)

(** [requests.request(...)], then [resp.raise_for_status()] and
    [resp.json()], which every caller applies to the response at once. *)
Definition send (c : call) : M json :=
  fun w =>
    (match remote (trace w) c with
     | Some body => Ok body
     | None => Raise HTTPError
     end,
     record_call c w).

(** The seconds that the clock of [time.sleep] holds: the clock counts
    nanoseconds in 64 bits. *)
Definition sleep_max : Z := 9223372036.

(** What [time.sleep(seconds)] raises instead of sleeping:
    [OverflowError] for a length that the clock does not hold, then
    [ValueError] for a negative length.  Any other length is slept. *)
Definition sleep_refusal (seconds : Z) : option exn :=
  if (seconds <? - sleep_max)%Z || (sleep_max <? seconds)%Z then Some OverflowError
  else if (seconds <? 0)%Z then Some ValueError
  else None.

(** [time.sleep(seconds)] *)
Definition sleep (seconds : Z) : M unit :=
  fun w =>
    match sleep_refusal seconds with
    | Some e => (Raise e, w)
    | None => (Ok tt, record_call (Sleep seconds) w)
    end.

(** *** [BranchManager] *)

(** The manager object: the program has one, held by [_branch_manager];
    a method called on [None] raises. *)
Definition this : M BranchManager :=
  fun w =>
    match _branch_manager w with
    | Some self => (Ok self, w)
    | None => (Raise AttributeError, w)
    end.

Definition set_cluster_id (v : json) : M unit :=
  fun w =>
    (Ok tt,
     with_manager
       match _branch_manager w with
       | Some self =>
           Some {| public_key := public_key self;
                   private_key := private_key self;
                   access_token := access_token self;
                   cluster_id := v;
                   project_id := project_id self |}
       | None => None
       end w).

(** The [auth] property. *)
Definition BranchManager_auth : M unit :=
  self <- this ;;
  if negb (truthy_opt (public_key self)) || negb (truthy_opt (private_key self))
  then raise (RuntimeError
    "Provide TIDBCLOUD_ACCESS_TOKEN or both TIDBCLOUD_PUBLIC_KEY and TIDBCLOUD_PRIVATE_KEY.")
  else ret tt.

Definition BranchManager__request (c : call) : M json :=
  self <- this ;;
  (if truthy_opt (access_token self) then ret tt else BranchManager_auth) ;;
  send c.

Definition BranchManager__get_default_cluster : M json :=
  data <- BranchManager__request GET_clusters ;;
  found <- lift (py_get "clusters" data) ;;
  let clusters := py_or found (JArr []) in
  if negb (truthy clusters)
  then raise (RuntimeError "No clusters found for the current API key.")
  else
    first <- lift (py_first clusters) ;;
    a <- lift (py_get "clusterId" first) ;;
    if truthy a then ret a else lift (py_get "id" first).

Definition BranchManager__cluster : M json :=
  self <- this ;;
  if truthy (cluster_id self) then ret (cluster_id self)
  else
    v <- BranchManager__get_default_cluster ;;
    set_cluster_id v ;;
    ret v.

Definition BranchManager_list_branches : M json :=
  c <- BranchManager__cluster ;;
  data <- BranchManager__request (GET_branches (py_str c)) ;;
  lift (py_get_or "branches" (JArr []) data).

Definition BranchManager_create_branch (display_name : string)
    (parent_id parent_timestamp : json) : M json :=
  let payload := [("displayName", JStr display_name)] in
  let payload := if truthy parent_id
                 then dict_set String.eqb "parentId" parent_id payload
                 else payload in
  let payload := if truthy parent_timestamp
                 then dict_set String.eqb "parentTimestamp" parent_timestamp payload
                 else payload in
  c <- BranchManager__cluster ;;
  BranchManager__request (POST_branches (py_str c) payload).

Definition BranchManager_get_branch (branch_id : json) : M json :=
  c <- BranchManager__cluster ;;
  BranchManager__request (GET_branch (py_str c) (py_str branch_id)).

Definition BranchManager_delete_branch (branch_id : json) : M json :=
  c <- BranchManager__cluster ;;
  BranchManager__request (DELETE_branch (py_str c) (py_str branch_id)).

Definition BranchManager_create_admin_user_for_branch
    (project : option string) (cluster : json) (branch_name : string) : M json :=
  self <- this ;;
  let resolved_project := py_or (of_opt project) (of_opt (project_id self)) in
  resolved_cluster <- (if truthy cluster then ret cluster else BranchManager__cluster) ;;
  if negb (truthy resolved_project) || negb (truthy resolved_cluster)
     || negb (truthy (JStr branch_name))
  then raise (RuntimeError
    "Project ID, cluster ID, and branch_name are required to create branch admin users.")
  else
    BranchManager__request
      (POST_admin_user (py_str resolved_project) (py_str resolved_cluster) branch_name).

(** *** Module-level functions *)

Definition _get_branch_manager : M unit :=
  fun w =>
    match _branch_manager w with
    | Some _ => (Ok tt, w)
    | None =>
        if negb (truthy_opt _access_token)
           && (match _public_key with None => true | Some _ => false end
               || match _private_key with None => true | Some _ => false end)
        then (Raise (RuntimeError
          "Set TIDBCLOUD_ACCESS_TOKEN or both TIDBCLOUD_PUBLIC_KEY and TIDBCLOUD_PRIVATE_KEY in the .env file."),
          w)
        else
          (Ok tt,
           with_manager
             (Some {| public_key := _public_key;
                      private_key := _private_key;
                      access_token := _access_token;
                      cluster_id := of_opt (SERVERLESS_CLUSTER_ID cfg);
                      project_id := _project_id |}) w)
    end.

(** [for br in branches: if br.get("displayName") == display_name: ...] *)
Fixpoint scan_branches (display_name : string) (branches : list json) : outcome json :=
  match branches with
  | [] => Ok JNull
  | br :: rest =>
      match py_get "displayName" br with
      | Ok name =>
          if eq_str name display_name then py_get "branchId" br
          else scan_branches display_name rest
      | Raise e => Raise e
      end
  end.

Definition _resolve_branch_id (display_name : string) : M json :=
  _get_branch_manager ;;
  branches <- BranchManager_list_branches ;;
  items <- lift (py_iter branches) ;;
  lift (scan_branches display_name items).

(** [for attempt in range(n)]: the result tells whether the loop was left
    by [return] ([true]) or ran out ([false]). *)
Fixpoint poll (n : nat) (branch_id : json) (delay_seconds : Z) : M bool :=
  match n with
  | O => ret false
  | S n' =>
      info <- BranchManager_get_branch branch_id ;;
      state <- lift (py_get "state" info) ;;
      if eq_str state "ACTIVE" then ret true
      else sleep delay_seconds ;; poll n' branch_id delay_seconds
  end.

Definition not_active_message (branch_id : json) (retries delay_seconds : Z) : string :=
  "Branch " ++ py_str branch_id ++ " not active after "
    ++ py_str (JNum (retries * delay_seconds)) ++ " seconds.".

Definition _wait_for_branch_active (branch_id : json) (retries delay_seconds : Z) : M unit :=
  returned <- poll (Z.to_nat retries) branch_id delay_seconds ;;
  if returned then ret tt
  else raise (RuntimeError (not_active_message branch_id retries delay_seconds)).

(** [(branch_info.get("endpoints") or {}).get("public") or {}] *)
Definition public_endpoints (branch_info : json) : outcome json :=
  match py_get "endpoints" branch_info with
  | Ok e =>
      match py_get "public" (py_or e (JObj [])) with
      | Ok p => Ok (py_or p (JObj []))
      | Raise x => Raise x
      end
  | Raise x => Raise x
  end.

Definition missing_host_message : string :=
  "Branch endpoints missing host; branch may not be ready or API response incomplete.".
Definition missing_port_message : string :=
  "Branch endpoints missing port; branch may not be ready or API response incomplete.".
Definition not_found_message (branch_name : string) : string :=
  "Branch `" ++ branch_name ++ "` not found; ensure it exists before requesting credentials.".
Definition project_id_message : string :=
  "TIDBCLOUD_PROJECT_ID is required to create branch admin users.".

(** The condition of the fast path:
    [cached and cached.get("host") and cached.get("port")]. *)
Definition usable (cached : option pydict) : bool :=
  match cached with
  | Some c => truthy (JObj c) && truthy (get "host" c) && truthy (get "port" c)
  | None => false
  end.

(** The [else] branch of [_ensure_admin_credential] up to the assembled
    payload (lines 309-332). *)
Definition provision (branch_name : string) (resolved_cluster : json) : M pydict :=
  branch_id <- _resolve_branch_id branch_name ;;
  match branch_id with
  | JNull => raise (RuntimeError (not_found_message branch_name))
  | _ =>
      _wait_for_branch_active branch_id 20 10 ;;
      branch_info <- BranchManager_get_branch branch_id ;;
      endpoints <- lift (public_endpoints branch_info) ;;
      admin_info <- BranchManager_create_admin_user_for_branch None resolved_cluster branch_name ;;
      host0 <- lift (py_get "host" endpoints) ;;
      port0 <- lift (py_get "port" endpoints) ;;
      endpoints <- (if negb (truthy host0) || negb (truthy port0)
                    then branch_info <- BranchManager_get_branch branch_id ;;
                         lift (public_endpoints branch_info)
                    else ret endpoints) ;;
      username <- lift (py_get_or "username" (JStr "") admin_info) ;;
      password <- lift (py_get_or "password" (JStr "") admin_info) ;;
      host <- lift (py_get "host" endpoints) ;;
      port <- lift (py_get "port" endpoints) ;;
      let entry :=
        [ ("branchName", JStr branch_name);
          ("clusterId", resolved_cluster);
          ("username", username);
          ("password", password);
          ("host", host);
          ("port", port);
          ("database", JStr (match DEFAULT_DATABASE with
                             | Some s => if truthy (JStr s) then s else ""
                             | None => ""
                             end)) ] in
      ret (("source", JStr "created") :: entry)
  end.

(** The checks before [return payload] (lines 335-342). *)
Definition validate (payload : pydict) : M pydict :=
  if negb (truthy (get "host" payload)) then raise (RuntimeError missing_host_message)
  else if negb (truthy (get "port" payload)) then raise (RuntimeError missing_port_message)
  else if truthy_opt DEFAULT_DATABASE && negb (truthy (get "database" payload))
       then ret (dict_set String.eqb "database" (of_opt DEFAULT_DATABASE) payload)
       else ret payload.

(** [{"source": "cache", **cached}] *)
Definition from_cache (cached : option pydict) : pydict :=
  ("source", JStr "cache") :: match cached with Some c => c | None => [] end.

(** [cluster_id or manager._cluster()] (line 302). *)
Definition effective_cluster (cluster : option string) : M json :=
  if truthy_opt cluster then ret (of_opt cluster) else BranchManager__cluster.

Definition _ensure_admin_credential (branch_name : string) (cluster : option string)
  : M pydict :=
  _get_branch_manager ;;
  resolved_cluster <- effective_cluster cluster ;;
  if negb (truthy_opt _project_id) then raise (RuntimeError project_id_message)
  else
    cached <- _get_cached_admin_credential branch_name resolved_cluster ;;
    payload <- (if usable cached then ret (from_cache cached)
                else
                  payload <- provision branch_name resolved_cluster ;;
                  _store_admin_credential payload ;;
                  ret payload) ;;
    validate payload.

(** *** The operations exposed to the agent

    A tool returns [json.dumps(x)]; the embedding returns [x]. *)

Definition delete_branch (branch_id : string) : M json :=
  _get_branch_manager ;;
  deleted <- BranchManager_delete_branch (JStr branch_id) ;;
  try_pass
    (info <- BranchManager_get_branch (JStr branch_id) ;;
     display_name <- lift (py_get "displayName" info) ;;
     if truthy display_name
     then c <- BranchManager__cluster ;;
          _delete_admin_credential display_name c
     else ret tt) ;;
  ret deleted.

Definition create_branch (display_name : string) (parent_id : option string) : M json :=
  _get_branch_manager ;;
  created <- BranchManager_create_branch display_name (of_opt parent_id) JNull ;;
  a <- lift (py_get "branchId" created) ;;
  branch_id <- (if truthy a then ret a else lift (py_get "id" created)) ;;
  (if truthy branch_id then _wait_for_branch_active branch_id 20 10 else ret tt) ;;
  ret created.

Definition parent_not_found_message (parent_display_name : string) : string :=
  "Parent branch `" ++ parent_display_name ++ "` not found.".

Definition create_branch_from_display_name (display_name parent_display_name : string)
  : M json :=
  _get_branch_manager ;;
  parent_id <- _resolve_branch_id parent_display_name ;;
  if negb (truthy parent_id)
  then raise (RuntimeError (parent_not_found_message parent_display_name))
  else
    created <- BranchManager_create_branch display_name parent_id JNull ;;
    a <- lift (py_get "branchId" created) ;;
    branch_id <- (if truthy a then ret a else lift (py_get "id" created)) ;;
    (if truthy branch_id then _wait_for_branch_active branch_id 20 10 else ret tt) ;;
    ret created.

(** [create_backup]; [utcnow] is the text of
    [datetime.utcnow().strftime('%Y%m%d%H%M%S')] at the call. *)
Definition BranchManager_create_backup (utcnow : string) (display_name : option string)
  : M json :=
  let backup_name := if truthy_opt display_name
                     then match display_name with Some s => s | None => "" end
                     else "backup-" ++ utcnow in
  BranchManager_create_branch backup_name JNull JNull.

Definition create_branch_backup (utcnow : string) (display_name : option string) : M json :=
  _get_branch_manager ;;
  backup <- BranchManager_create_backup utcnow display_name ;;
  a <- lift (py_get "branchId" backup) ;;
  branch_id <- (if truthy a then ret a else lift (py_get "id" backup)) ;;
  (if truthy branch_id then _wait_for_branch_active branch_id 20 10 else ret tt) ;;
  ret backup.

Definition list_branches : M json :=
  _get_branch_manager ;;
  BranchManager_list_branches.

Definition get_branch (branch_id : string) : M json :=
  _get_branch_manager ;;
  BranchManager_get_branch (JStr branch_id).

Definition get_admin_user_for_branch (branch_name : string) (cluster : option string)
  : M pydict :=
  _ensure_admin_credential branch_name cluster.

(** The database driver: [None] from the outside is its exception. *)
Definition driver (c : call) : M json :=
  fun w =>
    (match remote (trace w) c with
     | Some r => Ok r
     | None => Raise DatabaseError
     end,
     record_call c w).

Definition _connect_branch_client (creds : pydict) : M unit :=
  let host := get "host" creds in
  if negb (truthy host)
  then raise (RuntimeError "Branch host is missing; ensure branch admin API includes host.")
  else if negb (truthy (get "port" creds))
  then raise (RuntimeError "Branch port is missing; ensure branch admin API includes port.")
  else
    port <- lift (py_int (py_or (get "port" creds) (JNum DEFAULT_PORT))) ;;
    driver (DB_connect host port (get "username" creds) (get "password" creds)
              (py_or (get "database" creds) (of_opt DEFAULT_DATABASE))) ;;
    ret tt.

(** [sql.strip().lower().startswith("select")] *)
Definition is_select (sql : string) : bool :=
  let sql_clean := PyStr.lower (PyStr.strip sql) in
  PyStr.startswith sql_clean "select".

Definition run_sql_on_branch (branch_name sql : string) : M json :=
  creds <- _ensure_admin_credential branch_name None ;;
  _connect_branch_client creds ;;
  if is_select sql then
    rows <- driver (DB_query sql) ;;
    ret (JObj [("branch", JStr branch_name); ("rows", rows)])
  else
    result <- driver (DB_execute sql) ;;
    rowcount <- lift (py_attr "rowcount" result) ;;
    success <- lift (py_attr "success" result) ;;
    message <- lift (py_attr "message" result) ;;
    ret (JObj [("branch", JStr branch_name); ("rowcount", rowcount);
               ("success", success); ("message", message)]).

(** [_env(name)] *)
Definition _env (name : string) (value : option string) : M string :=
  match value with
  | Some v => ret v
  | None => raise (RuntimeError ("Missing environment variable: " ++ name))
  end.

Definition _build_tidb_client : M unit :=
  host <- _env "SERVERLESS_CLUSTER_HOST" (SERVERLESS_CLUSTER_HOST cfg) ;;
  username <- _env "SERVERLESS_CLUSTER_USERNAME" (SERVERLESS_CLUSTER_USERNAME cfg) ;;
  password <- _env "SERVERLESS_CLUSTER_PASSWORD" (SERVERLESS_CLUSTER_PASSWORD cfg) ;;
  database <- _env "SERVERLESS_CLUSTER_DATABASE_NAME" (SERVERLESS_CLUSTER_DATABASE_NAME cfg) ;;
  driver (DB_connect (JStr host) DEFAULT_PORT (JStr username) (JStr password) (JStr database)) ;;
  ret tt.

Definition _get_tidb_client : M unit :=
  fun w =>
    if _tidb_client w then (Ok tt, w)
    else match _build_tidb_client w with
         | (Ok _, w') => (Ok tt, with_client true w')
         | (Raise e, w') => (Raise e, w')
         end.

Definition run_sql (sql : string) : M json :=
  let sql_clean := PyStr.lower (PyStr.strip sql) in
  _get_tidb_client ;;
  if PyStr.startswith sql_clean "select" then
    rows <- driver (DB_query sql) ;;
    ret (JObj [("rows", rows)])
  else
    result <- driver (DB_execute sql) ;;
    rowcount <- lift (py_attr "rowcount" result) ;;
    success <- lift (py_attr "success" result) ;;
    message <- lift (py_attr "message" result) ;;
    ret (JObj [("rowcount", rowcount); ("success", success); ("message", message)]).

Definition select_branch_rows (branch_name query : string) (cluster : option string)
  : M json :=
  creds <- _ensure_admin_credential branch_name cluster ;;
  _connect_branch_client creds ;;
  driver (DB_query query).

(** *** [dev/delete_all_branches.py]

    [branch_manager] is the proxy that obtains the manager at every
    attribute access.  The script prints its results; the embedding returns
    them, an error with the exception in place of its text. *)

Inductive deletion : Type :=
| Deleted (branch_id name response : json)
| Failed (branch_id name : json) (error : exn).

(** [try: ... except Exception as exc: ...] with a handler for each case. *)
Definition attempt {A : Type} (m : M A) : M (outcome A) :=
  fun w => let (r, w') := m w in (Ok r, w').

Fixpoint delete_each (branches : list json) : M (list deletion) :=
  match branches with
  | [] => ret []
  | br :: rest =>
      a <- lift (py_get "branchId" br) ;;
      branch_id <- (if truthy a then ret a else lift (py_get "id" br)) ;;
      n <- lift (py_get "displayName" br) ;;
      let name := py_or n branch_id in
      r <- attempt (_get_branch_manager ;; BranchManager_delete_branch branch_id) ;;
      results <- delete_each rest ;;
      ret (match r with
           | Ok resp => Deleted branch_id name resp
           | Raise exc => Failed branch_id name exc
           end :: results)
  end.

(** [main]: [None] when there was nothing to delete. *)
Definition delete_all_branches : M (option (list deletion)) :=
  _get_branch_manager ;;
  branches <- BranchManager_list_branches ;;
  if negb (truthy branches) then ret None
  else
    items <- lift (py_iter branches) ;;
    results <- delete_each items ;;
    ret (Some results).

End Program.

(** ** Fixtures: the environment and the manager double of the tests *)

Module Fixture.

(** [{"TIDBCLOUD_PROJECT_ID": "proj"}], with a token and the cluster that
    [DummyManager._cluster] answers. *)
Definition env : Config :=
  {| TIDBCLOUD_ACCESS_TOKEN := Some "token";
     TIDBCLOUD_PUBLIC_KEY := None;
     TIDBCLOUD_PRIVATE_KEY := None;
     TIDBCLOUD_PROJECT_ID := Some "proj";
     SERVERLESS_CLUSTER_ID := Some "cluster-1";
     SERVERLESS_CLUSTER_HOST := None;
     SERVERLESS_CLUSTER_USERNAME := None;
     SERVERLESS_CLUSTER_PASSWORD := None;
     SERVERLESS_CLUSTER_DATABASE_NAME := None;
     SERVERLESS_CLUSTER_PORT := 4000 |}.

Definition is_get_branch (c : call) : bool :=
  match c with GET_branch _ _ => true | _ => false end.

Definition is_admin_call (c : call) : bool :=
  match c with POST_admin_user _ _ _ => true | _ => false end.

Definition branch_json (branch_id state : string) (endpoints : list (string * json)) : json :=
  JObj ([("branchId", JStr branch_id); ("state", JStr state)] ++ endpoints)%list.

Definition h1_1234 : list (string * json) :=
  [("endpoints", JObj [("public", JObj [("host", JStr "h1"); ("port", JNum 1234)])])].

(** [DummyManager] of [test_branch_auth.py]: CREATING at the first
    [get_branch], ACTIVE without endpoints at the second if no admin user
    was created yet, ACTIVE with endpoints afterwards. *)
Definition dummy : server :=
  fun history c =>
    match c with
    | GET_branches _ =>
        Some (JObj [("branches",
                     JArr [JObj [("displayName", JStr "demo-branch"); ("branchId", JStr "b1")]])])
    | GET_branch _ b =>
        let calls := S (List.length (filter is_get_branch history)) in
        let refreshed := existsb is_admin_call history in
        if (calls =? 1)%nat then Some (branch_json b "CREATING" [])
        else if (calls =? 2)%nat && negb refreshed then Some (branch_json b "ACTIVE" [])
        else Some (branch_json b "ACTIVE" h1_1234)
    | POST_admin_user _ _ _ =>
        Some (JObj [("username", JStr "u1"); ("password", JStr "p1")])
    | POST_branches _ payload => Some (JObj (("branchId", JStr "b1") :: payload))
    | DELETE_branch _ _ => Some (JObj [])
    | _ => None
    end.

(** A control plane that publishes the endpoints of the branch only once
    an admin user exists. *)
Definition late_endpoints : server :=
  fun history c =>
    match c with
    | GET_branch _ b =>
        if existsb is_admin_call history then Some (branch_json b "ACTIVE" h1_1234)
        else Some (branch_json b "ACTIVE" [])
    | _ => dummy history c
    end.

(** A control plane that never publishes them. *)
Definition no_endpoints : server :=
  fun history c =>
    match c with
    | GET_branch _ b => Some (branch_json b "ACTIVE" [])
    | _ => dummy history c
    end.

(** A control plane that no longer knows a branch once it is deleted. *)
Definition gone_after_delete : server :=
  fun history c =>
    match c with
    | GET_branch _ b =>
        if existsb (fun x => match x with DELETE_branch _ _ => true | _ => false end) history
        then None
        else Some (JObj [("branchId", JStr b); ("displayName", JStr "demo-branch");
                         ("state", JStr "ACTIVE")])
    | _ => dummy history c
    end.

(** A control plane that still describes a deleted branch. *)
Definition named_after_delete : server :=
  fun history c =>
    match c with
    | GET_branch _ b =>
        Some (JObj [("branchId", JStr b); ("displayName", JStr "demo-branch");
                    ("state", JStr "DELETING")])
    | _ => dummy history c
    end.

(** The manager double together with a database that accepts every
    connection, answers a query with one row and a statement with a
    result object. *)
Definition dummy_with_database : server :=
  fun history c =>
    match c with
    | DB_connect _ _ _ _ _ => Some JNull
    | DB_query _ => Some (JArr [JObj [("1", JNum 1)]])
    | DB_execute _ =>
        Some (JObj [("rowcount", JNum 0); ("success", JBool true); ("message", JStr "")])
    | _ => dummy history c
    end.

Definition fresh : world :=
  {| credentials_file := None;
     _branch_manager := None;
     _tidb_client := false;
     trace := [] |}.

(** The manager that [_get_branch_manager] builds from [env]. *)
Definition manager : BranchManager :=
  {| public_key := None;
     private_key := None;
     access_token := Some "token";
     cluster_id := JStr "cluster-1";
     project_id := Some "proj" |}.

Definition managed : world := with_manager (Some manager) fresh.

(** A credentials file with one usable record. *)
Definition demo_row : csv_row :=
  {| c_branchName := "demo-branch";
     c_clusterId := "cluster-1";
     c_username := "u1";
     c_password := "p1";
     c_host := "h1";
     c_port := "1234";
     c_database := "" |}.

Definition demo_record : pydict :=
  [ ("branchName", JStr "demo-branch"); ("clusterId", JStr "cluster-1");
    ("username", JStr "u1"); ("password", JStr "p1");
    ("host", JStr "h1"); ("port", JNum 1234); ("database", JStr "") ].

Definition cached : world := with_file (Some [demo_row]) managed.

(** [env] without [TIDBCLOUD_PROJECT_ID]. *)
Definition env_without_project : Config :=
  {| TIDBCLOUD_ACCESS_TOKEN := Some "token";
     TIDBCLOUD_PUBLIC_KEY := None;
     TIDBCLOUD_PRIVATE_KEY := None;
     TIDBCLOUD_PROJECT_ID := None;
     SERVERLESS_CLUSTER_ID := Some "cluster-1";
     SERVERLESS_CLUSTER_HOST := None;
     SERVERLESS_CLUSTER_USERNAME := None;
     SERVERLESS_CLUSTER_PASSWORD := None;
     SERVERLESS_CLUSTER_DATABASE_NAME := None;
     SERVERLESS_CLUSTER_PORT := 4000 |}.

(** [env] with the access token and nothing else: no project id, no
    cluster id. *)
Definition env_token_only : Config :=
  {| TIDBCLOUD_ACCESS_TOKEN := Some "token";
     TIDBCLOUD_PUBLIC_KEY := None;
     TIDBCLOUD_PRIVATE_KEY := None;
     TIDBCLOUD_PROJECT_ID := None;
     SERVERLESS_CLUSTER_ID := None;
     SERVERLESS_CLUSTER_HOST := None;
     SERVERLESS_CLUSTER_USERNAME := None;
     SERVERLESS_CLUSTER_PASSWORD := None;
     SERVERLESS_CLUSTER_DATABASE_NAME := None;
     SERVERLESS_CLUSTER_PORT := 4000 |}.

(** A control plane that answers no request. *)
Definition unreachable : server := fun _ _ => None.

(** [env] with [SERVERLESS_CLUSTER_DATABASE_NAME=test]. *)
Definition env_with_database : Config :=
  {| TIDBCLOUD_ACCESS_TOKEN := Some "token";
     TIDBCLOUD_PUBLIC_KEY := None;
     TIDBCLOUD_PRIVATE_KEY := None;
     TIDBCLOUD_PROJECT_ID := Some "proj";
     SERVERLESS_CLUSTER_ID := Some "cluster-1";
     SERVERLESS_CLUSTER_HOST := None;
     SERVERLESS_CLUSTER_USERNAME := None;
     SERVERLESS_CLUSTER_PASSWORD := None;
     SERVERLESS_CLUSTER_DATABASE_NAME := Some "test";
     SERVERLESS_CLUSTER_PORT := 4000 |}.

(** A file in which two rows carry the names of the same branch. *)
Definition other_row : csv_row :=
  {| c_branchName := "other";
     c_clusterId := "cluster-1";
     c_username := "u2";
     c_password := "p2";
     c_host := "h2";
     c_port := "";
     c_database := "" |}.

Definition newer_row : csv_row :=
  {| c_branchName := "demo-branch";
     c_clusterId := "cluster-1";
     c_username := "u3";
     c_password := "p3";
     c_host := "h3";
     c_port := "4000";
     c_database := "test" |}.

Definition duplicated : world := with_file (Some [demo_row; other_row; newer_row]) managed.

(** A row whose port is not the text of an integer. *)
Definition float_port_row : csv_row :=
  {| c_branchName := "b";
     c_clusterId := "c";
     c_username := "";
     c_password := "";
     c_host := "h";
     c_port := "4000.0";
     c_database := "" |}.

Definition damaged : world := with_file (Some [demo_row; float_port_row]) managed.

(** A manager that has not asked for its cluster yet. *)
Definition undiscovered : world :=
  with_manager
    (Some {| public_key := None;
             private_key := None;
             access_token := Some "token";
             cluster_id := JNull;
             project_id := Some "proj" |}) fresh.

(** An account with two clusters, and one with none. *)
Definition two_clusters : server :=
  fun history c =>
    match c with
    | GET_clusters =>
        Some (JObj [("clusters", JArr [JObj [("clusterId", JStr "cluster-1")];
                                       JObj [("clusterId", JStr "cluster-2")]])])
    | _ => dummy history c
    end.

Definition no_clusters : server :=
  fun history c =>
    match c with
    | GET_clusters => Some (JObj [("clusters", JArr [])])
    | _ => dummy history c
    end.

(** [env] with the two keys set to the empty string and no token. *)
Definition env_empty_keys : Config :=
  {| TIDBCLOUD_ACCESS_TOKEN := None;
     TIDBCLOUD_PUBLIC_KEY := Some "";
     TIDBCLOUD_PRIVATE_KEY := Some "";
     TIDBCLOUD_PROJECT_ID := Some "proj";
     SERVERLESS_CLUSTER_ID := Some "cluster-1";
     SERVERLESS_CLUSTER_HOST := None;
     SERVERLESS_CLUSTER_USERNAME := None;
     SERVERLESS_CLUSTER_PASSWORD := None;
     SERVERLESS_CLUSTER_DATABASE_NAME := None;
     SERVERLESS_CLUSTER_PORT := 4000 |}.

(** A branch list in which two branches bear the same display name, the
    first of them without an id. *)
Definition twins : server :=
  fun history c =>
    match c with
    | GET_branches _ =>
        Some (JObj [("branches",
                     JArr [JObj [("displayName", JStr "main"); ("branchId", JStr "b0")];
                           JObj [("displayName", JStr "demo-branch")];
                           JObj [("displayName", JStr "demo-branch"); ("branchId", JStr "b2")]])])
    | _ => dummy history c
    end.

(** A control plane whose second answer about a branch is an error. *)
Definition flaky : server :=
  fun history c =>
    match c with
    | GET_branch _ b =>
        if (List.length (filter is_get_branch history) =? 0)%nat
        then Some (branch_json b "CREATING" [])
        else None
    | _ => dummy history c
    end.

(** Two branches, the first of which cannot be deleted. *)
Definition stubborn : server :=
  fun history c =>
    match c with
    | GET_branches _ =>
        Some (JObj [("branches",
                     JArr [JObj [("branchId", JStr "b1"); ("displayName", JStr "one")];
                           JObj [("id", JStr "b2")]])])
    | DELETE_branch _ b => if b =? "b1" then None else Some (JObj [])
    | _ => dummy history c
    end.

(** A control plane on which a branch is active, with its endpoints,
    from the first request on. *)
Definition prompt : server :=
  fun history c =>
    match c with
    | GET_branch _ b => Some (branch_json b "ACTIVE" h1_1234)
    | _ => dummy history c
    end.

(** The environment of the default client. *)
Definition env_with_cluster : Config :=
  {| TIDBCLOUD_ACCESS_TOKEN := Some "token";
     TIDBCLOUD_PUBLIC_KEY := None;
     TIDBCLOUD_PRIVATE_KEY := None;
     TIDBCLOUD_PROJECT_ID := Some "proj";
     SERVERLESS_CLUSTER_ID := Some "cluster-1";
     SERVERLESS_CLUSTER_HOST := Some "main-host";
     SERVERLESS_CLUSTER_USERNAME := Some "root";
     SERVERLESS_CLUSTER_PASSWORD := Some "";
     SERVERLESS_CLUSTER_DATABASE_NAME := Some "test";
     SERVERLESS_CLUSTER_PORT := 4000 |}.

End Fixture.


(** ** Vocabulary of the properties *)

Definition is_poll (c : call) : bool :=
  match c with GET_branch _ _ => true | _ => false end.

(** The number of [get_branch] requests among some calls. *)
Definition polls (l : list call) : nat := List.length (filter is_poll l).

(** Runs that leave the credentials file alone. *)
Definition same_file (w w' : world) : Prop :=
  credentials_file w' = credentials_file w.

(** Runs that keep the manager, and keep it as it is once it knows its
    cluster id. *)
Definition settled (w w' : world) : Prop :=
  forall self, _branch_manager w = Some self ->
    exists self', _branch_manager w' = Some self'
                  /\ (truthy (cluster_id self) = true -> self' = self).

(** Runs that add to the trace at most [k] requests for branch details. *)
Definition polled (k : nat) (w w' : world) : Prop :=
  exists new, trace w' = (trace w ++ new)%list /\ polls new <= k.

(** Runs that add to the trace only calls of a given kind. *)
Definition grows (P : call -> Prop) (w w' : world) : Prop :=
  exists new, trace w' = (trace w ++ new)%list /\ Forall P new.

(** A computation all of whose runs are related by [R]. *)
Definition respects {A : Type} (R : world -> world -> Prop) (m : M A) : Prop :=
  forall w r w', m w = (r, w') -> R w w'.

(** A computation that returns only values in [Q]. *)
Definition returns {A : Type} (Q : A -> Prop) (m : M A) : Prop :=
  forall w a w', m w = (Ok a, w') -> Q a.

(** A computation that raises only exceptions in [E]. *)
Definition raises {A : Type} (E : exn -> Prop) (m : M A) : Prop :=
  forall w e w', m w = (Raise e, w') -> E e.

(** The manager exists, may send requests, and knows its cluster [c]. *)
Definition ready (w : world) (c : string) : Prop :=
  exists self,
    _branch_manager w = Some self /\
    cluster_id self = JStr c /\
    truthy (JStr c) = true /\
    (truthy_opt (access_token self) = true \/
     (truthy_opt (public_key self) = true /\ truthy_opt (private_key self) = true)).

(** The calls of [j] polls that did not end the wait. *)
Fixpoint waiting (c b : string) (delay : Z) (j : nat) : list call :=
  match j with
  | O => []
  | S j' => GET_branch c b :: Sleep delay :: waiting c b delay j'
  end.

(** Calls that read the control plane or wait: everything the broker
    does besides creating an admin user. *)
Definition is_read (c : call) : Prop :=
  match c with
  | GET_clusters | GET_branches _ | GET_branch _ _ | Sleep _ => True
  | _ => False
  end.

Definition is_broker_call (c : call) : Prop :=
  match c with
  | POST_admin_user _ _ _ => True
  | _ => is_read c
  end.

Definition endpoint_error (e : exn) : Prop :=
  e = RuntimeError missing_host_message \/ e = RuntimeError missing_port_message.

(** Every other exception. *)
Definition harmless (e : exn) : Prop := ~ endpoint_error e.

(** What a record becomes when it is written to the file and read back. *)
Definition reload (v : pydict) : pydict :=
  let row := row_of_record v in
  record_of_row row
    match port_of_cell (c_port row) with
    | Ok p => p
    | Raise _ => JNull
    end.

Definition key_of_record (v : pydict) : cache_key :=
  (JStr (c_branchName (row_of_record v)), JStr (c_clusterId (row_of_record v))).

(** A cache that the file can hold: every record sits under the key made
    of its own two name cells, its port cell can be read back, and no key
    occurs twice. *)
Definition writable (d : cache) : Prop :=
  Forall (fun kv => fst kv = key_of_record (snd kv)
                    /\ exists p, port_of_cell (c_port (row_of_record (snd kv))) = Ok p) d
  /\ NoDup (map fst d).

(** Relations on worlds that runs can be chained along. *)
Class Chain (R : world -> world -> Prop) : Prop := {
  chain_refl : forall w, R w w;
  chain_trans : forall w1 w2 w3, R w1 w2 -> R w2 w3 -> R w1 w3 }.

(** The world after some more calls. *)
Definition add_calls (l : list call) (w : world) : world :=
  {| credentials_file := credentials_file w;
     _branch_manager := _branch_manager w;
     _tidb_client := _tidb_client w;
     trace := (trace w ++ l)%list |}.

(** What the poll after [j] unsuccessful ones sees: whether the state of
    the branch is ["ACTIVE"]; [None] when the request or the body fails. *)
Definition observes (remote : server) (w : world) (c b : string) (delay : Z) (j : nat)
  : option bool :=
  match remote (trace w ++ waiting c b delay j)%list (GET_branch c b) with
  | Some info =>
      match py_get "state" info with
      | Ok state => Some (eq_str state "ACTIVE")
      | Raise _ => None
      end
  | None => None
  end.

(** A computation that neither reads nor writes the credentials file. *)
Definition blind {A : Type} (m : M A) : Prop :=
  forall f w, m (with_file f w) = (fst (m w), with_file f (snd (m w))).

(** The manager exists and has the project id [p]. *)
Definition manager_project (w : world) (p : string) : Prop :=
  exists self,
    _branch_manager w = Some self /\ project_id self = Some p /\ truthy (JStr p) = true.

(** Rows of the credentials file: whether a row carries the two names of
    a key, whether its port cell can be read, and the record that loading
    makes of it. *)
Definition row_has_key (n c : string) (row : csv_row) : bool :=
  (c_branchName row =? n) && (c_clusterId row =? c).

Definition readable (row : csv_row) : Prop :=
  exists p, port_of_cell (c_port row) = Ok p.

Definition record_of (row : csv_row) : pydict :=
  record_of_row row match port_of_cell (c_port row) with
                    | Ok p => p
                    | Raise _ => JNull
                    end.

(** Whether the manager has what [_request] needs: a token, or both
    keys. *)
Definition can_send (self : BranchManager) : bool :=
  truthy_opt (access_token self)
  || (truthy_opt (public_key self) && truthy_opt (private_key self)).

(** [br.get("branchId") or br.get("id")] of an item of the branch list. *)
Definition listed_id (br : json) : json :=
  match br with
  | JObj d => py_or (get "branchId" d) (get "id" d)
  | _ => JNull
  end.

(** The driver call that carries a statement. *)
Definition statement (sql : string) : call :=
  if is_select sql then DB_query sql else DB_execute sql.

(** Between [w] and [w'] the request to create an admin user of the
    branch [n] was sent and answered with [admin]. *)
Definition admin_created (remote : server) (n : string) (admin : json) (w w' : world)
  : Prop :=
  exists before after project cl,
    trace w' = (trace w ++ before ++ POST_admin_user project cl n :: after)%list
    /\ remote (trace w ++ before)%list (POST_admin_user project cl n) = Some admin.

(** Runs that add to the trace at most [k] calls of the kind [f]. *)
Definition is_admin_request (c : call) : bool :=
  match c with POST_admin_user _ _ _ => true | _ => false end.

Definition is_list_request (c : call) : bool :=
  match c with GET_branches _ => true | _ => false end.

Definition counted (f : call -> bool) (k : nat) (w w' : world) : Prop :=
  exists new, trace w' = (trace w ++ new)%list /\ List.length (filter f new) <= k.

(** The first of the variables of the default client that is not set, in
    the order in which [_build_tidb_client] reads them. *)
Definition first_missing (cfg : Config) : option string :=
  match SERVERLESS_CLUSTER_HOST cfg, SERVERLESS_CLUSTER_USERNAME cfg,
        SERVERLESS_CLUSTER_PASSWORD cfg, SERVERLESS_CLUSTER_DATABASE_NAME cfg with
  | None, _, _, _ => Some "SERVERLESS_CLUSTER_HOST"
  | Some _, None, _, _ => Some "SERVERLESS_CLUSTER_USERNAME"
  | Some _, Some _, None, _ => Some "SERVERLESS_CLUSTER_PASSWORD"
  | Some _, Some _, Some _, None => Some "SERVERLESS_CLUSTER_DATABASE_NAME"
  | Some _, Some _, Some _, Some _ => None
  end.

(** What the script records about a branch: its id, and the error of a
    failed deletion. *)
Definition recorded (item : json) (r : deletion) : Prop :=
  match r with
  | Deleted branch_id _ _ => branch_id = listed_id item
  | Failed branch_id _ error => branch_id = listed_id item /\ error = HTTPError
  end.

(** Calls that are not of the kind [f]. *)
Definition quiet (f : call -> bool) (c : call) : Prop := f c = false.

(** Strings of whitespace: nothing is left of them when stripped. *)
Definition blank (s : string) : Prop := PyStr.lstrip s = "".

(** Strings of characters below 127, strings without the whitespace that
    [int] skips, and strings of digits. *)
Definition plain (s : string) : Prop :=
  Forall (fun c => (N_of_ascii c <? 127)%N = true) (list_ascii_of_string s).

Definition clean (s : string) : Prop :=
  Forall (fun c => PyStr.is_c_space c = false) (list_ascii_of_string s).

Definition numeral (s : string) : Prop :=
  Forall (fun c => PyStr.is_digit c = true) (list_ascii_of_string s).

(** ** Strings and decimal numerals *)

Module PyStrFacts.
Import PyStr.

Lemma lskip_clean s : clean s -> lskip s = s.
Proof.
  destruct s as [|c s]; simpl; [reflexivity|].
  intros H. inversion H as [|? ? Hc _]; subst. now rewrite Hc.
Qed.

Lemma reverse_involutive s : reverse (reverse s) = s.
Proof.
  unfold reverse. rewrite list_ascii_of_string_of_list_ascii, rev_involutive.
  apply string_of_list_ascii_of_string.
Qed.

Lemma reverse_clean s : clean s -> clean (reverse s).
Proof.
  unfold clean, reverse. intros H.
  rewrite list_ascii_of_string_of_list_ascii. now apply Forall_rev.
Qed.

Lemma skip_clean s : clean s -> rskip (lskip s) = s.
Proof.
  intros H. unfold rskip.
  rewrite (lskip_clean _ H), (lskip_clean _ (reverse_clean _ H)).
  apply reverse_involutive.
Qed.

(** A text of characters below 127 is the text that [int] reads. *)
Lemma to_ascii_text_plain s : plain s -> to_ascii_text s = s.
Proof.
  induction s as [|c s IH]; intros H; [reflexivity|].
  inversion H as [|? ? Hc Hs]; subst.
  cbn [to_ascii_text]. cbv zeta.
  assert ((N_of_ascii c <? 128)%N = true) as ->.
  { apply N.ltb_lt in Hc. apply N.ltb_lt. lia. }
  unfold to_ascii. rewrite Hc, ascii_N_embedding. now rewrite IH.
Qed.

Lemma list_ascii_app a b :
  list_ascii_of_string (a ++ b) = (list_ascii_of_string a ++ list_ascii_of_string b)%list.
Proof. induction a as [|c a IH]; simpl; [reflexivity | now rewrite IH]. Qed.

Lemma append_assoc a b c : (a ++ b) ++ c = a ++ (b ++ c).
Proof. induction a as [|x a IH]; simpl; [reflexivity | now rewrite IH]. Qed.

Lemma reverse_app a b : reverse (a ++ b) = reverse b ++ reverse a.
Proof.
  unfold reverse. rewrite list_ascii_app, rev_app_distr.
  generalize (rev (list_ascii_of_string b)) (rev (list_ascii_of_string a)).
  intros l1 l2. induction l1 as [|c l1 IH]; simpl; [reflexivity | now rewrite IH].
Qed.

Lemma numeral_of_uint d : numeral (NilEmpty.string_of_uint d).
Proof. induction d; simpl; constructor; (reflexivity || assumption). Qed.

Lemma digit_not_space c : is_digit c = true -> is_c_space c = false.
Proof. destruct c as [[] [] [] [] [] [] [] []]; try discriminate; reflexivity. Qed.

Lemma digit_plain c : is_digit c = true -> (N_of_ascii c <? 127)%N = true.
Proof. destruct c as [[] [] [] [] [] [] [] []]; try discriminate; reflexivity. Qed.

Lemma numeral_clean s : numeral s -> clean s.
Proof. unfold numeral, clean. apply Forall_impl. exact digit_not_space. Qed.

Lemma numeral_plain s : numeral s -> plain s.
Proof. unfold numeral, plain. apply Forall_impl. exact digit_plain. Qed.

Lemma digits_numeral s :
  numeral s -> s <> "" -> digits false s = Some s /\ digits true s = Some s.
Proof.
  induction s as [|c s IH]; intros Hn Hs; [congruence|].
  inversion Hn as [|? ? Hc Hrest]; subst. simpl. rewrite Hc.
  destruct s as [|c' s'].
  - now split.
  - destruct IH as [_ IH]; [assumption | discriminate |].
    rewrite IH. now split.
Qed.

Lemma unsigned_of_uint d :
  d <> Decimal.Nil -> unsigned_of (NilEmpty.string_of_uint d) = Some (Z.of_uint d).
Proof.
  intros Hd. unfold unsigned_of.
  destruct (@digits_numeral (NilEmpty.string_of_uint d)) as [E _].
  - apply numeral_of_uint.
  - destruct d; simpl; congruence.
  - rewrite E, NilEmpty.usu. reflexivity.
Qed.

Lemma to_uint_not_nil p : Pos.to_uint p <> Decimal.Nil.
Proof.
  intros E. pose proof (DecimalPos.Unsigned.of_to p) as H.
  rewrite E in H. discriminate.
Qed.

Lemma first_digit d :
  d <> Decimal.Nil ->
  exists c s, NilEmpty.string_of_uint d = String c s /\ is_digit c = true.
Proof. destruct d; intros H; try congruence; simpl; eauto. Qed.

Lemma of_Z_pos p : of_Z (Z.pos p) = NilEmpty.string_of_uint (Pos.to_uint p).
Proof.
  unfold of_Z. simpl. unfold NilZero.string_of_uint.
  pose proof (to_uint_not_nil p). now destruct (Pos.to_uint p).
Qed.

Lemma of_Z_neg p : of_Z (Z.neg p) = String "-" (NilEmpty.string_of_uint (Pos.to_uint p)).
Proof.
  unfold of_Z. simpl. unfold NilZero.string_of_uint.
  pose proof (to_uint_not_nil p). now destruct (Pos.to_uint p).
Qed.

Lemma of_uint_to_uint p : Z.of_uint (Pos.to_uint p) = Z.pos p.
Proof. unfold Z.of_uint. now rewrite DecimalPos.Unsigned.of_to. Qed.

(** [int(str(z)) == z] *)
Theorem to_Z_of_Z z : to_Z (of_Z z) = Some z.
Proof.
  destruct z as [|p|p].
  - reflexivity.
  - rewrite of_Z_pos. unfold to_Z.
    rewrite to_ascii_text_plain by (apply numeral_plain, numeral_of_uint).
    rewrite skip_clean by (apply numeral_clean, numeral_of_uint).
    destruct (first_digit _ (to_uint_not_nil p)) as (c & s & E & Hc).
    pose proof (unsigned_of_uint _ (to_uint_not_nil p)) as U.
    rewrite of_uint_to_uint in U. rewrite E in *.
    destruct c as [[] [] [] [] [] [] [] []]; try discriminate Hc; exact U.
  - rewrite of_Z_neg. unfold to_Z.
    rewrite to_ascii_text_plain
      by (constructor; [reflexivity | apply numeral_plain, numeral_of_uint]).
    rewrite skip_clean.
    + rewrite unsigned_of_uint by apply to_uint_not_nil.
      now rewrite of_uint_to_uint.
    + constructor; [reflexivity | apply numeral_clean, numeral_of_uint].
Qed.

Lemma of_Z_not_empty z : of_Z z <> "".
Proof.
  destruct z as [|p|p].
  - discriminate.
  - rewrite of_Z_pos.
    destruct (first_digit _ (to_uint_not_nil p)) as (c & s & E & _). now rewrite E.
  - rewrite of_Z_neg. discriminate.
Qed.

(** The conversions at work on texts outside the ASCII letters and
    digits: the no-break space U+00A0 (bytes 194 160), the ideographic
    space U+3000 (227 128 128), the separator FS (28), the Arabic-Indic
    digits (217 160 to 217 169), the soft hyphen U+00AD (194 173). *)
Example strip_no_break_space :
  strip (String "194" (String "160" (" a b" ++ String "227" (String "128" (String "128" "")))))
  = "a b".
Proof. reflexivity. Qed.

Example strip_separator : strip (String "028" "x") = "x".
Proof. reflexivity. Qed.

Example int_refuses_separator : to_Z (String "028" "4000") = None.
Proof. reflexivity. Qed.

Example int_skips_no_break_space : to_Z (String "194" (String "160" " 4000 ")) = Some 4000%Z.
Proof. reflexivity. Qed.

Example int_reads_arabic_indic_digits :
  to_Z (String "217" (String "164" (String "217" (String "160" "")))) = Some 40%Z.
Proof. reflexivity. Qed.

Example int_reads_underscores : to_Z "-4_000" = Some (-4000)%Z /\ to_Z "4__0" = None.
Proof. split; reflexivity. Qed.

Example repr_escapes_soft_hyphen :
  repr (String "194" (String "173" "it's")) = String dquote (String backslash "xadit's") ++ String dquote "".
Proof. reflexivity. Qed.

End PyStrFacts.

(** ** The cache as a dictionary, and its passage through the file *)

Module CacheFacts.

Local Arguments row_of_record : simpl never.

Lemma json_eqb_str x a : json_eqb x (JStr a) = true -> x = JStr a.
Proof.
  destruct x; simpl; try discriminate.
  intros H. apply String.eqb_eq in H. now subst.
Qed.

Lemma key_eqb_str k a b : key_eqb k (JStr a, JStr b) = true -> k = (JStr a, JStr b).
Proof.
  destruct k as [x y]. unfold key_eqb. simpl. intros H.
  apply andb_true_iff in H as [H1 H2].
  apply json_eqb_str in H1. apply json_eqb_str in H2. now subst.
Qed.

Lemma key_eqb_refl a b : key_eqb (JStr a, JStr b) (JStr a, JStr b) = true.
Proof. unfold key_eqb. simpl. now rewrite !String.eqb_refl. Qed.

Lemma key_eqb_false k a b : k <> (JStr a, JStr b) -> key_eqb k (JStr a, JStr b) = false.
Proof.
  intros H. destruct (key_eqb k (JStr a, JStr b)) eqn:E; [|reflexivity].
  apply key_eqb_str in E. contradiction.
Qed.

Section StringKey.
Variables a b : string.
Local Abbreviation k := (JStr a, JStr b).

Lemma dict_get_absent (d : cache) : ~ In k (map fst d) -> dict_get key_eqb k d = None.
Proof.
  induction d as [|[k' v'] d IH]; simpl; [reflexivity|]. intros H.
  rewrite key_eqb_false by (intros E; apply H; now left).
  apply IH. intros E. apply H. now right.
Qed.

Lemma dict_get_present (d : cache) v : dict_get key_eqb k d = Some v -> In (k, v) d.
Proof.
  induction d as [|[k' v'] d IH]; simpl; [discriminate|].
  destruct (key_eqb k' k) eqn:E.
  - intros [= <-]. apply key_eqb_str in E. subst k'. now left.
  - intros H. right. now apply IH.
Qed.

Lemma dict_get_set (d : cache) v : dict_get key_eqb k (dict_set key_eqb k v d) = Some v.
Proof.
  induction d as [|[k' v'] d IH]; simpl.
  - now rewrite key_eqb_refl.
  - destruct (key_eqb k' k) eqn:E; simpl; rewrite E; [reflexivity | exact IH].
Qed.

Lemma dict_set_fresh (d : cache) v :
  ~ In k (map fst d) -> dict_set key_eqb k v d = (d ++ [(k, v)])%list.
Proof.
  induction d as [|[k' v'] d IH]; simpl; [reflexivity|]. intros H.
  rewrite key_eqb_false by (intros E; apply H; now left).
  f_equal. apply IH. intros E. apply H. now right.
Qed.

Lemma dict_set_keys (d : cache) v :
  map fst (dict_set key_eqb k v d) = map fst d
  \/ (~ In k (map fst d) /\ map fst (dict_set key_eqb k v d) = (map fst d ++ [k])%list).
Proof.
  induction d as [|[k' v'] d IH]; simpl.
  - right. split; [tauto | reflexivity].
  - destruct (key_eqb k' k) eqn:E; simpl.
    + now left.
    + destruct IH as [IH | [Hn IH]].
      * left. now rewrite IH.
      * right. split; [| now rewrite IH].
        intros [H | H]; [| contradiction].
        subst k'. now rewrite key_eqb_refl in E.
Qed.

Lemma dict_set_entries (P : cache_key * pydict -> Prop) (d : cache) v :
  Forall P d -> P (k, v) -> Forall P (dict_set key_eqb k v d).
Proof.
  intros Hd Hv. induction d as [|[k' v'] d IH]; simpl.
  - now constructor.
  - inversion Hd; subst. destruct (key_eqb k' k) eqn:E.
    + apply key_eqb_str in E. subst k'. now constructor.
    + constructor; [assumption | now apply IH].
Qed.

Lemma dict_del_keys (d : cache) :
  NoDup (map fst d) ->
  NoDup (map fst (dict_del key_eqb k d)) /\ ~ In k (map fst (dict_del key_eqb k d)).
Proof.
  induction d as [|[k' v'] d IH]; simpl; intros H.
  - split; [constructor | tauto].
  - inversion H as [|? ? Hn Hd]; subst. destruct (key_eqb k' k) eqn:E.
    + apply key_eqb_str in E. subst k'. now split.
    + destruct (IH Hd) as [IH1 IH2]. simpl. split.
      * constructor; [| assumption].
        intros Hin. apply Hn. clear - Hin.
        induction d as [|[k2 v2] d IHd]; simpl in *; [assumption|].
        destruct (key_eqb k2 k); simpl in *; [now right | tauto].
      * intros [H1 | H1]; [| contradiction].
        subst k'. now rewrite key_eqb_refl in E.
Qed.

Lemma dict_del_entries (P : cache_key * pydict -> Prop) (d : cache) :
  Forall P d -> Forall P (dict_del key_eqb k d).
Proof.
  induction d as [|[k' v'] d IH]; simpl; intros H; [constructor|].
  inversion H; subst. destruct (key_eqb k' k); [assumption|].
  constructor; [assumption | now apply IH].
Qed.

End StringKey.

Lemma dict_get_map (f : pydict -> pydict) k (d : cache) :
  dict_get key_eqb k (map (fun kv => (fst kv, f (snd kv))) d)
  = option_map f (dict_get key_eqb k d).
Proof.
  induction d as [|[k' v'] d IH]; simpl; [reflexivity|].
  destruct (key_eqb k' k); [reflexivity | exact IH].
Qed.

(** A port that was read from a cell is read back from the cell it is
    written to. *)
Lemma port_roundtrip cell p : port_of_cell cell = Ok p -> port_of_cell (csv_cell p) = Ok p.
Proof.
  unfold port_of_cell. destruct (truthy (JStr cell)).
  - destruct (PyStr.to_Z cell) as [z|]; [|discriminate]. intros [= <-].
    simpl. pose proof (PyStrFacts.of_Z_not_empty z) as Hz.
    destruct (PyStr.of_Z z =? "") eqn:E.
    + apply String.eqb_eq in E. contradiction.
    + simpl. now rewrite PyStrFacts.to_Z_of_Z.
  - intros [= <-]. reflexivity.
Qed.

Lemma port_of_int z : port_of_cell (csv_cell (JNum z)) = Ok (JNum z).
Proof.
  unfold port_of_cell. simpl. pose proof (PyStrFacts.of_Z_not_empty z) as Hz.
  destruct (PyStr.of_Z z =? "") eqn:E.
  - apply String.eqb_eq in E. contradiction.
  - simpl. now rewrite PyStrFacts.to_Z_of_Z.
Qed.

Lemma writable_empty : writable [].
Proof. split; constructor. Qed.

Lemma writable_set (d : cache) v :
  writable d ->
  (exists p, port_of_cell (c_port (row_of_record v)) = Ok p) ->
  writable (dict_set key_eqb (key_of_record v) v d).
Proof.
  intros [Hd Hn] Hp. split.
  - apply dict_set_entries; [assumption | now split].
  - destruct (dict_set_keys (c_branchName (row_of_record v))
                (c_clusterId (row_of_record v)) d v) as [E | [Hf E]];
      unfold key_of_record; rewrite E; [assumption|].
    apply NoDup_app; [assumption | repeat constructor; simpl; tauto |].
    intros x Hx [Hy | []]. subst x. contradiction.
Qed.

Lemma writable_del a b (d : cache) : writable d -> writable (dict_del key_eqb (JStr a, JStr b) d).
Proof.
  intros [Hd Hn]. split.
  - now apply dict_del_entries.
  - now apply dict_del_keys.
Qed.

Lemma port_cell_of_row row port : c_port (row_of_record (record_of_row row port)) = csv_cell port.
Proof. reflexivity. Qed.

Lemma key_of_row row port :
  key_of_record (record_of_row row port) = (JStr (c_branchName row), JStr (c_clusterId row)).
Proof. reflexivity. Qed.

(** Reading the file yields a cache that can be written back. *)
Lemma load_writable rows : forall acc d,
  load_rows rows acc = Ok d -> writable acc -> writable d.
Proof.
  induction rows as [|row rows IH]; intros acc d H Hacc.
  - simpl in H. now injection H as <-.
  - cbn [load_rows] in H.
    destruct (port_of_cell (c_port row)) as [port|e] eqn:Ep; [|discriminate].
    apply IH in H; [assumption|].
    rewrite <- (key_of_row row port).
    apply writable_set; [assumption|].
    exists port. rewrite port_cell_of_row. now apply port_roundtrip in Ep.
Qed.

(** Writing a cache and reading the file again keeps the keys and their
    order, and passes every record through [reload]. *)
Lemma load_written (d : cache) : forall acc,
  Forall (fun kv => fst kv = key_of_record (snd kv)
                    /\ exists p, port_of_cell (c_port (row_of_record (snd kv))) = Ok p) d ->
  NoDup (map fst acc ++ map fst d) ->
  load_rows (map row_of_record (dict_values d)) acc
  = Ok (acc ++ map (fun kv => (fst kv, reload (snd kv))) d)%list.
Proof.
  induction d as [|[k v] d IH]; intros acc Hd Hn.
  - simpl. now rewrite app_nil_r.
  - inversion Hd as [|? ? [Hk [p Hp]] Hrest]; subst.
    cbn [fst snd] in Hk, Hp.
    assert (Hfresh : ~ In k (map fst acc)).
    { intros Hin. cbn [map fst] in Hn. apply NoDup_remove_2 in Hn.
      apply Hn. apply in_or_app. now left. }
    change (dict_values ((k, v) :: d)) with (v :: dict_values d).
    cbn [map load_rows fst snd]. rewrite Hp.
    rewrite Hk in Hfresh. unfold key_of_record in Hfresh.
    rewrite (dict_set_fresh _ _ _ _ Hfresh).
    rewrite IH; [| assumption |].
    + rewrite <- app_assoc. unfold reload at 2. rewrite Hp, Hk. reflexivity.
    + rewrite map_app, <- app_assoc. cbn [map fst app] in *.
      unfold key_of_record in Hk. rewrite <- Hk. exact Hn.
Qed.

Lemma reload_all (d : cache) :
  writable d ->
  load_rows (map row_of_record (dict_values d)) []
  = Ok (map (fun kv => (fst kv, reload (snd kv))) d).
Proof. intros [Hd Hn]. now apply (load_written d [] Hd). Qed.

End CacheFacts.

(** ** Reasoning about runs *)

Lemma run_bind {A B : Type} (m : M A) (f : A -> M B) w a w1 :
  m w = (Ok a, w1) -> bind m f w = f a w1.
Proof. intros H. unfold bind. now rewrite H. Qed.

Lemma run_bind_raise {A B : Type} (m : M A) (f : A -> M B) w e w1 :
  m w = (Raise e, w1) -> bind m f w = (Raise e, w1).
Proof. intros H. unfold bind. now rewrite H. Qed.

Lemma bind_inv {A B : Type} (m : M A) (f : A -> M B) w r w' :
  bind m f w = (r, w') ->
  (exists a w1, m w = (Ok a, w1) /\ f a w1 = (r, w'))
  \/ (exists e, m w = (Raise e, w') /\ r = Raise e).
Proof.
  unfold bind. destruct (m w) as [[a|e] w1].
  - intros H. left. eauto.
  - intros [= <- <-]. right. eauto.
Qed.

Lemma bind_inv_ok {A B : Type} (m : M A) (f : A -> M B) w b w' :
  bind m f w = (Ok b, w') ->
  exists a w1, m w = (Ok a, w1) /\ f a w1 = (Ok b, w').
Proof.
  intros H. apply bind_inv in H as [H | (e & _ & H)]; [assumption | discriminate].
Qed.

Lemma lift_inv {A : Type} (o : outcome A) w r w' : lift o w = (r, w') -> r = o /\ w' = w.
Proof. unfold lift. now intros [= <- <-]. Qed.

Lemma ret_inv {A : Type} (a : A) w r w' : ret a w = (r, w') -> r = Ok a /\ w' = w.
Proof. unfold ret. now intros [= <- <-]. Qed.

Lemma raise_inv {A : Type} (e : exn) w (r : outcome A) w' :
  raise e w = (r, w') -> r = Raise e /\ w' = w.
Proof. unfold raise. now intros [= <- <-]. Qed.

#[export] Instance same_file_chain : Chain same_file.
Proof. split; unfold same_file; intros; congruence. Qed.

#[export] Instance settled_chain : Chain settled.
Proof.
  split; unfold settled.
  - intros w self H. eauto.
  - intros w1 w2 w3 H12 H23 self H1.
    destruct (H12 _ H1) as (s2 & H2 & E2).
    destruct (H23 _ H2) as (s3 & H3 & E3).
    exists s3. split; [assumption|]. intros Ht.
    specialize (E2 Ht). subst s2. auto.
Qed.

#[export] Instance grows_chain (P : call -> Prop) : Chain (grows P).
Proof.
  split; unfold grows.
  - intros w. exists []. split; [now rewrite app_nil_r | constructor].
  - intros w1 w2 w3 (l1 & E1 & F1) (l2 & E2 & F2).
    exists (l1 ++ l2)%list. split.
    + now rewrite E2, E1, app_assoc.
    + apply Forall_app. now split.
Qed.

Section Combinators.
Context {A B : Type}.

Lemma respects_ret R `{Chain R} (a : A) : respects R (ret a).
Proof. intros w r w' E. apply ret_inv in E as [_ ->]. apply chain_refl. Qed.

Lemma respects_raise R `{Chain R} (e : exn) : respects R (@raise A e).
Proof. intros w r w' E. apply raise_inv in E as [_ ->]. apply chain_refl. Qed.

Lemma respects_lift R `{Chain R} (o : outcome A) : respects R (lift o).
Proof. intros w r w' E. apply lift_inv in E as [_ ->]. apply chain_refl. Qed.

Lemma respects_bind R `{Chain R} (m : M A) (f : A -> M B) :
  respects R m -> (forall a, respects R (f a)) -> respects R (bind m f).
Proof.
  intros Hm Hf w r w' E.
  apply bind_inv in E as [(a & w1 & E1 & E2) | (e & E1 & _)].
  - eapply chain_trans; [eapply Hm | eapply Hf]; eassumption.
  - eapply Hm; eassumption.
Qed.

Lemma returns_ret (Q : A -> Prop) (a : A) : Q a -> returns Q (ret a).
Proof. intros Ha w x w' E. apply ret_inv in E as [[= <-] _]. exact Ha. Qed.

Lemma returns_raise (Q : A -> Prop) (e : exn) : returns Q (raise e).
Proof. intros w x w' E. apply raise_inv in E as [E _]. discriminate. Qed.

Lemma returns_bind (Q : B -> Prop) (m : M A) (f : A -> M B) :
  (forall a, returns Q (f a)) -> returns Q (bind m f).
Proof.
  intros Hf w b w' E. apply bind_inv_ok in E as (a & w1 & _ & E). eapply Hf; eassumption.
Qed.

Lemma raises_ret (E : exn -> Prop) (a : A) : raises E (ret a).
Proof. intros w e w' H. apply ret_inv in H as [H _]. discriminate. Qed.

Lemma raises_raise (E : exn -> Prop) (e : exn) : E e -> raises E (@raise A e).
Proof. intros He w x w' H. apply raise_inv in H as [[= <-] _]. exact He. Qed.

Lemma raises_lift (E : exn -> Prop) (o : outcome A) :
  (forall e, o = Raise e -> E e) -> raises E (lift o).
Proof. intros Ho w e w' H. apply lift_inv in H as [H _]. symmetry in H. auto. Qed.

Lemma raises_bind (E : exn -> Prop) (m : M A) (f : A -> M B) :
  raises E m -> (forall a, raises E (f a)) -> raises E (bind m f).
Proof.
  intros Hm Hf w e w' H.
  apply bind_inv in H as [(a & w1 & E1 & E2) | (e' & E1 & [= <-])].
  - eapply Hf; eassumption.
  - eapply Hm; eassumption.
Qed.

End Combinators.

Lemma respects_try_pass R `{Chain R} (m : M unit) : respects R m -> respects R (try_pass m).
Proof.
  intros Hm w r w' E. unfold try_pass in E.
  destruct (m w) as [[a|e] w1] eqn:Em; injection E as <- <-; eapply Hm; eassumption.
Qed.

Lemma polled_chain k1 k2 w1 w2 w3 :
  polled k1 w1 w2 -> polled k2 w2 w3 -> polled (k1 + k2) w1 w3.
Proof.
  intros (l1 & E1 & F1) (l2 & E2 & F2). exists (l1 ++ l2)%list. split.
  - now rewrite E2, E1, app_assoc.
  - unfold polls in *. rewrite filter_app, length_app. lia.
Qed.

Lemma polled_weaken k k' w w' : polled k w w' -> k <= k' -> polled k' w w'.
Proof. intros (l & E & F) Hk. exists l. split; [assumption | lia]. Qed.

Lemma grows_polled P w w' :
  (forall c, P c -> is_poll c = false) -> grows P w w' -> polled 0 w w'.
Proof.
  intros HP (l & E & F). exists l. split; [assumption|].
  clear E. unfold polls. induction F as [|c l Hc _ IH]; simpl; [lia|].
  now rewrite (HP _ Hc).
Qed.

Lemma grows_weaken (P Q : call -> Prop) w w' :
  (forall c, P c -> Q c) -> grows P w w' -> grows Q w w'.
Proof.
  intros HPQ (l & E & F). exists l. split; [assumption|].
  eapply Forall_impl; eassumption.
Qed.

Lemma ready_settled w w' c : ready w c -> settled w w' -> ready w' c.
Proof.
  intros (self & Hm & Hc & Ht & Ha) Hs.
  destruct (Hs _ Hm) as (self' & Hm' & E).
  rewrite Hc in E. specialize (E Ht). subst self'.
  exists self. auto.
Qed.

(** ** What each operation leaves alone *)

Create HintDb frames discriminated.

Ltac frame :=
  repeat first
    [ solve [eauto 2 with frames]
    | apply respects_ret; [typeclasses eauto]
    | apply respects_raise; [typeclasses eauto]
    | apply respects_lift; [typeclasses eauto]
    | apply respects_try_pass; [typeclasses eauto |]
    | apply respects_bind; [typeclasses eauto | | intros ?]
    | match goal with
      | |- respects _ (if ?b then _ else _) => destruct b
      | |- respects _ (match ?x with _ => _ end) => destruct x
      end ].

Section Frames.

Variable cfg : Config.
Variable remote : server.

(** *** The credentials file *)

Lemma send_same_file c : respects same_file (send remote c).
Proof. intros w r w' E. unfold send in E. injection E as _ <-. reflexivity. Qed.

Lemma sleep_same_file s : respects same_file (sleep s).
Proof.
  intros w r w' E. unfold sleep in E.
  destruct (sleep_refusal s); injection E as _ <-; reflexivity.
Qed.

Lemma driver_same_file c : respects same_file (driver remote c).
Proof. intros w r w' E. unfold driver in E. injection E as _ <-. reflexivity. Qed.

Lemma this_same_file : respects same_file this.
Proof.
  intros w r w' E. unfold this in E.
  destruct (_branch_manager w); injection E as _ <-; reflexivity.
Qed.

Lemma set_cluster_id_same_file v : respects same_file (set_cluster_id v).
Proof. intros w r w' E. unfold set_cluster_id in E. injection E as _ <-. reflexivity. Qed.

Lemma get_branch_manager_same_file : respects same_file (_get_branch_manager cfg).
Proof.
  intros w r w' E. unfold _get_branch_manager in E.
  destruct (_branch_manager w); [injection E as _ <-; reflexivity|].
  match type of E with (if ?b then _ else _) = _ => destruct b end;
    injection E as _ <-; reflexivity.
Qed.

Lemma load_same_world w r w' : _load_admin_credentials w = (r, w') -> w' = w.
Proof. unfold _load_admin_credentials. now intros [= _ <-]. Qed.

Lemma load_same_file : respects same_file _load_admin_credentials.
Proof. intros w r w' E. apply load_same_world in E. now subst. Qed.

Hint Resolve send_same_file sleep_same_file driver_same_file this_same_file
  set_cluster_id_same_file get_branch_manager_same_file load_same_file : frames.

Lemma auth_same_file : respects same_file BranchManager_auth.
Proof. unfold BranchManager_auth. frame. Qed.
Hint Resolve auth_same_file : frames.

Lemma request_same_file c : respects same_file (BranchManager__request remote c).
Proof. unfold BranchManager__request. frame. Qed.
Hint Resolve request_same_file : frames.

Lemma get_default_cluster_same_file :
  respects same_file (BranchManager__get_default_cluster remote).
Proof. unfold BranchManager__get_default_cluster. frame. Qed.
Hint Resolve get_default_cluster_same_file : frames.

Lemma cluster_same_file : respects same_file (BranchManager__cluster remote).
Proof. unfold BranchManager__cluster. frame. Qed.
Hint Resolve cluster_same_file : frames.

Lemma list_branches_same_file : respects same_file (BranchManager_list_branches remote).
Proof. unfold BranchManager_list_branches. frame. Qed.

Lemma get_branch_same_file b : respects same_file (BranchManager_get_branch remote b).
Proof. unfold BranchManager_get_branch. frame. Qed.

Lemma create_admin_same_file p c n :
  respects same_file (BranchManager_create_admin_user_for_branch remote p c n).
Proof. unfold BranchManager_create_admin_user_for_branch. frame. Qed.
Hint Resolve list_branches_same_file get_branch_same_file create_admin_same_file : frames.

Lemma resolve_branch_id_same_file n : respects same_file (_resolve_branch_id cfg remote n).
Proof. unfold _resolve_branch_id. frame. Qed.

Lemma poll_same_file n b d : respects same_file (poll remote n b d).
Proof. induction n as [|n IH]; simpl; frame. Qed.
Hint Resolve resolve_branch_id_same_file poll_same_file : frames.

Lemma wait_same_file b r d : respects same_file (_wait_for_branch_active remote b r d).
Proof. unfold _wait_for_branch_active. frame. Qed.
Hint Resolve wait_same_file : frames.

Lemma provision_same_file n c : respects same_file (provision cfg remote n c).
Proof. unfold provision. frame. Qed.

Lemma effective_cluster_same_file c : respects same_file (effective_cluster remote c).
Proof. unfold effective_cluster. frame. Qed.

(** *** The manager *)

Lemma send_settled c : respects settled (send remote c).
Proof.
  intros w r w' E. unfold send in E. injection E as _ <-.
  intros self H. exists self. auto.
Qed.

Lemma sleep_settled s : respects settled (sleep s).
Proof.
  intros w r w' E. unfold sleep in E.
  destruct (sleep_refusal s); injection E as _ <-; intros self H; exists self; auto.
Qed.

Lemma driver_settled c : respects settled (driver remote c).
Proof.
  intros w r w' E. unfold driver in E. injection E as _ <-.
  intros self H. exists self. auto.
Qed.

Lemma this_settled : respects settled this.
Proof.
  intros w r w' E. unfold this in E.
  destruct (_branch_manager w); injection E as _ <-; apply chain_refl.
Qed.

Lemma get_branch_manager_settled : respects settled (_get_branch_manager cfg).
Proof.
  intros w r w' E. unfold _get_branch_manager in E.
  destruct (_branch_manager w) eqn:Em; [injection E as _ <-; apply chain_refl|].
  intros self H. congruence.
Qed.

Lemma load_settled : respects settled _load_admin_credentials.
Proof. intros w r w' E. apply load_same_world in E. subst. apply chain_refl. Qed.

Lemma write_settled d : respects settled (_write_admin_credentials d).
Proof.
  intros w r w' E. unfold _write_admin_credentials in E. injection E as _ <-.
  intros self H. exists self. auto.
Qed.

Hint Resolve send_settled sleep_settled driver_settled this_settled
  get_branch_manager_settled load_settled write_settled : frames.

Lemma auth_settled : respects settled BranchManager_auth.
Proof. unfold BranchManager_auth. frame. Qed.
Hint Resolve auth_settled : frames.

Lemma request_settled c : respects settled (BranchManager__request remote c).
Proof. unfold BranchManager__request. frame. Qed.
Hint Resolve request_settled : frames.

Lemma get_default_cluster_settled : respects settled (BranchManager__get_default_cluster remote).
Proof. unfold BranchManager__get_default_cluster. frame. Qed.

(** The cluster id is assigned only while it is unknown. *)
Lemma cluster_settled : respects settled (BranchManager__cluster remote).
Proof.
  intros w r w' E. unfold BranchManager__cluster in E.
  apply bind_inv in E as [(self & w1 & E1 & E2) | (e & E1 & _)].
  - unfold this in E1. destruct (_branch_manager w) as [s|] eqn:Em; [|discriminate].
    injection E1 as <- <-.
    destruct (truthy (cluster_id s)) eqn:Ht.
    + apply ret_inv in E2 as [_ ->]. apply chain_refl.
    + apply bind_inv in E2 as [(v & w2 & E2 & E3) | (e & E2 & _)].
      * apply get_default_cluster_settled in E2.
        apply bind_inv in E3 as [(u & w3 & E3 & E4) | (e & E3 & _)].
        -- apply ret_inv in E4 as [_ ->]. unfold set_cluster_id in E3.
           injection E3 as _ <-. intros self H.
           destruct (E2 _ H) as (s2 & H2 & _). rewrite H2. simpl.
           eexists. split; [reflexivity|]. intros Hs. congruence.
        -- discriminate.
      * now apply get_default_cluster_settled in E2.
  - now apply this_settled in E1.
Qed.
Hint Resolve cluster_settled : frames.

Lemma list_branches_settled : respects settled (BranchManager_list_branches remote).
Proof. unfold BranchManager_list_branches. frame. Qed.

Lemma get_branch_settled b : respects settled (BranchManager_get_branch remote b).
Proof. unfold BranchManager_get_branch. frame. Qed.

Lemma delete_branch_settled b : respects settled (BranchManager_delete_branch remote b).
Proof. unfold BranchManager_delete_branch. frame. Qed.

Lemma create_admin_settled p c n :
  respects settled (BranchManager_create_admin_user_for_branch remote p c n).
Proof. unfold BranchManager_create_admin_user_for_branch. frame. Qed.
Hint Resolve list_branches_settled get_branch_settled delete_branch_settled
  create_admin_settled : frames.

Lemma resolve_branch_id_settled n : respects settled (_resolve_branch_id cfg remote n).
Proof. unfold _resolve_branch_id. frame. Qed.

Lemma poll_settled n b d : respects settled (poll remote n b d).
Proof. induction n as [|n IH]; simpl; frame. Qed.
Hint Resolve resolve_branch_id_settled poll_settled : frames.

Lemma wait_settled b r d : respects settled (_wait_for_branch_active remote b r d).
Proof. unfold _wait_for_branch_active. frame. Qed.
Hint Resolve wait_settled : frames.

Lemma provision_settled n c : respects settled (provision cfg remote n c).
Proof. unfold provision. frame. Qed.

Lemma store_settled entry : respects settled (_store_admin_credential entry).
Proof. unfold _store_admin_credential. frame. Qed.

Lemma get_cached_settled n c : respects settled (_get_cached_admin_credential n c).
Proof. unfold _get_cached_admin_credential. frame. Qed.

Lemma effective_cluster_settled c : respects settled (effective_cluster remote c).
Proof. unfold effective_cluster. frame. Qed.

Lemma validate_same_world p r w w' : validate cfg p w = (r, w') -> w' = w.
Proof.
  unfold validate.
  repeat match goal with |- (if ?b then _ else _) _ = _ -> _ => destruct b end;
    intros E; (apply raise_inv in E || apply ret_inv in E); tauto.
Qed.

(** *** The trace *)

Lemma send_grows (P : call -> Prop) c : P c -> respects (grows P) (send remote c).
Proof.
  intros Hc w r w' E. unfold send in E. injection E as _ <-.
  exists [c]. split; [reflexivity | now constructor].
Qed.

Lemma sleep_grows (P : call -> Prop) s : P (Sleep s) -> respects (grows P) (sleep s).
Proof.
  intros Hc w r w' E. unfold sleep in E.
  destruct (sleep_refusal s); injection E as _ <-.
  - exists []. split; [now rewrite app_nil_r | constructor].
  - exists [Sleep s]. split; [reflexivity | now constructor].
Qed.

Lemma this_grows P : respects (grows P) this.
Proof.
  intros w r w' E. unfold this in E.
  destruct (_branch_manager w); injection E as _ <-; apply chain_refl.
Qed.

Lemma set_cluster_id_grows P v : respects (grows P) (set_cluster_id v).
Proof.
  intros w r w' E. unfold set_cluster_id in E. injection E as _ <-.
  exists []. split; [simpl; now rewrite app_nil_r | constructor].
Qed.

Lemma get_branch_manager_grows P : respects (grows P) (_get_branch_manager cfg).
Proof.
  intros w r w' E. unfold _get_branch_manager in E.
  destruct (_branch_manager w); [injection E as _ <-; apply chain_refl|].
  match type of E with (if ?b then _ else _) = _ => destruct b end;
    injection E as _ <-; exists []; (split; [simpl; now rewrite app_nil_r | constructor]).
Qed.

Lemma load_grows P : respects (grows P) _load_admin_credentials.
Proof. intros w r w' E. apply load_same_world in E. subst. apply chain_refl. Qed.

Lemma write_grows P d : respects (grows P) (_write_admin_credentials d).
Proof.
  intros w r w' E. unfold _write_admin_credentials in E. injection E as _ <-.
  exists []. split; [simpl; now rewrite app_nil_r | constructor].
Qed.

Hint Resolve send_grows sleep_grows this_grows set_cluster_id_grows
  get_branch_manager_grows load_grows write_grows : frames.
Hint Extern 1 (is_read _) => exact I : frames.
Hint Extern 1 (is_broker_call _) => exact I : frames.

Lemma auth_grows P : respects (grows P) BranchManager_auth.
Proof. unfold BranchManager_auth. frame. Qed.
Hint Resolve auth_grows : frames.

Lemma request_grows (P : call -> Prop) c : P c -> respects (grows P) (BranchManager__request remote c).
Proof. intros Hc. unfold BranchManager__request. frame. Qed.
Hint Resolve request_grows : frames.

Lemma get_default_cluster_grows (P : call -> Prop) :
  P GET_clusters -> respects (grows P) (BranchManager__get_default_cluster remote).
Proof. intros Hc. unfold BranchManager__get_default_cluster. frame. Qed.
Hint Resolve get_default_cluster_grows : frames.

Lemma cluster_grows (P : call -> Prop) :
  P GET_clusters -> respects (grows P) (BranchManager__cluster remote).
Proof. intros Hc. unfold BranchManager__cluster. frame. Qed.
Hint Resolve cluster_grows : frames.

Lemma list_branches_reads : respects (grows is_read) (BranchManager_list_branches remote).
Proof. unfold BranchManager_list_branches. frame. Qed.

Lemma get_branch_reads b : respects (grows is_read) (BranchManager_get_branch remote b).
Proof. unfold BranchManager_get_branch. frame. Qed.
Hint Resolve list_branches_reads get_branch_reads : frames.

Lemma resolve_branch_id_reads n : respects (grows is_read) (_resolve_branch_id cfg remote n).
Proof. unfold _resolve_branch_id. frame. Qed.

Lemma poll_reads n b d : respects (grows is_read) (poll remote n b d).
Proof. induction n as [|n IH]; simpl; frame. Qed.
Hint Resolve resolve_branch_id_reads poll_reads : frames.

Lemma wait_reads b r d : respects (grows is_read) (_wait_for_branch_active remote b r d).
Proof. unfold _wait_for_branch_active. frame. Qed.

Lemma respects_weaken {A : Type} (R R' : world -> world -> Prop) (m : M A) :
  (forall w w', R w w' -> R' w w') -> respects R m -> respects R' m.
Proof. intros HR Hm w r w' E. apply HR. eapply Hm. eassumption. Qed.

Lemma read_is_broker_call c : is_read c -> is_broker_call c.
Proof. destruct c; simpl; tauto. Qed.

Lemma reads_broker {A : Type} (m : M A) :
  respects (grows is_read) m -> respects (grows is_broker_call) m.
Proof. apply respects_weaken. intros w w'. apply grows_weaken. exact read_is_broker_call. Qed.

Lemma create_admin_grows p c n :
  respects (grows is_broker_call) (BranchManager_create_admin_user_for_branch remote p c n).
Proof. unfold BranchManager_create_admin_user_for_branch. frame. Qed.

Lemma resolve_branch_id_grows n : respects (grows is_broker_call) (_resolve_branch_id cfg remote n).
Proof. apply reads_broker, resolve_branch_id_reads. Qed.

Lemma wait_grows b r d : respects (grows is_broker_call) (_wait_for_branch_active remote b r d).
Proof. apply reads_broker, wait_reads. Qed.

Lemma get_branch_grows b : respects (grows is_broker_call) (BranchManager_get_branch remote b).
Proof. apply reads_broker, get_branch_reads. Qed.
Hint Resolve create_admin_grows resolve_branch_id_grows wait_grows get_branch_grows : frames.

Lemma provision_grows n c : respects (grows is_broker_call) (provision cfg remote n c).
Proof. unfold provision. frame. Qed.
Hint Resolve provision_grows : frames.

Lemma store_grows P entry : respects (grows P) (_store_admin_credential entry).
Proof. unfold _store_admin_credential. frame. Qed.

Lemma get_cached_grows P n c : respects (grows P) (_get_cached_admin_credential n c).
Proof. unfold _get_cached_admin_credential. frame. Qed.

Lemma effective_cluster_grows (P : call -> Prop) c :
  P GET_clusters -> respects (grows P) (effective_cluster remote c).
Proof. intros Hc. unfold effective_cluster. frame. Qed.

Lemma validate_grows P p : respects (grows P) (validate cfg p).
Proof. intros w r w' E. apply validate_same_world in E. subst. apply chain_refl. Qed.
Hint Resolve store_grows get_cached_grows effective_cluster_grows validate_grows : frames.

(** The broker only reads the control plane, waits, and creates admin
    users. *)
Lemma ensure_grows n c : respects (grows is_broker_call) (_ensure_admin_credential cfg remote n c).
Proof. unfold _ensure_admin_credential. frame. Qed.

End Frames.

#[export] Hint Resolve
  send_same_file
  sleep_same_file
  driver_same_file
  this_same_file
  set_cluster_id_same_file
  get_branch_manager_same_file
  load_same_file
  auth_same_file
  request_same_file
  get_default_cluster_same_file
  cluster_same_file
  list_branches_same_file
  get_branch_same_file
  create_admin_same_file
  resolve_branch_id_same_file
  poll_same_file
  wait_same_file
  provision_same_file
  effective_cluster_same_file
  send_settled
  sleep_settled
  driver_settled
  this_settled
  get_branch_manager_settled
  load_settled
  write_settled
  auth_settled
  request_settled
  get_default_cluster_settled
  cluster_settled
  list_branches_settled
  get_branch_settled
  delete_branch_settled
  create_admin_settled
  resolve_branch_id_settled
  poll_settled
  wait_settled
  provision_settled
  store_settled
  get_cached_settled
  effective_cluster_settled
  send_grows
  sleep_grows
  this_grows
  set_cluster_id_grows
  get_branch_manager_grows
  load_grows
  write_grows
  auth_grows
  request_grows
  list_branches_reads
  get_branch_reads
  resolve_branch_id_reads
  poll_reads
  wait_reads
  create_admin_grows
  resolve_branch_id_grows
  wait_grows
  get_branch_grows
  provision_grows
  store_grows
  get_cached_grows
  validate_grows
  ensure_grows : frames.
#[export] Hint Extern 1 (is_read _) => exact I : frames.
#[export] Hint Extern 1 (is_broker_call _) => exact I : frames.

(** ** Runs of a manager that knows its cluster *)

Lemma add_calls_add l1 l2 w : add_calls l2 (add_calls l1 w) = add_calls (l1 ++ l2) w.
Proof. unfold add_calls. simpl. now rewrite app_assoc. Qed.

Lemma add_calls_nil w : add_calls [] w = w.
Proof. destruct w. unfold add_calls. simpl. now rewrite app_nil_r. Qed.

Lemma ready_add_calls l w c : ready w c -> ready (add_calls l w) c.
Proof. intros (self & H). exists self. exact H. Qed.

Section Ready.

Variable cfg : Config.
Variable remote : server.
Variables (w : world) (c : string).
Hypothesis Hready : ready w c.

Lemma ready_cluster : BranchManager__cluster remote w = (Ok (JStr c), w).
Proof.
  destruct Hready as (self & Hm & Hc & Ht & _).
  unfold BranchManager__cluster, bind, this. rewrite Hm, Hc, Ht. reflexivity.
Qed.

Lemma ready_request x : BranchManager__request remote x w = send remote x w.
Proof.
  destruct Hready as (self & Hm & _ & _ & Ha).
  unfold BranchManager__request, BranchManager_auth, bind, this. rewrite Hm.
  destruct (truthy_opt (access_token self)) eqn:Et; [reflexivity|].
  destruct Ha as [Ha | [Hp Hs]]; [congruence|].
  rewrite Hm, Hp, Hs. reflexivity.
Qed.

Lemma ready_get_branch b :
  BranchManager_get_branch remote b w = send remote (GET_branch c (py_str b)) w.
Proof.
  unfold BranchManager_get_branch. rewrite (run_bind _ _ _ _ _ ready_cluster).
  apply ready_request.
Qed.

Lemma ready_delete_branch b :
  BranchManager_delete_branch remote b w = send remote (DELETE_branch c (py_str b)) w.
Proof.
  unfold BranchManager_delete_branch. rewrite (run_bind _ _ _ _ _ ready_cluster).
  apply ready_request.
Qed.

Lemma ready_list_branches :
  BranchManager_list_branches remote w
  = bind (send remote (GET_branches c)) (fun data => lift (py_get_or "branches" (JArr []) data)) w.
Proof.
  unfold BranchManager_list_branches. rewrite (run_bind _ _ _ _ _ ready_cluster).
  unfold bind. now rewrite ready_request.
Qed.

Lemma ready_get_branch_manager : _get_branch_manager cfg w = (Ok tt, w).
Proof.
  destruct Hready as (self & Hm & _). unfold _get_branch_manager. now rewrite Hm.
Qed.

End Ready.

(** ** The readiness poll *)

Section Wait.

Variable remote : server.

Lemma send_run x w :
  send remote x w
  = (match remote (trace w) x with Some body => Ok body | None => Raise HTTPError end,
     add_calls [x] w).
Proof. reflexivity. Qed.

Lemma polled_refl w : polled 0 w w.
Proof. exists []. split; [now rewrite app_nil_r | apply Nat.le_refl]. Qed.

Lemma polled_bind {A B : Type} k1 k2 (m : M A) (f : A -> M B) :
  respects (polled k1) m -> (forall a, respects (polled k2) (f a)) ->
  respects (polled (k1 + k2)) (bind m f).
Proof.
  intros Hm Hf w r w' E.
  apply bind_inv in E as [(a & w1 & E1 & E2) | (e & E1 & _)].
  - eapply polled_chain; [eapply Hm | eapply Hf]; eassumption.
  - eapply polled_weaken; [eapply Hm; eassumption | lia].
Qed.

Lemma cluster_polled : respects (polled 0) (BranchManager__cluster remote).
Proof.
  intros w r w' E.
  apply (cluster_grows remote (fun c => c = GET_clusters) eq_refl) in E.
  eapply grows_polled; [|exact E]. now intros c ->.
Qed.

Lemma request_polled x : respects (polled 1) (BranchManager__request remote x).
Proof.
  intros w r w' E. unfold BranchManager__request in E.
  apply bind_inv in E as [(self & w1 & E1 & E2) | (e & E1 & _)].
  - assert (w1 = w) as ->.
    { unfold this in E1. destruct (_branch_manager w); now injection E1. }
    apply bind_inv in E2 as [(u & w2 & E2 & E3) | (e & E2 & _)].
    + assert (polled 0 w w2) as H0.
      { eapply grows_polled with (P := fun _ => False); [tauto|].
        destruct (truthy_opt (access_token self)).
        - apply ret_inv in E2 as [_ ->]. apply chain_refl.
        - eapply auth_grows. eassumption. }
      eapply polled_chain with (k1 := 0) (k2 := 1); [exact H0|].
      rewrite send_run in E3. injection E3 as _ <-.
      exists [x]. split; [reflexivity|]. unfold polls. simpl.
      destruct (is_poll x); simpl; lia.
    + eapply polled_weaken with (k := 0); [|lia].
      eapply grows_polled with (P := fun _ => False); [tauto|].
      destruct (truthy_opt (access_token self)).
      * apply ret_inv in E2 as [_ ->]. apply chain_refl.
      * eapply auth_grows. eassumption.
  - eapply polled_weaken with (k := 0); [|lia].
    unfold this in E1. destruct (_branch_manager w); injection E1 as _ <-; apply polled_refl.
Qed.

Lemma get_branch_polled b : respects (polled 1) (BranchManager_get_branch remote b).
Proof.
  unfold BranchManager_get_branch.
  apply polled_bind with (k1 := 0) (k2 := 1); [apply cluster_polled|].
  intros a. apply request_polled.
Qed.

Lemma sleep_polled s : respects (polled 0) (sleep s).
Proof.
  intros w r w' E. unfold sleep in E.
  destruct (sleep_refusal s); injection E as _ <-.
  - apply polled_refl.
  - exists [Sleep s]. split; [reflexivity | apply Nat.le_refl].
Qed.

Lemma pure_polled {A : Type} (m : M A) :
  (forall w r w', m w = (r, w') -> w' = w) -> respects (polled 0) m.
Proof. intros H w r w' E. apply H in E. subst. apply polled_refl. Qed.

(** A loop of [n] rounds asks for the branch at most [n] times. *)
Lemma poll_polled n b d : respects (polled n) (poll remote n b d).
Proof.
  induction n as [|n IH]; cbn [poll].
  - apply pure_polled. intros w r w' E. now apply ret_inv in E.
  - change (S n) with (1 + n).
    apply polled_bind; [apply get_branch_polled|]. intros info.
    change n with (0 + n) at 1.
    apply polled_bind; [apply pure_polled; intros w r w' E; now apply lift_inv in E|].
    intros state. destruct (eq_str state "ACTIVE").
    + intros w r w' E. apply ret_inv in E as [_ ->].
      eapply polled_weaken; [apply polled_refl | lia].
    + change n with (0 + n) at 1.
      apply polled_bind; [apply sleep_polled | intros _; exact IH].
Qed.

Section Observed.

Variables (c : string) (branch_id : json) (delay : Z).
Let b := py_str branch_id.

Lemma observes_shift w i :
  observes remote (add_calls [GET_branch c b; Sleep delay] w) c b delay i
  = observes remote w c b delay (S i).
Proof. unfold observes. simpl. now rewrite <- app_assoc. Qed.

Lemma poll_step_active n w :
  ready w c -> observes remote w c b delay 0 = Some true ->
  poll remote (S n) branch_id delay w = (Ok true, add_calls [GET_branch c b] w).
Proof.
  intros Hr Ho. unfold observes in Ho. simpl in Ho. rewrite app_nil_r in Ho.
  cbn [poll]. unfold bind at 1. rewrite (ready_get_branch remote w c Hr), send_run.
  fold b. destruct (remote (trace w) (GET_branch c b)) as [info|]; [|discriminate].
  unfold bind, lift. destruct (py_get "state" info) as [state|]; [|discriminate].
  injection Ho as ->. reflexivity.
Qed.

Lemma poll_step_waiting n w :
  ready w c -> sleep_refusal delay = None ->
  observes remote w c b delay 0 = Some false ->
  poll remote (S n) branch_id delay w
  = poll remote n branch_id delay (add_calls [GET_branch c b; Sleep delay] w).
Proof.
  intros Hr Hd Ho. unfold observes in Ho. simpl in Ho. rewrite app_nil_r in Ho.
  cbn [poll]. unfold bind at 1. rewrite (ready_get_branch remote w c Hr), send_run.
  fold b. destruct (remote (trace w) (GET_branch c b)) as [info|]; [|discriminate].
  unfold bind at 1. unfold lift.
  destruct (py_get "state" info) as [state|]; [|discriminate].
  injection Ho as ->. unfold bind, sleep. rewrite Hd.
  replace (record_call (Sleep delay) (add_calls [GET_branch c b] w))
    with (add_calls [GET_branch c b; Sleep delay] w); [reflexivity|].
  unfold record_call, add_calls. simpl. now rewrite <- app_assoc.
Qed.

(** A poll that does not see ["ACTIVE"] is the last one when
    [time.sleep] refuses the delay. *)
Lemma poll_step_refused n w e :
  ready w c -> sleep_refusal delay = Some e ->
  observes remote w c b delay 0 = Some false ->
  poll remote (S n) branch_id delay w = (Raise e, add_calls [GET_branch c b] w).
Proof.
  intros Hr Hd Ho. unfold observes in Ho. simpl in Ho. rewrite app_nil_r in Ho.
  cbn [poll]. unfold bind at 1. rewrite (ready_get_branch remote w c Hr), send_run.
  fold b. destruct (remote (trace w) (GET_branch c b)) as [info|]; [|discriminate].
  unfold bind at 1. unfold lift.
  destruct (py_get "state" info) as [state|]; [|discriminate].
  injection Ho as ->. unfold bind, sleep. rewrite Hd.
  reflexivity.
Qed.

(** The loop is left at the first poll that sees ["ACTIVE"]. *)
Lemma poll_active j : forall n w,
  ready w c -> j < n -> (0 < j -> sleep_refusal delay = None) ->
  (forall i, i < j -> observes remote w c b delay i = Some false) ->
  observes remote w c b delay j = Some true ->
  poll remote n branch_id delay w
  = (Ok true, add_calls (waiting c b delay j ++ [GET_branch c b]) w).
Proof.
  induction j as [|j IH]; intros n w Hr Hlt Hd Hbefore Hj; (destruct n as [|n]; [lia|]).
  - now apply poll_step_active.
  - assert (sleep_refusal delay = None) as Hd' by (apply Hd; lia).
    rewrite poll_step_waiting by (auto; apply Hbefore; lia).
    rewrite (IH n); [now rewrite add_calls_add | now apply ready_add_calls | lia | auto | |].
    + intros i Hi. rewrite observes_shift. apply Hbefore. lia.
    + now rewrite observes_shift.
Qed.

(** It runs out after [n] polls that do not see ["ACTIVE"]. *)
Lemma poll_exhausted n : forall w,
  ready w c -> (0 < n -> sleep_refusal delay = None) ->
  (forall i, i < n -> observes remote w c b delay i = Some false) ->
  poll remote n branch_id delay w = (Ok false, add_calls (waiting c b delay n) w).
Proof.
  induction n as [|n IH]; intros w Hr Hd Hall.
  - simpl. unfold ret. now rewrite add_calls_nil.
  - assert (sleep_refusal delay = None) as Hd' by (apply Hd; lia).
    rewrite poll_step_waiting by (auto; apply Hall; lia).
    rewrite IH; [now rewrite add_calls_add | now apply ready_add_calls | auto |].
    intros i Hi. rewrite observes_shift. apply Hall. lia.
Qed.

End Observed.

End Wait.

(** * The properties of the specification *)

(** ** Readiness gate *)

(** C4.  [_wait_for_branch_active] asks for the branch at most [retries]
    times.  With a manager that knows its cluster, it returns at the
    first poll whose answer has state ["ACTIVE"], that poll being its last
    call; and when none of [retries] polls sees ["ACTIVE"] it raises the
    [RuntimeError] whose message names [retries * delay_seconds] seconds,
    after exactly [retries] polls, each followed by a sleep.  The polls
    after the first need a delay that [time.sleep] accepts: when it
    refuses the delay (a negative one: [ValueError]; one that its clock
    does not hold: [OverflowError]), a first poll that does not see
    ["ACTIVE"] is followed by that error. *)
Theorem wait_until_active_gate (remote : server) (w : world) (branch_id : json)
    (retries delay_seconds : Z) :
  let wait := _wait_for_branch_active remote branch_id retries delay_seconds in
  let b := py_str branch_id in
  (forall r w', wait w = (r, w') ->
     exists new, trace w' = (trace w ++ new)%list
                 /\ polls new <= Z.to_nat retries
                 /\ ((0 <= retries)%Z -> (Z.of_nat (polls new) <= retries)%Z))
  /\ (forall c j, ready w c -> j < Z.to_nat retries ->
        (0 < j -> sleep_refusal delay_seconds = None) ->
        (forall i, i < j -> observes remote w c b delay_seconds i = Some false) ->
        observes remote w c b delay_seconds j = Some true ->
        wait w = (Ok tt, add_calls (waiting c b delay_seconds j ++ [GET_branch c b]) w))
  /\ (forall c, ready w c ->
        (0 < Z.to_nat retries -> sleep_refusal delay_seconds = None) ->
        (forall i, i < Z.to_nat retries ->
                   observes remote w c b delay_seconds i = Some false) ->
        wait w
        = (Raise (RuntimeError ("Branch " ++ b ++ " not active after "
                                  ++ PyStr.of_Z (retries * delay_seconds) ++ " seconds.")),
           add_calls (waiting c b delay_seconds (Z.to_nat retries)) w))
  /\ (forall c e, ready w c -> 0 < Z.to_nat retries ->
        sleep_refusal delay_seconds = Some e ->
        observes remote w c b delay_seconds 0 = Some false ->
        wait w = (Raise e, add_calls [GET_branch c b] w)).
Proof.
  intros wait b. unfold wait, _wait_for_branch_active. repeat split.
  - intros r w' E.
    assert (polled (Z.to_nat retries) w w') as (new & Hnew & Hle).
    { apply bind_inv in E as [(x & w1 & E1 & E2) | (e & E1 & _)].
      - apply poll_polled in E1.
        destruct x; [apply ret_inv in E2 | apply raise_inv in E2];
          destruct E2 as [_ ->]; exact E1.
      - now apply poll_polled in E1. }
    exists new. repeat split; [assumption | assumption | lia].
  - intros c j Hr Hj Hd Hbefore Hactive.
    rewrite (run_bind _ _ _ _ _ (poll_active remote c branch_id delay_seconds j _ w
                                   Hr Hj Hd Hbefore Hactive)).
    reflexivity.
  - intros c Hr Hd Hall.
    rewrite (run_bind _ _ _ _ _
               (poll_exhausted remote c branch_id delay_seconds _ w Hr Hd Hall)).
    reflexivity.
  - intros c e Hr Hn Hd Hfirst.
    destruct (Z.to_nat retries) as [|n]; [lia|].
    now rewrite (run_bind_raise _ _ _ _ _
                   (poll_step_refused remote c branch_id delay_seconds n w e Hr Hd Hfirst)).
Qed.

(** The wait of the manager double: CREATING, a sleep, then ACTIVE; and
    with a negative delay, CREATING and the [ValueError] of the sleep. *)
Lemma wait_until_active_gate_witness :
  _wait_for_branch_active Fixture.dummy (JStr "b1") 20 10 Fixture.managed
  = (Ok tt,
     add_calls [GET_branch "cluster-1" "b1"; Sleep 10; GET_branch "cluster-1" "b1"]
       Fixture.managed)
  /\ _wait_for_branch_active Fixture.dummy (JStr "b1") 2 (-1) Fixture.managed
     = (Raise ValueError, add_calls [GET_branch "cluster-1" "b1"] Fixture.managed).
Proof.
  split.
  - apply (proj1 (proj2 (wait_until_active_gate Fixture.dummy Fixture.managed (JStr "b1")
                           20 10))
             "cluster-1" 1).
    + exists Fixture.manager. repeat split. now left.
    + vm_compute. lia.
    + intros _. reflexivity.
    + intros [|i] Hi; [reflexivity | lia].
    + reflexivity.
  - apply (proj2 (proj2 (proj2 (wait_until_active_gate Fixture.dummy Fixture.managed
                                  (JStr "b1") 2 (-1))))
             "cluster-1" ValueError).
    + exists Fixture.manager. repeat split. now left.
    + vm_compute. lia.
    + reflexivity.
    + reflexivity.
Defined.

(** ** Validation before return *)


Lemma get_set_other k k' v (d : pydict) :
  k <> k' -> get k (dict_set String.eqb k' v d) = get k d.
Proof.
  intros Hne. unfold get. induction d as [|[k2 v2] d IH]; simpl.
  - destruct (k' =? k) eqn:E; [apply String.eqb_eq in E; congruence | reflexivity].
  - destruct (k2 =? k') eqn:E; simpl.
    + apply String.eqb_eq in E. subst k2.
      destruct (k' =? k) eqn:E2; [apply String.eqb_eq in E2; congruence | reflexivity].
    + destruct (k2 =? k); [reflexivity | exact IH].
Qed.

Section Validation.

Variable cfg : Config.
Variable remote : server.

Lemma validate_ok payload w p w' :
  validate cfg payload w = (Ok p, w') ->
  truthy (get "host" payload) = true /\ truthy (get "port" payload) = true
  /\ w' = w
  /\ p = (if truthy_opt (DEFAULT_DATABASE cfg) && negb (truthy (get "database" payload))
          then dict_set String.eqb "database" (of_opt (DEFAULT_DATABASE cfg)) payload
          else payload).
Proof.
  unfold validate.
  destruct (truthy (get "host" payload)); simpl; [|intros E; apply raise_inv in E as [E _]; discriminate].
  destruct (truthy (get "port" payload)); simpl; [|intros E; apply raise_inv in E as [E _]; discriminate].
  destruct (truthy_opt (DEFAULT_DATABASE cfg) && negb (truthy (get "database" payload)));
    intros E; apply ret_inv in E as [[= <-] ->]; auto.
Qed.

Lemma validate_usable payload w :
  truthy (get "host" payload) = true -> truthy (get "port" payload) = true ->
  validate cfg payload w
  = (Ok (if truthy_opt (DEFAULT_DATABASE cfg) && negb (truthy (get "database" payload))
         then dict_set String.eqb "database" (of_opt (DEFAULT_DATABASE cfg)) payload
         else payload), w).
Proof.
  intros Hh Hp. unfold validate. rewrite Hh, Hp. simpl.
  now destruct (truthy_opt (DEFAULT_DATABASE cfg) && negb (truthy (get "database" payload))).
Qed.

(** A record that [_ensure_admin_credential] returns went through
    [validate] at the end of the run. *)
Lemma ensure_ends_in_validate n c w p w' :
  _ensure_admin_credential cfg remote n c w = (Ok p, w') ->
  exists payload, validate cfg payload w' = (Ok p, w').
Proof.
  intros E. unfold _ensure_admin_credential in E.
  apply bind_inv_ok in E as (u & w0 & _ & E).
  apply bind_inv_ok in E as (rc & w1 & _ & E).
  destruct (negb (truthy_opt (_project_id cfg))).
  - apply raise_inv in E as [E _]. discriminate.
  - apply bind_inv_ok in E as (cached & w2 & _ & E).
    apply bind_inv_ok in E as (payload & w3 & _ & E).
    exists payload. pose proof (validate_same_world _ _ _ _ _ E) as ->. exact E.
Qed.

End Validation.



(** ** The first steps of the credential resolution *)

Section Blind.
Context {A B : Type}.

Lemma blind_ret (a : A) : blind (ret a).
Proof. intros f w. reflexivity. Qed.

Lemma blind_raise (e : exn) : blind (@raise A e).
Proof. intros f w. reflexivity. Qed.

Lemma blind_lift (o : outcome A) : blind (lift o).
Proof. intros f w. reflexivity. Qed.

Lemma blind_bind (m : M A) (g : A -> M B) :
  blind m -> (forall a, blind (g a)) -> blind (bind m g).
Proof.
  intros Hm Hg f w. unfold bind. rewrite Hm.
  destruct (m w) as [[a|e] w1]; simpl; [apply Hg | reflexivity].
Qed.

End Blind.

Section FirstSteps.

Variable cfg : Config.
Variable remote : server.

Lemma blind_this : blind this.
Proof. intros f w. unfold this. simpl. now destruct (_branch_manager w). Qed.

Lemma blind_send c : blind (send remote c).
Proof. intros f w. reflexivity. Qed.

Lemma blind_set_cluster_id v : blind (set_cluster_id v).
Proof. intros f w. reflexivity. Qed.

Lemma blind_get_branch_manager : blind (_get_branch_manager cfg).
Proof.
  intros f w. unfold _get_branch_manager. simpl.
  destruct (_branch_manager w); [reflexivity|].
  now match goal with |- (if ?b then _ else _) = _ => destruct b end.
Qed.

Lemma blind_request c : blind (BranchManager__request remote c).
Proof.
  unfold BranchManager__request, BranchManager_auth.
  apply blind_bind; [apply blind_this|]. intros self.
  apply blind_bind; [|intros _; apply blind_send].
  destruct (truthy_opt (access_token self)); [apply blind_ret|].
  apply blind_bind; [apply blind_this|]. intros s.
  destruct (_ || _); [apply blind_raise | apply blind_ret].
Qed.

Lemma blind_cluster : blind (BranchManager__cluster remote).
Proof.
  unfold BranchManager__cluster, BranchManager__get_default_cluster.
  apply blind_bind; [apply blind_this|]. intros self.
  destruct (truthy (cluster_id self)); [apply blind_ret|].
  apply blind_bind.
  - apply blind_bind; [apply blind_request|]. intros data.
    apply blind_bind; [apply blind_lift|]. intros found.
    destruct (negb _); [apply blind_raise|].
    apply blind_bind; [apply blind_lift|]. intros first.
    apply blind_bind; [apply blind_lift|]. intros a.
    destruct (truthy a); [apply blind_ret | apply blind_lift].
  - intros v. apply blind_bind; [apply blind_set_cluster_id|]. intros _. apply blind_ret.
Qed.

Lemma blind_effective_cluster c : blind (effective_cluster remote c).
Proof.
  unfold effective_cluster. destruct (truthy_opt c); [apply blind_ret | apply blind_cluster].
Qed.

Lemma get_branch_manager_post w r w0 :
  _get_branch_manager cfg w = (r, w0) ->
  trace w0 = trace w
  /\ (r = Ok tt -> exists self, _branch_manager w0 = Some self)
  /\ (forall self, _branch_manager w = Some self -> r = Ok tt /\ w0 = w).
Proof.
  unfold _get_branch_manager. destruct (_branch_manager w) as [s|] eqn:Em.
  - intros [= <- <-]. repeat split; eauto.
  - match goal with |- (if ?b then _ else _) = _ -> _ => destruct b end;
      intros [= <- <-]; repeat split; try discriminate; simpl; eauto.
Qed.

Lemma get_branch_manager_again w self :
  _branch_manager w = Some self -> _get_branch_manager cfg w = (Ok tt, w).
Proof. intros H. unfold _get_branch_manager. now rewrite H. Qed.

Lemma this_same_world w r w' : this w = (r, w') -> w' = w.
Proof. unfold this. destruct (_branch_manager w); now intros [= _ <-]. Qed.

Lemma auth_same_world w r w' : BranchManager_auth w = (r, w') -> w' = w.
Proof.
  unfold BranchManager_auth. intros E.
  apply bind_inv in E as [(self & w1 & E1 & E) | (e & E1 & _)];
    apply this_same_world in E1; subst; [|reflexivity].
  destruct (_ || _); [now apply raise_inv in E | now apply ret_inv in E].
Qed.

Lemma request_trace c w r w' :
  BranchManager__request remote c w = (r, w') ->
  trace w' = trace w \/ trace w' = (trace w ++ [c])%list.
Proof.
  intros E. unfold BranchManager__request in E.
  apply bind_inv in E as [(self & w1 & E1 & E) | (e & E1 & _)];
    apply this_same_world in E1; subst; [|now left].
  apply bind_inv in E as [(u & w2 & E2 & E) | (e & E2 & _)].
  - assert (w2 = w) as ->.
    { destruct (truthy_opt (access_token self));
        [now apply ret_inv in E2 | now apply auth_same_world in E2]. }
    unfold send in E. injection E as _ <-. now right.
  - left. f_equal.
    destruct (truthy_opt (access_token self));
      [now apply ret_inv in E2 | now apply auth_same_world in E2].
Qed.

(** Resolving the cluster costs at most the one request for the list of
    clusters. *)
Lemma cluster_trace w r w' :
  BranchManager__cluster remote w = (r, w') ->
  trace w' = trace w \/ trace w' = (trace w ++ [GET_clusters])%list.
Proof.
  intros E. unfold BranchManager__cluster in E.
  apply bind_inv in E as [(self & w1 & E1 & E) | (e & E1 & _)].
  2:{ unfold this in E1. destruct (_branch_manager w); injection E1 as _ <-; now left. }
  assert (w1 = w) as ->.
  { unfold this in E1. destruct (_branch_manager w); now injection E1. }
  destruct (truthy (cluster_id self)).
  { apply ret_inv in E as [_ ->]. now left. }
  assert (Hd : forall r2 w2, BranchManager__get_default_cluster remote w = (r2, w2) ->
                trace w2 = trace w \/ trace w2 = (trace w ++ [GET_clusters])%list).
  { intros r2 w2 E2. unfold BranchManager__get_default_cluster in E2.
    apply bind_inv in E2 as [(data & w3 & E3 & E2) | (e & E3 & _)].
    - apply request_trace in E3.
      assert (w2 = w3) as ->; [|exact E3].
      apply bind_inv in E2 as [(found & w4 & E4 & E2) | (e & E4 & _)];
        apply lift_inv in E4 as [_ ->]; [|reflexivity].
      destruct (negb _); [now apply raise_inv in E2|].
      apply bind_inv in E2 as [(first & w5 & E5 & E2) | (e & E5 & _)];
        apply lift_inv in E5 as [_ ->]; [|reflexivity].
      apply bind_inv in E2 as [(a & w6 & E6 & E2) | (e & E6 & _)];
        apply lift_inv in E6 as [_ ->]; [|reflexivity].
      destruct (truthy a); [now apply ret_inv in E2 | now apply lift_inv in E2].
    - now apply request_trace in E3. }
  apply bind_inv in E as [(v & w2 & E2 & E) | (e & E2 & _)]; [|now apply Hd in E2].
  apply Hd in E2.
  apply bind_inv in E as [(u & w3 & E3 & E) | (e & E3 & _)]; [|discriminate].
  apply ret_inv in E as [_ ->]. unfold set_cluster_id in E3. injection E3 as _ <-. exact E2.
Qed.

Lemma effective_cluster_trace c w r w' :
  effective_cluster remote c w = (r, w') ->
  (truthy_opt c = true -> w' = w)
  /\ (trace w' = trace w \/ trace w' = (trace w ++ [GET_clusters])%list).
Proof.
  unfold effective_cluster. destruct (truthy_opt c).
  - intros E. apply ret_inv in E as [_ ->]. split; [reflexivity | now left].
  - intros E. split; [discriminate | now apply cluster_trace in E].
Qed.

Lemma get_cached_same_world n c w r w' :
  _get_cached_admin_credential n c w = (r, w') -> w' = w.
Proof.
  unfold _get_cached_admin_credential. intros E.
  apply bind_inv in E as [(d & w1 & E1 & E) | (e & E1 & _)];
    apply load_same_world in E1; subst; [|reflexivity].
  destruct (negb _); [now apply raise_inv in E | now apply ret_inv in E].
Qed.

(** With a project id, a usable cached record is all that the resolution
    looks at. *)
Lemma ensure_fast_path n cluster w w0 c w1 stored :
  _get_branch_manager cfg w = (Ok tt, w0) ->
  effective_cluster remote cluster w0 = (Ok c, w1) ->
  truthy_opt (_project_id cfg) = true ->
  _get_cached_admin_credential n c w1 = (Ok (Some stored), w1) ->
  truthy (get "host" stored) = true ->
  truthy (get "port" stored) = true ->
  _ensure_admin_credential cfg remote n cluster w
  = (Ok (if truthy_opt (DEFAULT_DATABASE cfg) && negb (truthy (get "database" stored))
         then dict_set String.eqb "database" (of_opt (DEFAULT_DATABASE cfg))
                (("source", JStr "cache") :: stored)
         else ("source", JStr "cache") :: stored),
     w1).
Proof.
  intros Hm Hc Hp Hcache Hh Hport. unfold _ensure_admin_credential.
  rewrite (run_bind _ _ _ _ _ Hm), (run_bind _ _ _ _ _ Hc), Hp. cbn [negb].
  rewrite (run_bind _ _ _ _ _ Hcache).
  assert (usable (Some stored) = true) as ->.
  { unfold usable. rewrite Hh, Hport. destruct stored; [discriminate Hh | reflexivity]. }
  unfold bind at 1. unfold ret. unfold from_cache.
  now rewrite validate_usable.
Qed.

(** Without a project id, the resolution stops after the manager and the
    cluster. *)
Lemma ensure_without_project n cluster w :
  truthy_opt (_project_id cfg) = false ->
  _ensure_admin_credential cfg remote n cluster w
  = bind (_get_branch_manager cfg)
      (fun _ => bind (effective_cluster remote cluster)
                  (fun _ => raise (RuntimeError project_id_message))) w.
Proof.
  intros Hp. unfold _ensure_admin_credential. now rewrite Hp.
Qed.

End FirstSteps.

(** ** Project id gate *)

(** C9, amended.  When [TIDBCLOUD_PROJECT_ID] is not set, no call of the
    credential resolution returns a record: once the manager is obtained
    and the cluster resolved (the two statements before the check, which
    may raise errors of their own), it raises the [RuntimeError] about the
    project id, in the world those two statements left; the check comes
    before the cache lookup, so the outcome is the same whatever the
    credentials file holds, a usable record included. *)
Theorem project_id_gate (cfg : Config) (remote : server)
    (branch_name : string) (cluster : option string) (w : world) :
  truthy_opt (_project_id cfg) = false ->
  (forall r w', _ensure_admin_credential cfg remote branch_name cluster w = (r, w') ->
     exists e, r = Raise e)
  /\ (forall w0 c w1,
        _get_branch_manager cfg w = (Ok tt, w0) ->
        effective_cluster remote cluster w0 = (Ok c, w1) ->
        _ensure_admin_credential cfg remote branch_name cluster w
        = (Raise (RuntimeError "TIDBCLOUD_PROJECT_ID is required to create branch admin users."),
           w1))
  /\ (forall f,
        fst (_ensure_admin_credential cfg remote branch_name cluster (with_file f w))
        = fst (_ensure_admin_credential cfg remote branch_name cluster w)).
Proof.
  intros Hp. repeat split.
  - intros r w' E. rewrite ensure_without_project in E by assumption.
    apply bind_inv in E as [(u & w0 & _ & E) | (e & _ & ->)]; [|eauto].
    apply bind_inv in E as [(c & w1 & _ & E) | (e & _ & ->)]; [|eauto].
    apply raise_inv in E as [-> _]. eauto.
  - intros w0 c w1 Hm Hc. rewrite ensure_without_project by assumption.
    now rewrite (run_bind _ _ _ _ _ Hm), (run_bind _ _ _ _ _ Hc).
  - intros f. rewrite !ensure_without_project by assumption.
    rewrite blind_bind; [reflexivity | apply blind_get_branch_manager |].
    intros _. apply blind_bind; [apply blind_effective_cluster|].
    intros _. apply blind_raise.
Qed.

(** Without a project id the usable record of the file is not returned. *)
Lemma project_id_gate_witness :
  _ensure_admin_credential Fixture.env_without_project Fixture.dummy "demo-branch"
    (Some "cluster-1") Fixture.cached
  = (Raise (RuntimeError "TIDBCLOUD_PROJECT_ID is required to create branch admin users."),
     Fixture.cached).
Proof.
  apply (proj1 (proj2 (project_id_gate Fixture.env_without_project Fixture.dummy "demo-branch"
                         (Some "cluster-1") Fixture.cached eq_refl))
           Fixture.cached (JStr "cluster-1") Fixture.cached);
    reflexivity.
Defined.

(** C9 as stated fails: the project id is not set, the file holds a
    usable record of the branch, and the call raises the [HTTPError] of
    the request for the clusters instead of the error about the project
    id: no cluster id is given or configured, and the control plane does
    not answer. *)
Lemma project_id_gate_as_stated_fails :
  let w := with_file (Some [Fixture.demo_row]) Fixture.fresh in
  let run := _ensure_admin_credential Fixture.env_token_only Fixture.unreachable
               "demo-branch" None w in
  truthy_opt (_project_id Fixture.env_token_only) = false
  /\ load_file (credentials_file w)
     = Ok [((JStr "demo-branch", JStr "cluster-1"), Fixture.demo_record)]
  /\ usable (Some Fixture.demo_record) = true
  /\ fst run = Raise HTTPError
  /\ trace (snd run) = [GET_clusters]
  /\ fst run <> Raise (RuntimeError project_id_message).
Proof. repeat split. discriminate. Qed.

(** ** Cache first *)

(** C1, amended.  When the manager can be obtained, the cluster resolved
    and the project id is set, a cache entry with host and port makes the
    resolution return the stored record under ["source": "cache"], its
    empty database replaced by the default database when one is
    configured; the file is not written, and no request is made after the
    cluster is resolved: none at all when the cluster id is given or known
    to the manager, else the one request for the list of clusters. *)
Theorem cache_first (cfg : Config) (remote : server)
    (branch_name : string) (cluster : option string)
    (w w0 w1 : world) (c : json) (stored : pydict) :
  _get_branch_manager cfg w = (Ok tt, w0) ->
  effective_cluster remote cluster w0 = (Ok c, w1) ->
  truthy_opt (_project_id cfg) = true ->
  _get_cached_admin_credential branch_name c w1 = (Ok (Some stored), w1) ->
  truthy (get "host" stored) = true ->
  truthy (get "port" stored) = true ->
  _ensure_admin_credential cfg remote branch_name cluster w
  = (Ok (if truthy_opt (DEFAULT_DATABASE cfg) && negb (truthy (get "database" stored))
         then dict_set String.eqb "database" (of_opt (DEFAULT_DATABASE cfg))
                (("source", JStr "cache") :: stored)
         else ("source", JStr "cache") :: stored),
     w1)
  /\ credentials_file w1 = credentials_file w
  /\ (trace w1 = trace w \/ trace w1 = (trace w ++ [GET_clusters])%list)
  /\ (truthy_opt cluster = true -> trace w1 = trace w)
  /\ (forall x, ready w x -> trace w1 = trace w).
Proof.
  intros Hm Hc Hp Hcache Hh Hport.
  pose proof (get_branch_manager_post _ _ _ _ Hm) as (Ht0 & _ & Hsame).
  pose proof (effective_cluster_trace _ _ _ _ _ Hc) as (Hgiven & Ht1).
  repeat split.
  - now apply ensure_fast_path with (w0 := w0) (c := c).
  - apply get_branch_manager_same_file in Hm.
    apply effective_cluster_same_file in Hc. unfold same_file in *. congruence.
  - rewrite <- Ht0. exact Ht1.
  - intros Hg. rewrite (Hgiven Hg). exact Ht0.
  - intros x Hr. destruct (Hr) as (self & Hs & _).
    destruct (Hsame _ Hs) as [_ ->].
    unfold effective_cluster in Hc. destruct (truthy_opt cluster).
    + now apply ret_inv in Hc as [_ ->].
    + rewrite (ready_cluster remote w x Hr) in Hc. now injection Hc as _ <-.
Qed.

(** The usable record of the file is returned without any call. *)
Lemma cache_first_witness :
  _ensure_admin_credential Fixture.env Fixture.dummy "demo-branch" None Fixture.cached
  = (Ok (("source", JStr "cache") :: Fixture.demo_record), Fixture.cached).
Proof.
  apply (proj1 (cache_first Fixture.env Fixture.dummy "demo-branch" None
                  Fixture.cached Fixture.cached Fixture.cached (JStr "cluster-1")
                  Fixture.demo_record eq_refl eq_refl eq_refl eq_refl eq_refl eq_refl)).
Defined.

(** C1 as stated fails: with the same usable entry in the file, the
    resolution raises when the project id is not set, and returns a record
    whose database differs from the stored one when a default database is
    configured. *)
Lemma cache_first_as_stated_fails :
  _get_cached_admin_credential "demo-branch" (JStr "cluster-1") Fixture.cached
  = (Ok (Some Fixture.demo_record), Fixture.cached)
  /\ truthy (get "host" Fixture.demo_record) = true
  /\ truthy (get "port" Fixture.demo_record) = true
  /\ fst (_ensure_admin_credential Fixture.env_without_project Fixture.dummy "demo-branch"
            (Some "cluster-1") Fixture.cached)
     <> Ok (("source", JStr "cache") :: Fixture.demo_record)
  /\ fst (_ensure_admin_credential Fixture.env_with_database Fixture.dummy "demo-branch"
            (Some "cluster-1") Fixture.cached)
     <> Ok (("source", JStr "cache") :: Fixture.demo_record).
Proof.
  repeat split; try reflexivity; vm_compute; discriminate.
Qed.

(** ** Unknown branch *)

Section NotFound.

Variable cfg : Config.
Variable remote : server.

Lemma scan_branches_no_match name items :
  Forall (fun br => exists n, py_get "displayName" br = Ok n /\ eq_str n name = false) items ->
  scan_branches name items = Ok JNull.
Proof.
  induction 1 as [|br items (n & Hn & Hne) _ IH]; simpl; [reflexivity|].
  now rewrite Hn, Hne.
Qed.

Lemma resolve_branch_id_no_match name w self branches w2 items :
  _branch_manager w = Some self ->
  BranchManager_list_branches remote w = (Ok branches, w2) ->
  py_iter branches = Ok items ->
  Forall (fun br => exists n, py_get "displayName" br = Ok n /\ eq_str n name = false) items ->
  _resolve_branch_id cfg remote name w = (Ok JNull, w2).
Proof.
  intros Hs Hl Hi Hno. unfold _resolve_branch_id.
  rewrite (run_bind _ _ _ _ _ (get_branch_manager_again cfg w self Hs)).
  rewrite (run_bind _ _ _ _ _ Hl). unfold bind, lift.
  now rewrite Hi, (scan_branches_no_match _ _ Hno).
Qed.

Lemma scan_branches_first_match name pre br post :
  Forall (fun x => exists n, py_get "displayName" x = Ok n /\ eq_str n name = false) pre ->
  get "displayName" br = JStr name ->
  scan_branches name (pre ++ JObj br :: post)%list = Ok (get "branchId" br).
Proof.
  intros Hpre Hbr. induction Hpre as [|x pre (n & Hn & Hne) _ IH]; cbn [app scan_branches].
  - cbn [py_get]. rewrite Hbr. cbn [eq_str]. now rewrite String.eqb_refl.
  - now rewrite Hn, Hne.
Qed.

Lemma resolve_branch_id_first_match name w self branches w2 pre br post :
  _branch_manager w = Some self ->
  BranchManager_list_branches remote w = (Ok branches, w2) ->
  py_iter branches = Ok (pre ++ JObj br :: post)%list ->
  Forall (fun x => exists n, py_get "displayName" x = Ok n /\ eq_str n name = false) pre ->
  get "displayName" br = JStr name ->
  _resolve_branch_id cfg remote name w = (Ok (get "branchId" br), w2).
Proof.
  intros Hs Hl Hi Hpre Hbr. unfold _resolve_branch_id.
  rewrite (run_bind _ _ _ _ _ (get_branch_manager_again cfg w self Hs)).
  rewrite (run_bind _ _ _ _ _ Hl). unfold bind, lift.
  now rewrite Hi, (scan_branches_first_match _ _ _ _ Hpre Hbr).
Qed.

Lemma store_same_trace entry w r w' :
  _store_admin_credential entry w = (r, w') -> trace w' = trace w.
Proof.
  intros E. apply (store_grows (fun _ => False)) in E as (new & Hnew & Hall).
  destruct Hall; [now rewrite app_nil_r in Hnew | contradiction].
Qed.

(** The first call of a wait with a round to go is the request for the
    details of the branch. *)
Lemma wait_begins id retries delay w c r w' :
  ready w c -> 0 < Z.to_nat retries ->
  _wait_for_branch_active remote id retries delay w = (r, w') ->
  exists rest, trace w' = (trace w ++ GET_branch c (py_str id) :: rest)%list.
Proof.
  intros Hr Hn E. unfold _wait_for_branch_active in E.
  assert (Hpoll : forall x w1, poll remote (Z.to_nat retries) id delay w = (x, w1) ->
            exists rest, trace w1 = (trace w ++ GET_branch c (py_str id) :: rest)%list).
  { intros x w1 Ep. destruct (Z.to_nat retries) as [|n]; [lia|]. cbn [poll] in Ep.
    apply bind_inv in Ep as [(info & wa & Ea & Ep) | (e & Ea & _)];
      rewrite (ready_get_branch remote w c Hr), send_run in Ea; injection Ea as _ <-.
    - match type of Ep with
      | ?m _ = _ => assert (Hrest : respects (grows is_read) m) by frame
      end.
      apply Hrest in Ep as (l & Hl & _). exists l.
      rewrite Hl. cbn [add_calls trace]. now rewrite <- app_assoc.
    - now exists []. }
  apply bind_inv in E as [(x & w1 & Ep & E) | (e & Ep & _)].
  - destruct x; [apply ret_inv in E | apply raise_inv in E];
      destruct E as [_ ->]; exact (Hpoll _ _ Ep).
  - exact (Hpoll _ _ Ep).
Qed.

(** Once the name is resolved to an id, the slow path starts by asking
    for the branch of that id. *)
Lemma provision_begins n rc w1 id w2 c r w' :
  _resolve_branch_id cfg remote n w1 = (Ok id, w2) ->
  id <> JNull ->
  ready w2 c ->
  provision cfg remote n rc w1 = (r, w') ->
  exists rest, trace w' = (trace w2 ++ GET_branch c (py_str id) :: rest)%list.
Proof.
  intros Hres Hid Hr E. unfold provision in E. rewrite (run_bind _ _ _ _ _ Hres) in E.
  destruct id; [congruence | ..].
  all: apply bind_inv in E as [(u & wb & Eb & E) | (e & Eb & _)];
    apply (wait_begins _ _ _ _ c) in Eb as (rest & Hrest);
    [ | assumption | vm_compute; lia | eauto | assumption | vm_compute; lia ].
  all: match type of E with
       | ?m _ = _ => assert (Hgrows : respects (grows is_broker_call) m) by frame
       end;
    apply Hgrows in E as (added & Hadded & _); exists (rest ++ added)%list;
    rewrite Hadded, Hrest, <- app_assoc; reflexivity.
Qed.

End NotFound.

(** C8.  On a cache miss the branch name is looked up among the display
    names of the current branch list.  The first branch of the list whose
    display name is the requested name gives the id: the name is resolved
    to the [branchId] of that branch, and the resolution goes on with that
    id, asking for the details of that branch first.  When no branch of
    the list bears the name, the resolution raises the not-found
    [RuntimeError] right after the list request.  No run of the
    resolution ever sends the request that creates a branch. *)
Theorem branch_resolved_by_display_name (cfg : Config) (remote : server)
    (branch_name : string) (cluster : option string) (w : world) :
  (forall w0 c w1 cached branches w2 before br after,
     _get_branch_manager cfg w = (Ok tt, w0) ->
     effective_cluster remote cluster w0 = (Ok c, w1) ->
     truthy_opt (_project_id cfg) = true ->
     _get_cached_admin_credential branch_name c w1 = (Ok cached, w1) ->
     usable cached = false ->
     BranchManager_list_branches remote w1 = (Ok branches, w2) ->
     py_iter branches = Ok (before ++ JObj br :: after)%list ->
     Forall (fun x => exists n, py_get "displayName" x = Ok n
                                /\ eq_str n branch_name = false) before ->
     get "displayName" br = JStr branch_name ->
     _resolve_branch_id cfg remote branch_name w1 = (Ok (get "branchId" br), w2)
     /\ (forall c' r w',
           get "branchId" br <> JNull ->
           ready w2 c' ->
           _ensure_admin_credential cfg remote branch_name cluster w = (r, w') ->
           exists rest,
             trace w'
             = (trace w2 ++ GET_branch c' (py_str (get "branchId" br)) :: rest)%list))
  /\ (forall w0 c w1 cached branches w2 items,
       _get_branch_manager cfg w = (Ok tt, w0) ->
       effective_cluster remote cluster w0 = (Ok c, w1) ->
       truthy_opt (_project_id cfg) = true ->
       _get_cached_admin_credential branch_name c w1 = (Ok cached, w1) ->
       usable cached = false ->
       BranchManager_list_branches remote w1 = (Ok branches, w2) ->
       py_iter branches = Ok items ->
       Forall (fun br => exists n, py_get "displayName" br = Ok n
                                   /\ eq_str n branch_name = false) items ->
       _ensure_admin_credential cfg remote branch_name cluster w
       = (Raise (RuntimeError
            ("Branch `" ++ branch_name
               ++ "` not found; ensure it exists before requesting credentials.")),
          w2))
  /\ (forall r w', _ensure_admin_credential cfg remote branch_name cluster w = (r, w') ->
        exists new, trace w' = (trace w ++ new)%list
                    /\ Forall (fun x => forall c p, x <> POST_branches c p) new).
Proof.
  split; [|split].
  - intros w0 c w1 cached branches w2 before br after Hm Hc Hp Hcache Hu Hl Hi Hno Hbr.
    destruct (proj1 (proj2 (get_branch_manager_post _ _ _ _ Hm)) eq_refl) as (s0 & Hs0).
    destruct (effective_cluster_settled remote cluster _ _ _ Hc _ Hs0) as (s1 & Hs1 & _).
    pose proof (resolve_branch_id_first_match cfg remote branch_name w1 s1 branches w2
                  before br after Hs1 Hl Hi Hno Hbr) as Hres.
    split; [exact Hres|].
    intros c' r w' Hid Hr E. unfold _ensure_admin_credential in E.
    rewrite (run_bind _ _ _ _ _ Hm), (run_bind _ _ _ _ _ Hc), Hp in E. cbn [negb] in E.
    rewrite (run_bind _ _ _ _ _ Hcache), Hu in E.
    apply bind_inv in E as [(payload & wa & Ea & E) | (e & Ea & _)].
    + apply validate_same_world in E. subst w'.
      apply bind_inv_ok in Ea as (payload' & wb & Eb & Ea).
      apply (provision_begins cfg remote _ _ _ _ _ c' _ _ Hres Hid Hr) in Eb
        as (rest & Hrest).
      apply bind_inv_ok in Ea as ([] & wc & Ec & Ea). apply ret_inv in Ea as [_ ->].
      exists rest.
      apply store_same_trace in Ec. now rewrite Ec.
    + apply bind_inv in Ea as [(payload' & wb & Eb & Ea) | (e' & Eb & _)].
      * apply (provision_begins cfg remote _ _ _ _ _ c' _ _ Hres Hid Hr) in Eb
          as (rest & Hrest).
        exists rest.
        apply bind_inv in Ea as [([] & wc & Ec & Ea) | (e2 & Ec & _)].
        -- apply ret_inv in Ea as [Ea _]. discriminate.
        -- apply store_same_trace in Ec. now rewrite Ec.
      * exact (provision_begins cfg remote _ _ _ _ _ c' _ _ Hres Hid Hr Eb).
  - intros w0 c w1 cached branches w2 items Hm Hc Hp Hcache Hu Hl Hi Hno.
    destruct (proj1 (proj2 (get_branch_manager_post _ _ _ _ Hm)) eq_refl) as (s0 & Hs0).
    destruct (effective_cluster_settled remote cluster _ _ _ Hc _ Hs0) as (s1 & Hs1 & _).
    unfold _ensure_admin_credential.
    rewrite (run_bind _ _ _ _ _ Hm), (run_bind _ _ _ _ _ Hc), Hp. cbn [negb].
    rewrite (run_bind _ _ _ _ _ Hcache), Hu.
    apply run_bind_raise. apply run_bind_raise. unfold provision.
    rewrite (run_bind _ _ _ _ _
               (resolve_branch_id_no_match cfg remote branch_name w1 s1 branches w2 items
                  Hs1 Hl Hi Hno)).
    reflexivity.
  - intros r w' E. apply ensure_grows in E as (new & Hnew & Hall).
    exists new. split; [assumption|].
    eapply Forall_impl; [|exact Hall].
    intros x Hx c p ->. exact Hx.
Qed.

(** With the manager double: the name of its branch is resolved to the
    id of that branch, which the resolution then asks for; a name that
    its list does not have is not found. *)
Lemma branch_resolved_by_display_name_witness :
  let listed := add_calls [GET_branches "cluster-1"] Fixture.managed in
  (_resolve_branch_id Fixture.env Fixture.dummy "demo-branch" Fixture.managed
   = (Ok (JStr "b1"), listed)
   /\ exists rest,
        trace (snd (_ensure_admin_credential Fixture.env Fixture.dummy "demo-branch" None
                      Fixture.fresh))
        = (trace listed ++ GET_branch "cluster-1" "b1" :: rest)%list)
  /\ _ensure_admin_credential Fixture.env Fixture.dummy "other" None Fixture.fresh
     = (Raise (RuntimeError
                 "Branch `other` not found; ensure it exists before requesting credentials."),
        listed).
Proof.
  intros listed. split.
  - destruct (proj1 (branch_resolved_by_display_name Fixture.env Fixture.dummy "demo-branch"
                       None Fixture.fresh)
                Fixture.managed (JStr "cluster-1") Fixture.managed None
                (JArr [JObj [("displayName", JStr "demo-branch"); ("branchId", JStr "b1")]])
                listed []
                [("displayName", JStr "demo-branch"); ("branchId", JStr "b1")] []
                eq_refl eq_refl eq_refl eq_refl eq_refl eq_refl eq_refl
                (Forall_nil _) eq_refl) as [Hres Hnext].
    split; [exact Hres|].
    apply (Hnext "cluster-1"
             (fst (_ensure_admin_credential Fixture.env Fixture.dummy "demo-branch" None
                     Fixture.fresh))
             (snd (_ensure_admin_credential Fixture.env Fixture.dummy "demo-branch" None
                     Fixture.fresh)));
      [discriminate | | reflexivity].
    exists Fixture.manager. repeat split. now left.
  - apply (proj1 (proj2 (branch_resolved_by_display_name Fixture.env Fixture.dummy "other"
                           None Fixture.fresh))
             Fixture.managed (JStr "cluster-1") Fixture.managed None
             (JArr [JObj [("displayName", JStr "demo-branch"); ("branchId", JStr "b1")]])
             listed
             [JObj [("displayName", JStr "demo-branch"); ("branchId", JStr "b1")]]);
      try reflexivity.
    repeat constructor. exists (JStr "demo-branch"). split; reflexivity.
Defined.

(** ** Statement executor *)

Section Executor.

Variable cfg : Config.
Variable remote : server.

Lemma driver_run x w :
  driver remote x w
  = (match remote (trace w) x with Some r => Ok r | None => Raise DatabaseError end,
     add_calls [x] w).
Proof. reflexivity. Qed.

Lemma run_sql_on_branch_select n sql w creds w1 w2 :
  _ensure_admin_credential cfg remote n None w = (Ok creds, w1) ->
  _connect_branch_client cfg remote creds w1 = (Ok tt, w2) ->
  is_select sql = true ->
  run_sql_on_branch cfg remote n sql w
  = (match remote (trace w2) (DB_query sql) with
     | Some rows => Ok (JObj [("branch", JStr n); ("rows", rows)])
     | None => Raise DatabaseError
     end, add_calls [DB_query sql] w2).
Proof.
  intros He Hc Hs. unfold run_sql_on_branch.
  rewrite (run_bind _ _ _ _ _ He), (run_bind _ _ _ _ _ Hc), Hs.
  unfold bind. rewrite driver_run. now destruct (remote (trace w2) (DB_query sql)).
Qed.

Lemma run_sql_on_branch_other n sql w creds w1 w2 :
  _ensure_admin_credential cfg remote n None w = (Ok creds, w1) ->
  _connect_branch_client cfg remote creds w1 = (Ok tt, w2) ->
  is_select sql = false ->
  run_sql_on_branch cfg remote n sql w
  = (match remote (trace w2) (DB_execute sql) with
     | Some result =>
         match py_attr "rowcount" result, py_attr "success" result,
               py_attr "message" result with
         | Ok rowcount, Ok success, Ok message =>
             Ok (JObj [("branch", JStr n); ("rowcount", rowcount);
                       ("success", success); ("message", message)])
         | Raise e, _, _ | Ok _, Raise e, _ | Ok _, Ok _, Raise e => Raise e
         end
     | None => Raise DatabaseError
     end, add_calls [DB_execute sql] w2).
Proof.
  intros He Hc Hs. unfold run_sql_on_branch.
  rewrite (run_bind _ _ _ _ _ He), (run_bind _ _ _ _ _ Hc), Hs.
  unfold bind at 1. rewrite driver_run.
  destruct (remote (trace w2) (DB_execute sql)) as [result|]; [|reflexivity].
  unfold bind, lift.
  destruct (py_attr "rowcount" result); [|reflexivity].
  destruct (py_attr "success" result); [|reflexivity].
  now destruct (py_attr "message" result).
Qed.

End Executor.

(** C10.  [run_sql_on_branch] takes the read path exactly when
    [sql.strip().lower()] starts with ["select"]: it then sends the
    statement as a query and returns the branch and the rows.  Any other
    statement, one that returns rows included, is sent to [execute] and
    the answer holds the branch, [rowcount], [success] and [message].
    What [strip] removes is the whitespace of [str.isspace]: a statement
    that starts with a no-break space (U+00A0, the bytes 194 160) or an
    em space (U+2003, the bytes 226 128 131) before [select] is a query. *)
Theorem statement_classification (cfg : Config) (remote : server)
    (branch_name sql : string) (w w1 w2 : world) (creds : pydict) :
  _ensure_admin_credential cfg remote branch_name None w = (Ok creds, w1) ->
  _connect_branch_client cfg remote creds w1 = (Ok tt, w2) ->
  (if PyStr.startswith (PyStr.lower (PyStr.strip sql)) "select"
   then run_sql_on_branch cfg remote branch_name sql w
        = (match remote (trace w2) (DB_query sql) with
           | Some rows => Ok (JObj [("branch", JStr branch_name); ("rows", rows)])
           | None => Raise DatabaseError
           end, add_calls [DB_query sql] w2)
   else run_sql_on_branch cfg remote branch_name sql w
        = (match remote (trace w2) (DB_execute sql) with
           | Some result =>
               match py_attr "rowcount" result, py_attr "success" result,
                     py_attr "message" result with
               | Ok rowcount, Ok success, Ok message =>
                   Ok (JObj [("branch", JStr branch_name); ("rowcount", rowcount);
                             ("success", success); ("message", message)])
               | Raise e, _, _ | Ok _, Raise e, _ | Ok _, Ok _, Raise e => Raise e
               end
           | None => Raise DatabaseError
           end, add_calls [DB_execute sql] w2))
  /\ is_select "  SeLeCT 1" = true
  /\ is_select (String "194" (String "160" "select 1")) = true
  /\ is_select (String "226" (String "128" (String "131" "SELECT 1"))) = true
  /\ is_select "WITH t AS (SELECT 1) SELECT * FROM t" = false
  /\ is_select "SHOW TABLES" = false
  /\ is_select "(select 1)" = false.
Proof.
  intros He Hc. split; [|repeat split].
  destruct (PyStr.startswith (PyStr.lower (PyStr.strip sql)) "select") eqn:Es.
  - now apply run_sql_on_branch_select with (creds := creds) (w1 := w1).
  - now apply run_sql_on_branch_other with (creds := creds) (w1 := w1).
Qed.

(** [SHOW TABLES] returns rows and is sent to [execute]. *)
Lemma statement_classification_witness :
  run_sql_on_branch Fixture.env Fixture.dummy_with_database "demo-branch" "SHOW TABLES"
    Fixture.cached
  = (Ok (JObj [("branch", JStr "demo-branch"); ("rowcount", JNum 0);
               ("success", JBool true); ("message", JStr "")]),
     add_calls [DB_connect (JStr "h1") 1234 (JStr "u1") (JStr "p1") JNull;
                DB_execute "SHOW TABLES"] Fixture.cached).
Proof.
  exact (proj1 (statement_classification Fixture.env Fixture.dummy_with_database "demo-branch"
                  "SHOW TABLES" Fixture.cached Fixture.cached
                  (add_calls [DB_connect (JStr "h1") 1234 (JStr "u1") (JStr "p1") JNull]
                     Fixture.cached)
                  (("source", JStr "cache") :: Fixture.demo_record) eq_refl eq_refl)).
Defined.

(** ** Reading and writing the store *)

Lemma get_cached_run n c w records :
  load_file (credentials_file w) = Ok records ->
  hashable c = true ->
  _get_cached_admin_credential n c w = (Ok (dict_get key_eqb (JStr n, c) records), w).
Proof.
  intros Hl Hh. unfold _get_cached_admin_credential, bind, _load_admin_credentials.
  rewrite Hl. unfold key_hashable. simpl. now rewrite Hh.
Qed.

Lemma get_cached_inv n c w cached w' :
  _get_cached_admin_credential n c w = (Ok cached, w') ->
  exists records,
    load_file (credentials_file w) = Ok records /\ hashable c = true
    /\ cached = dict_get key_eqb (JStr n, c) records /\ w' = w.
Proof.
  unfold _get_cached_admin_credential, bind, _load_admin_credentials.
  destruct (load_file (credentials_file w)) as [records|e]; [|discriminate].
  unfold key_hashable. simpl. destruct (hashable c); simpl.
  - intros [= <- <-]. eauto.
  - discriminate.
Qed.

Lemma store_run entry w records :
  load_file (credentials_file w) = Ok records ->
  key_hashable (key_of_entry entry) = true ->
  _store_admin_credential entry w
  = (Ok tt,
     with_file (Some (map row_of_record
                        (dict_values (dict_set key_eqb (key_of_entry entry)
                                        (record_of_entry entry) records)))) w).
Proof.
  intros Hl Hh. unfold _store_admin_credential, bind, _load_admin_credentials.
  now rewrite Hl, Hh.
Qed.

Lemma store_inv entry w r w' :
  _store_admin_credential entry w = (r, w') ->
  (exists records,
     load_file (credentials_file w) = Ok records /\ r = Ok tt
     /\ w' = with_file (Some (map row_of_record
                                (dict_values (dict_set key_eqb (key_of_entry entry)
                                                (record_of_entry entry) records)))) w)
  \/ (w' = w /\ (r = Raise TypeError \/ r = Raise ValueError)).
Proof.
  unfold _store_admin_credential, bind, _load_admin_credentials.
  destruct (load_file (credentials_file w)) as [records|e] eqn:El.
  - destruct (key_hashable (key_of_entry entry)); simpl.
    + intros [= <- <-]. left. eauto.
    + intros [= <- <-]. right. auto.
  - intros [= <- <-]. right. split; [reflexivity|]. right. f_equal.
    unfold load_file in El. destruct (credentials_file w) as [rows|]; [|discriminate].
    clear - El. revert El. generalize (@nil (cache_key * pydict)).
    induction rows as [|row rows IH]; simpl; intros acc; [discriminate|].
    unfold port_of_cell.
    destruct (truthy (JStr (c_port row))); [destruct (PyStr.to_Z (c_port row))|];
      first [apply IH | now intros [= <-]].
Qed.

(** ** Endpoint recovery *)

Section Recovery.

Variable cfg : Config.
Variable remote : server.

Lemma ready_create_admin w cl p rc n :
  ready w cl -> manager_project w p -> truthy (JStr n) = true ->
  BranchManager_create_admin_user_for_branch remote None rc n w
  = send remote (POST_admin_user p (py_str (py_or rc (JStr cl))) n) w.
Proof.
  intros Hr (self & Hs & Hp & Htp) Hn.
  unfold BranchManager_create_admin_user_for_branch.
  assert (this w = (Ok self, w)) as Ht by (unfold this; now rewrite Hs).
  rewrite (run_bind _ _ _ _ _ Ht). rewrite Hp. simpl of_opt.
  assert (py_or JNull (JStr p) = JStr p) as -> by reflexivity.
  assert (Hc : (if truthy rc then ret rc else BranchManager__cluster remote) w
               = (Ok (py_or rc (JStr cl)), w)).
  { unfold py_or. destruct (truthy rc); [reflexivity | now apply ready_cluster]. }
  rewrite (run_bind _ _ _ _ _ Hc). rewrite Htp, Hn.
  assert (truthy (py_or rc (JStr cl)) = true) as ->.
  { unfold py_or. destruct (truthy rc) eqn:E; [exact E|].
    destruct Hr as (s & _ & _ & H & _). exact H. }
  simpl. apply (ready_request remote w cl Hr).
Qed.

(** The slow path once the branch is active, when the first details lack
    host or port. *)
Lemma provision_refetch n rc w1 branch_id w2 w3 cl p info1 ep1 admin info2 ep2 :
  let b := py_str branch_id in
  let fetch := GET_branch cl b in
  let create := POST_admin_user p (py_str (py_or rc (JStr cl))) n in
  _resolve_branch_id cfg remote n w1 = (Ok branch_id, w2) ->
  branch_id <> JNull ->
  _wait_for_branch_active remote branch_id 20 10 w2 = (Ok tt, w3) ->
  ready w3 cl -> manager_project w3 p -> truthy (JStr n) = true ->
  remote (trace w3) fetch = Some info1 ->
  public_endpoints info1 = Ok (JObj ep1) ->
  truthy (get "host" ep1) && truthy (get "port" ep1) = false ->
  remote (trace w3 ++ [fetch])%list create = Some (JObj admin) ->
  remote (trace w3 ++ [fetch; create])%list fetch = Some info2 ->
  public_endpoints info2 = Ok (JObj ep2) ->
  provision cfg remote n rc w1
  = (Ok [ ("source", JStr "created");
          ("branchName", JStr n);
          ("clusterId", rc);
          ("username", get_or "username" (JStr "") admin);
          ("password", get_or "password" (JStr "") admin);
          ("host", get "host" ep2);
          ("port", get "port" ep2);
          ("database", JStr (match DEFAULT_DATABASE cfg with
                             | Some s => if truthy (JStr s) then s else ""
                             | None => ""
                             end)) ],
     add_calls [fetch; create; fetch] w3).
Proof.
  intros b fetch create Hid Hnn Hwait Hr Hp Hn H1 He1 Hmiss Ha H2 He2.
  unfold provision. rewrite (run_bind _ _ _ _ _ Hid).
  assert (Hgo : forall (A : Type) (x y : M A),
             match branch_id with JNull => x | _ => y end = y).
  { intros A x y. destruct branch_id; congruence. }
  rewrite Hgo. rewrite (run_bind _ _ _ _ _ Hwait).
  unfold bind at 1. rewrite (ready_get_branch remote w3 cl Hr), send_run.
  fold b. fold fetch. rewrite H1.
  unfold bind at 1. unfold lift at 1. rewrite He1.
  unfold bind at 1.
  rewrite (ready_create_admin (add_calls [fetch] w3) cl p rc n
             (ready_add_calls _ _ _ Hr)
             ltac:(destruct Hp as (s & Hs); exists s; exact Hs) Hn).
  rewrite send_run. fold create.
  change (trace (add_calls [fetch] w3)) with (trace w3 ++ [fetch])%list. rewrite Ha.
  unfold bind at 1. unfold lift at 1. cbn [py_get].
  unfold bind at 1. unfold lift at 1.
  assert (negb (truthy (get "host" ep1)) || negb (truthy (get "port" ep1)) = true) as ->.
  { destruct (truthy (get "host" ep1)), (truthy (get "port" ep1)); auto. }
  rewrite add_calls_add. cbn [app].
  unfold bind at 1. unfold bind at 1.
  rewrite (ready_get_branch remote _ cl (ready_add_calls _ _ _ Hr)), send_run.
  fold b. fold fetch.
  change (trace (add_calls [fetch; create] w3)) with (trace w3 ++ [fetch; create])%list.
  rewrite H2. unfold lift at 1. rewrite He2. rewrite add_calls_add. cbn [app].
  reflexivity.
Qed.

End Recovery.

(** C5.  On the slow path, when the details fetched after the wait lack
    host or port, the resolution asks for the details once more, after
    the admin user is created, and makes no further call; when the second
    answer has host and port, the returned record carries them. *)
Theorem endpoint_recovery (cfg : Config) (remote : server)
    (branch_name : string) (cluster : option string)
    (w w0 w1 w2 w3 : world) (rc branch_id info1 info2 : json) (cached : option pydict)
    (cl p : string) (ep1 admin ep2 : pydict) :
  let b := py_str branch_id in
  let fetch := GET_branch cl b in
  let create := POST_admin_user p (py_str (py_or rc (JStr cl))) branch_name in
  let run := _ensure_admin_credential cfg remote branch_name cluster w in
  _get_branch_manager cfg w = (Ok tt, w0) ->
  effective_cluster remote cluster w0 = (Ok rc, w1) ->
  truthy_opt (_project_id cfg) = true ->
  _get_cached_admin_credential branch_name rc w1 = (Ok cached, w1) ->
  usable cached = false ->
  _resolve_branch_id cfg remote branch_name w1 = (Ok branch_id, w2) ->
  branch_id <> JNull ->
  _wait_for_branch_active remote branch_id 20 10 w2 = (Ok tt, w3) ->
  ready w3 cl -> manager_project w3 p -> truthy (JStr branch_name) = true ->
  remote (trace w3) fetch = Some info1 ->
  public_endpoints info1 = Ok (JObj ep1) ->
  truthy (get "host" ep1) && truthy (get "port" ep1) = false ->
  remote (trace w3 ++ [fetch])%list create = Some (JObj admin) ->
  remote (trace w3 ++ [fetch; create])%list fetch = Some info2 ->
  public_endpoints info2 = Ok (JObj ep2) ->
  trace (snd run) = (trace w3 ++ [fetch; create; fetch])%list
  /\ (truthy (get "host" ep2) = true -> truthy (get "port" ep2) = true ->
      exists payload,
        fst run = Ok payload
        /\ get "source" payload = JStr "created"
        /\ get "host" payload = get "host" ep2
        /\ get "port" payload = get "port" ep2).
Proof.
  intros b fetch create run Hm Hc Hp Hcache Hu Hid Hnn Hwait Hr Hproj Hn
    H1 He1 Hmiss Ha H2 He2.
  pose proof (provision_refetch cfg remote branch_name rc w1 branch_id w2 w3 cl p
                info1 ep1 admin info2 ep2 Hid Hnn Hwait Hr Hproj Hn H1 He1 Hmiss Ha H2 He2)
    as Hprov.
  fold b fetch create in Hprov.
  set (payload := [("source", JStr "created"); ("branchName", JStr branch_name);
                   ("clusterId", rc);
                   ("username", get_or "username" (JStr "") admin);
                   ("password", get_or "password" (JStr "") admin);
                   ("host", get "host" ep2); ("port", get "port" ep2);
                   ("database", JStr match DEFAULT_DATABASE cfg with
                                     | Some s => if truthy (JStr s) then s else ""
                                     | None => ""
                                     end)]) in Hprov.
  destruct (get_cached_inv _ _ _ _ _ Hcache) as (records & Hload & Hhash & _ & _).
  assert (Hfile : credentials_file (add_calls [fetch; create; fetch] w3) = credentials_file w1).
  { apply resolve_branch_id_same_file in Hid. apply wait_same_file in Hwait.
    unfold same_file in *. simpl. congruence. }
  assert (Hstore := store_run payload (add_calls [fetch; create; fetch] w3) records).
  rewrite Hfile in Hstore. specialize (Hstore Hload).
  assert (key_hashable (key_of_entry payload) = true) as Hk.
  { unfold key_hashable, key_of_entry, payload. simpl. exact Hhash. }
  specialize (Hstore Hk).
  assert (Hrun : exists w', run = validate cfg payload w'
                            /\ trace w' = (trace w3 ++ [fetch; create; fetch])%list).
  { eexists. split.
    - unfold run, _ensure_admin_credential.
      rewrite (run_bind _ _ _ _ _ Hm), (run_bind _ _ _ _ _ Hc), Hp. cbn [negb].
      rewrite (run_bind _ _ _ _ _ Hcache), Hu.
      unfold bind at 1. unfold bind at 1. rewrite Hprov.
      unfold bind at 1. rewrite Hstore. unfold ret. reflexivity.
    - reflexivity. }
  destruct Hrun as (w' & Hrun & Htrace). rewrite Hrun. split.
  - destruct (validate cfg payload w') as [r w''] eqn:Ev.
    apply validate_same_world in Ev. subst w''. exact Htrace.
  - intros Hh Hport. rewrite validate_usable by assumption.
    eexists. split; [reflexivity|].
    destruct (truthy_opt (DEFAULT_DATABASE cfg) && negb (truthy (get "database" payload)));
      [rewrite !get_set_other by discriminate|]; repeat split.
Qed.

(** Endpoints that appear only after the admin user exists are found by
    the second request. *)
Lemma endpoint_recovery_witness :
  let run := _ensure_admin_credential Fixture.env Fixture.late_endpoints "demo-branch" None
               Fixture.fresh in
  trace (snd run)
  = [GET_branches "cluster-1"; GET_branch "cluster-1" "b1";
     GET_branch "cluster-1" "b1"; POST_admin_user "proj" "cluster-1" "demo-branch";
     GET_branch "cluster-1" "b1"]
  /\ exists payload,
       fst run = Ok payload
       /\ get "source" payload = JStr "created"
       /\ get "host" payload = JStr "h1"
       /\ get "port" payload = JNum 1234.
Proof.
  intros run.
  destruct (endpoint_recovery Fixture.env Fixture.late_endpoints "demo-branch" None
              Fixture.fresh Fixture.managed Fixture.managed
              (add_calls [GET_branches "cluster-1"] Fixture.managed)
              (add_calls [GET_branches "cluster-1"; GET_branch "cluster-1" "b1"] Fixture.managed)
              (JStr "cluster-1") (JStr "b1")
              (Fixture.branch_json "b1" "ACTIVE" [])
              (Fixture.branch_json "b1" "ACTIVE" Fixture.h1_1234)
              None "cluster-1" "proj" []
              [("username", JStr "u1"); ("password", JStr "p1")]
              [("host", JStr "h1"); ("port", JNum 1234)]) as [Ht Hp];
    try reflexivity.
  - discriminate.
  - exists Fixture.manager. repeat split. now left.
  - exists Fixture.manager. repeat split.
  - split; [exact Ht|]. apply Hp; reflexivity.
Defined.

(** ** Where the incomplete-endpoint error comes from *)

Create HintDb raising discriminated.

Ltac harmless_exn :=
  let H := fresh in
  intros [H | H]; vm_compute in H; discriminate H.

Ltac raising :=
  repeat first
    [ solve [eauto 2 with raising]
    | apply raises_ret
    | apply raises_raise; harmless_exn
    | apply raises_lift
    | apply raises_bind; [| intros ?]
    | match goal with
      | |- raises _ (if ?b then _ else _) => destruct b
      | |- raises _ (match ?x with _ => _ end) => destruct x
      end ].

Section Raising.

Variable cfg : Config.
Variable remote : server.

Lemma py_get_harmless k v e : py_get k v = Raise e -> harmless e.
Proof. destruct v; simpl; intros [= <-]; harmless_exn. Qed.

Lemma py_get_or_harmless k d v e : py_get_or k d v = Raise e -> harmless e.
Proof. destruct v; simpl; intros [= <-]; harmless_exn. Qed.

Lemma py_first_harmless v e : py_first v = Raise e -> harmless e.
Proof.
  destruct v as [| | | s | l | d]; simpl; try (intros [= <-]; harmless_exn).
  - destruct s; intros [= <-]; harmless_exn.
  - destruct l; intros [= <-]; harmless_exn.
Qed.

Lemma py_iter_harmless v e : py_iter v = Raise e -> harmless e.
Proof. destruct v; simpl; intros [= <-]; harmless_exn. Qed.

Lemma scan_branches_harmless n l e : scan_branches n l = Raise e -> harmless e.
Proof.
  induction l as [|br l IH]; simpl; [discriminate|].
  destruct (py_get "displayName" br) as [name|x] eqn:E.
  - destruct (eq_str name n); [apply py_get_harmless | exact IH].
  - intros [= ->]. eapply py_get_harmless. eassumption.
Qed.

Lemma public_endpoints_harmless v e : public_endpoints v = Raise e -> harmless e.
Proof.
  unfold public_endpoints. destruct (py_get "endpoints" v) as [x|y] eqn:E1.
  - destruct (py_get "public" (py_or x (JObj []))) as [z|y] eqn:E2; [discriminate|].
    intros [= ->]. eapply py_get_harmless. eassumption.
  - intros [= ->]. eapply py_get_harmless. eassumption.
Qed.

Hint Resolve py_get_harmless py_get_or_harmless py_first_harmless py_iter_harmless
  scan_branches_harmless public_endpoints_harmless : raising.

Lemma send_raises c : raises harmless (send remote c).
Proof.
  intros w e w' E. unfold send in E.
  destruct (remote (trace w) c); [discriminate | injection E as <- _; harmless_exn].
Qed.

Lemma sleep_raises s : raises harmless (sleep s).
Proof.
  intros w e w' E. unfold sleep, sleep_refusal in E.
  destruct (_ || _); [injection E as <- _; intros [H | H]; discriminate|].
  destruct (s <? 0)%Z; [|discriminate].
  injection E as <- _. intros [H | H]; discriminate.
Qed.

Lemma this_raises : raises harmless this.
Proof.
  intros w e w' E. unfold this in E.
  destruct (_branch_manager w); [discriminate | injection E as <- _; harmless_exn].
Qed.

Lemma set_cluster_id_raises v : raises harmless (set_cluster_id v).
Proof. intros w e w' E. discriminate. Qed.

Lemma get_branch_manager_raises : raises harmless (_get_branch_manager cfg).
Proof.
  intros w e w' E. unfold _get_branch_manager in E.
  destruct (_branch_manager w); [discriminate|].
  match type of E with (if ?b then _ else _) = _ => destruct b end;
    [injection E as <- _; harmless_exn | discriminate].
Qed.

Lemma write_raises d : raises harmless (_write_admin_credentials d).
Proof. intros w e w' E. discriminate. Qed.

Hint Resolve send_raises sleep_raises this_raises set_cluster_id_raises
  get_branch_manager_raises write_raises : raising.

Lemma auth_raises : raises harmless BranchManager_auth.
Proof. unfold BranchManager_auth. raising. Qed.
Hint Resolve auth_raises : raising.

Lemma request_raises c : raises harmless (BranchManager__request remote c).
Proof. unfold BranchManager__request. raising. Qed.
Hint Resolve request_raises : raising.

Lemma get_default_cluster_raises : raises harmless (BranchManager__get_default_cluster remote).
Proof. unfold BranchManager__get_default_cluster. raising. Qed.
Hint Resolve get_default_cluster_raises : raising.

Lemma cluster_raises : raises harmless (BranchManager__cluster remote).
Proof. unfold BranchManager__cluster. raising. Qed.
Hint Resolve cluster_raises : raising.

Lemma list_branches_raises : raises harmless (BranchManager_list_branches remote).
Proof. unfold BranchManager_list_branches. raising. Qed.

Lemma get_branch_raises b : raises harmless (BranchManager_get_branch remote b).
Proof. unfold BranchManager_get_branch. raising. Qed.

Lemma create_admin_raises p c n :
  raises harmless (BranchManager_create_admin_user_for_branch remote p c n).
Proof. unfold BranchManager_create_admin_user_for_branch. raising. Qed.
Hint Resolve list_branches_raises get_branch_raises create_admin_raises : raising.

Lemma resolve_branch_id_raises n : raises harmless (_resolve_branch_id cfg remote n).
Proof. unfold _resolve_branch_id. raising. Qed.

Lemma poll_raises n b d : raises harmless (poll remote n b d).
Proof. induction n as [|n IH]; simpl; raising. Qed.
Hint Resolve resolve_branch_id_raises poll_raises : raising.

(** The timeout message ends in [" seconds."], the two endpoint messages
    in ["incomplete."]. *)
Lemma not_active_harmless b r d : harmless (RuntimeError (not_active_message b r d)).
Proof.
  unfold not_active_message.
  generalize (py_str b) (py_str (JNum (r * d))). intros s1 s2.
  assert ("Branch " ++ s1 ++ " not active after " ++ s2 ++ " seconds."
          = ("Branch " ++ s1 ++ " not active after " ++ s2) ++ " seconds.") as ->.
  { now rewrite <- !PyStrFacts.append_assoc. }
  generalize ("Branch " ++ s1 ++ " not active after " ++ s2). intros pre.
  intros [H | H]; injection H as H; apply (f_equal PyStr.reverse) in H;
    rewrite PyStrFacts.reverse_app in H; revert H;
    generalize (PyStr.reverse pre); intros s H; vm_compute in H; discriminate H.
Qed.

Lemma wait_raises b r d : raises harmless (_wait_for_branch_active remote b r d).
Proof.
  unfold _wait_for_branch_active.
  apply raises_bind; [apply poll_raises|]. intros [|]; [apply raises_ret|].
  apply raises_raise. apply not_active_harmless.
Qed.
Hint Resolve wait_raises : raising.

Lemma not_found_harmless n : harmless (RuntimeError (not_found_message n)).
Proof. unfold not_found_message. intros [H | H]; simpl in H; discriminate H. Qed.

Lemma provision_raises n c : raises harmless (provision cfg remote n c).
Proof.
  unfold provision. apply raises_bind; [apply resolve_branch_id_raises|].
  intros branch_id.
  destruct branch_id; try (apply raises_raise; apply not_found_harmless); raising.
Qed.

Lemma load_file_harmless f e : load_file f = Raise e -> harmless e.
Proof.
  unfold load_file. destruct f as [rows|]; [|discriminate].
  generalize (@nil (cache_key * pydict)).
  induction rows as [|row rows IH]; simpl; intros acc; [discriminate|].
  unfold port_of_cell.
  destruct (truthy (JStr (c_port row))); [destruct (PyStr.to_Z (c_port row))|];
    first [apply IH | intros [= <-]; harmless_exn].
Qed.

Lemma load_raises : raises harmless _load_admin_credentials.
Proof.
  intros w e w' E. unfold _load_admin_credentials in E. injection E as E _.
  eapply load_file_harmless. eassumption.
Qed.
Hint Resolve load_raises : raising.

Lemma store_raises entry : raises harmless (_store_admin_credential entry).
Proof. unfold _store_admin_credential. raising. Qed.

Lemma get_cached_raises n c : raises harmless (_get_cached_admin_credential n c).
Proof. unfold _get_cached_admin_credential. raising. Qed.

Lemma effective_cluster_raises c : raises harmless (effective_cluster remote c).
Proof. unfold effective_cluster. raising. Qed.

End Raising.

#[export] Hint Resolve
  send_raises
  sleep_raises
  this_raises
  set_cluster_id_raises
  get_branch_manager_raises
  write_raises
  auth_raises
  request_raises
  get_default_cluster_raises
  cluster_raises
  list_branches_raises
  get_branch_raises
  create_admin_raises
  resolve_branch_id_raises
  poll_raises
  wait_raises
  provision_raises
  load_raises
  store_raises
  get_cached_raises
  effective_cluster_raises
  py_get_harmless
  py_get_or_harmless
  py_first_harmless
  py_iter_harmless
  scan_branches_harmless
  public_endpoints_harmless : raising.

(** ** What a run of the resolution has done to the store *)

Lemma dict_set_in_values {K V : Type} (eqb : K -> K -> bool) k (v : V) d :
  In v (dict_values (dict_set eqb k v d)).
Proof.
  unfold dict_values. induction d as [|[k' v'] d IH]; simpl; [now left|].
  destruct (eqb k' k); simpl; [now left | now right].
Qed.

Section Inversion.

Variable cfg : Config.
Variable remote : server.

Lemma validate_raise_inv payload w e w' :
  validate cfg payload w = (Raise e, w') ->
  endpoint_error e
  /\ (truthy (get "host" payload) = false \/ truthy (get "port" payload) = false).
Proof.
  unfold validate, endpoint_error.
  destruct (truthy (get "host" payload)); simpl;
    [|intros E; apply raise_inv in E as [[= <-] _]; auto].
  destruct (truthy (get "port" payload)); simpl;
    [|intros E; apply raise_inv in E as [[= <-] _]; auto].
  destruct (_ && _); intros E; apply ret_inv in E as [E _]; discriminate.
Qed.

(** The payload that the slow path assembles. *)
Lemma provision_shape n rc :
  returns (fun payload =>
             exists u pw h pt db,
               payload = [ ("source", JStr "created"); ("branchName", JStr n);
                           ("clusterId", rc); ("username", u); ("password", pw);
                           ("host", h); ("port", pt); ("database", JStr db) ])
    (provision cfg remote n rc).
Proof.
  unfold provision. apply returns_bind. intros branch_id.
  destruct branch_id; try apply returns_raise;
    repeat (apply returns_bind; intros ?); apply returns_ret; eauto 10.
Qed.

Lemma request_ok_trace c w body w' :
  BranchManager__request remote c w = (Ok body, w') ->
  trace w' = (trace w ++ [c])%list /\ remote (trace w) c = Some body.
Proof.
  intros E. unfold BranchManager__request in E.
  apply bind_inv_ok in E as (self & w1 & E1 & E). apply this_same_world in E1. subst.
  apply bind_inv_ok in E as (u & w2 & E2 & E).
  assert (w2 = w) as ->.
  { destruct (truthy_opt (access_token self));
      [now apply ret_inv in E2 | now apply auth_same_world in E2]. }
  unfold send in E. destruct (remote (trace w) c) as [answer|]; [|discriminate].
  injection E as <- <-. auto.
Qed.

Lemma admin_created_later remote' n admin w1 w2 w3 front back :
  trace w2 = (trace w1 ++ front)%list ->
  admin_created remote' n admin w2 w3 ->
  admin_created remote' n admin w1 (add_calls back w3).
Proof.
  intros H1 (before & after & project & cl & Ht & Ha).
  exists (front ++ before)%list, (after ++ back)%list, project, cl. split.
  - cbn [add_calls trace]. rewrite Ht, H1, <- !app_assoc. reflexivity.
  - rewrite app_assoc, <- H1. exact Ha.
Qed.

Lemma create_admin_ok_trace p c n w body w' :
  BranchManager_create_admin_user_for_branch remote p c n w = (Ok body, w') ->
  admin_created remote n body w w'.
Proof.
  intros E. unfold BranchManager_create_admin_user_for_branch in E.
  apply bind_inv_ok in E as (self & w1 & E1 & E). apply this_same_world in E1. subst.
  apply bind_inv_ok in E as (rc & w2 & E2 & E).
  assert (grows is_broker_call w w2) as (l & Hl & _).
  { destruct (truthy c); [apply ret_inv in E2 as [_ ->]; apply chain_refl|].
    eapply cluster_grows; [|eassumption]. exact I. }
  destruct (_ || _); [apply raise_inv in E as [E _]; discriminate|].
  apply request_ok_trace in E as [E Ha].
  exists l, [], (py_str (py_or (of_opt p) (of_opt (project_id self)))), (py_str rc).
  split; [now rewrite E, Hl, <- app_assoc | now rewrite <- Hl].
Qed.

(** A payload comes out of the slow path only after an admin user was
    created for the branch: the request was sent and answered. *)
Lemma provision_ok_admin n rc w payload w' :
  provision cfg remote n rc w = (Ok payload, w') ->
  exists admin, admin_created remote n admin w w'.
Proof.
  intros E. unfold provision in E.
  apply bind_inv_ok in E as (id & wa & Ea & E).
  apply resolve_branch_id_grows in Ea. destruct Ea as (la & Hla & _).
  destruct id; [apply raise_inv in E as [E _]; discriminate | ..].
  all: apply bind_inv_ok in E as (u & wb & Eb & E);
    apply wait_grows in Eb; destruct Eb as (lb & Hlb & _);
    apply bind_inv_ok in E as (info & wc & Ec & E);
    apply get_branch_grows in Ec; destruct Ec as (lc & Hlc & _);
    apply bind_inv_ok in E as (ep & wc' & Ec' & E); apply lift_inv in Ec' as [_ ->];
    apply bind_inv_ok in E as (admin & wd & Ed & E);
    apply create_admin_ok_trace in Ed as (before & after & project & cl & Hld & Ha);
    match type of E with
    | ?m _ = _ =>
        assert (Hrest : respects (grows is_broker_call) m) by frame;
        apply Hrest in E; destruct E as (le & Hle & _)
    end;
    exists admin, (la ++ lb ++ lc ++ before)%list, (after ++ le)%list, project, cl;
    (split; [rewrite Hle, Hld, Hlc, Hlb, Hla, <- !app_assoc; reflexivity|]);
    rewrite !app_assoc, <- Hla, <- Hlb, <- Hlc; exact Ha.
Qed.

(** Either a run leaves the file as it was and raises nothing about
    endpoints, or it went down the slow path, wrote the assembled payload
    to the file and then validated it. *)
Lemma ensure_inv n cluster w r w' :
  _ensure_admin_credential cfg remote n cluster w = (r, w') ->
  (credentials_file w' = credentials_file w /\ forall e, r = Raise e -> harmless e)
  \/ exists w1 rc payload w4 records,
       (exists l, trace w1 = (trace w ++ l)%list)
       /\ provision cfg remote n rc w1 = (Ok payload, w4)
       /\ load_file (credentials_file w4) = Ok records
       /\ w' = with_file
                 (Some (map row_of_record
                          (dict_values (dict_set key_eqb (key_of_entry payload)
                                          (record_of_entry payload) records)))) w4
       /\ validate cfg payload w' = (r, w').
Proof.
  intros E. unfold _ensure_admin_credential in E.
  apply bind_inv in E as [(u & w0 & E0 & E) | (e & E0 & ->)].
  2:{ left. split; [now apply get_branch_manager_same_file in E0|].
      intros e' [= <-]. eapply get_branch_manager_raises. eassumption. }
  pose proof (get_branch_manager_same_file _ _ _ _ E0) as F0.
  pose proof (get_branch_manager_grows cfg (fun _ => True) _ _ _ E0) as (l0 & T0 & _).
  apply bind_inv in E as [(rc & w1 & E1 & E) | (e & E1 & ->)].
  2:{ left. split.
      - apply effective_cluster_same_file in E1. unfold same_file in *. congruence.
      - intros e' [= <-]. eapply effective_cluster_raises. eassumption. }
  pose proof (effective_cluster_same_file _ _ _ _ _ E1) as F1.
  pose proof (effective_cluster_grows remote (fun _ => True) cluster I _ _ _ E1) as (l1 & T1 & _).
  unfold same_file in *.
  destruct (negb (truthy_opt (_project_id cfg))).
  { apply raise_inv in E as [-> ->]. left. split; [congruence|].
    intros e' [= <-]. harmless_exn. }
  apply bind_inv in E as [(cached & w2 & E2 & E) | (e & E2 & ->)].
  2:{ left. pose proof (get_cached_same_world _ _ _ _ _ E2) as ->. split; [congruence|].
      intros e' [= <-]. eapply get_cached_raises. eassumption. }
  pose proof (get_cached_same_world _ _ _ _ _ E2) as ->.
  apply bind_inv in E as [(payload & w3 & E3 & E) | (e & E3 & ->)].
  - destruct (usable cached) eqn:Eu.
    + apply ret_inv in E3 as [[= ->] ->]. left.
      pose proof (validate_same_world _ _ _ _ _ E) as ->. split; [congruence|].
      intros e' ->. apply validate_raise_inv in E as (_ & Hmiss).
      unfold usable in Eu. destruct cached as [c|]; [|discriminate].
      apply andb_true_iff in Eu as [Eu Hp]. apply andb_true_iff in Eu as [_ Hh].
      unfold from_cache, get in Hmiss. simpl in Hmiss. unfold get in Hh, Hp.
      destruct Hmiss; congruence.
    + apply bind_inv_ok in E3 as (payload0 & w4 & E4 & E3).
      apply bind_inv_ok in E3 as (u' & w5 & E5 & E3).
      apply ret_inv in E3 as [[= ->] ->].
      apply store_inv in E5 as [(records & Hl & _ & ->) | (_ & [H | H])]; try discriminate H.
      pose proof (validate_same_world _ _ _ _ _ E) as ->.
      right. exists w1, rc, payload0, w4, records. repeat split; try assumption.
      exists (l0 ++ l1)%list. now rewrite T1, T0, app_assoc.
  - left. destruct (usable cached); [apply ret_inv in E3 as [E3 _]; discriminate|].
    apply bind_inv in E3 as [(payload0 & w4 & E4 & E3) | (e' & E4 & [= <-])].
    + apply provision_same_file in E4. unfold same_file in E4.
      apply bind_inv in E3 as [(u' & w5 & E5 & E3) | (e' & E5 & [= <-])].
      * apply ret_inv in E3 as [E3 _]. discriminate.
      * pose proof (store_raises _ _ _ _ E5) as He.
        apply store_inv in E5 as [(records & _ & H & _) | (-> & _)]; [discriminate|].
        split; [congruence|]. now intros e' [= <-].
    + split; [apply provision_same_file in E4; unfold same_file in E4; congruence|].
      intros e' [= <-]. eapply provision_raises. eassumption.
Qed.

End Inversion.

(** ** Store before validation *)

(** C6, amended.  The file is written only after the request to create
    an admin user of the branch was sent and answered, whether or not
    endpoints were found: a run that raises the incomplete-endpoint error
    has written, before raising, the record of the branch whose host or
    port is missing. *)
Theorem record_written_before_validation (cfg : Config) (remote : server)
    (branch_name : string) (cluster : option string) (w : world)
    (r : outcome pydict) (w' : world) :
  _ensure_admin_credential cfg remote branch_name cluster w = (r, w') ->
  (credentials_file w' <> credentials_file w ->
   exists admin, admin_created remote branch_name admin w w')
  /\ (forall e, r = Raise e -> endpoint_error e ->
      (exists admin, admin_created remote branch_name admin w w')
      /\ exists rows rc u pw h pt db,
           credentials_file w' = Some rows
           /\ In {| c_branchName := branch_name;
                    c_clusterId := csv_cell rc;
                    c_username := csv_cell u;
                    c_password := csv_cell pw;
                    c_host := csv_cell h;
                    c_port := csv_cell pt;
                    c_database := db |} rows
           /\ (truthy h = false \/ truthy pt = false)).
Proof.
  intros E.
  apply ensure_inv in E
    as [(Hsame & Hharmless) | (w1 & rc & payload & w4 & records & (l & Hl) & Hprov & Hload & -> & Hval)].
  - split; [intros H; contradiction|].
    intros e -> He. exfalso. exact (Hharmless e eq_refl He).
  - assert (Hadmin : exists admin,
              admin_created remote branch_name admin w
                (with_file (Some (map row_of_record
                                    (dict_values (dict_set key_eqb (key_of_entry payload)
                                                    (record_of_entry payload) records)))) w4)).
    { destruct (provision_ok_admin cfg remote _ _ _ _ _ Hprov) as (admin & Ha).
      exists admin. pose proof (admin_created_later remote _ _ _ _ _ _ [] Hl Ha) as H.
      destruct H as (before & after & project & cl & Ht & Hans).
      exists before, after, project, cl. split; [|exact Hans].
      cbn [add_calls trace] in Ht. rewrite app_nil_r in Ht. exact Ht. }
    split; [intros _; exact Hadmin|].
    intros e -> He. split; [exact Hadmin|].
    apply validate_raise_inv in Hval as (_ & Hmiss).
    apply provision_shape in Hprov as (u & pw & h & pt & db & ->).
    eexists _, rc, u, pw, h, pt, db. split; [reflexivity|]. split; [|exact Hmiss].
    apply in_map_iff. eexists. split; [|apply dict_set_in_values]. reflexivity.
Qed.

(** The control plane that never publishes endpoints: the error is raised
    and the record without host and port is in the file. *)
Lemma record_written_before_validation_witness :
  exists rows rc u pw h pt db,
    credentials_file
      (snd (_ensure_admin_credential Fixture.env Fixture.no_endpoints "demo-branch" None
              Fixture.fresh)) = Some rows
    /\ In {| c_branchName := "demo-branch";
             c_clusterId := csv_cell rc;
             c_username := csv_cell u;
             c_password := csv_cell pw;
             c_host := csv_cell h;
             c_port := csv_cell pt;
             c_database := db |} rows
    /\ (truthy h = false \/ truthy pt = false).
Proof.
  apply (proj2 (record_written_before_validation Fixture.env Fixture.no_endpoints
                  "demo-branch" None Fixture.fresh _ _ eq_refl)
           (RuntimeError missing_host_message)).
  - reflexivity.
  - left. reflexivity.
Defined.

(** C6 as stated fails: the slow path has failed with the
    incomplete-endpoint error, and the file holds a record of the branch
    with empty host and port. *)
Lemma no_record_without_endpoints_fails :
  let run := _ensure_admin_credential Fixture.env Fixture.no_endpoints "demo-branch" None
               Fixture.fresh in
  credentials_file Fixture.fresh = None
  /\ fst run = Raise (RuntimeError missing_host_message)
  /\ credentials_file (snd run)
     = Some [ {| c_branchName := "demo-branch";
                 c_clusterId := "cluster-1";
                 c_username := "u1";
                 c_password := "p1";
                 c_host := "";
                 c_port := "";
                 c_database := "" |} ].
Proof. repeat split. Qed.

(** ** Invalidation *)

Lemma load_file_writable f records : load_file f = Ok records -> writable records.
Proof.
  unfold load_file. destruct f as [rows|].
  - intros H. eapply CacheFacts.load_writable; [exact H | apply CacheFacts.writable_empty].
  - intros [= <-]. apply CacheFacts.writable_empty.
Qed.

(** Deleting a key leaves a file in which the key is not found. *)
Lemma delete_credential_run name c w records :
  load_file (credentials_file w) = Ok records ->
  exists w',
    _delete_admin_credential (JStr name) (JStr c) w = (Ok tt, w')
    /\ trace w' = trace w
    /\ _branch_manager w' = _branch_manager w
    /\ exists records',
         load_file (credentials_file w') = Ok records'
         /\ dict_get key_eqb (JStr name, JStr c) records' = None.
Proof.
  intros Hl. unfold _delete_admin_credential, bind, _load_admin_credentials.
  rewrite Hl. simpl negb. cbv iota.
  unfold dict_mem. destruct (dict_get key_eqb (JStr name, JStr c) records) as [v|] eqn:Eg.
  - eexists. split; [reflexivity|]. split; [reflexivity|]. split; [reflexivity|].
    pose proof (load_file_writable _ _ Hl) as Hw.
    pose proof (CacheFacts.writable_del name c _ Hw) as Hw'.
    eexists. split.
    + simpl. apply CacheFacts.reload_all. exact Hw'.
    + rewrite CacheFacts.dict_get_map.
      rewrite CacheFacts.dict_get_absent; [reflexivity|].
      destruct Hw as [_ Hn]. now apply CacheFacts.dict_del_keys.
  - eexists. split; [reflexivity|]. split; [reflexivity|]. split; [reflexivity|].
    exists records. split; assumption.
Qed.

Section Stale.

Variable cfg : Config.
Variable remote : server.

(** A lookup reads the file and nothing else. *)
Lemma get_cached_same_file n cl w w' :
  credentials_file w' = credentials_file w ->
  _get_cached_admin_credential n cl w' = (fst (_get_cached_admin_credential n cl w), w').
Proof.
  intros Hf. unfold _get_cached_admin_credential, bind, _load_admin_credentials.
  rewrite Hf. destruct (load_file (credentials_file w)); [|reflexivity].
  now destruct (key_hashable (JStr n, cl)).
Qed.

(** When the lookup misses, a resolution that returns a record has gone
    the slow path: it has created an admin user, and its record says so. *)
Lemma ensure_after_miss n cluster w c p w' :
  ready w c ->
  cluster = None \/ cluster = Some c ->
  _get_cached_admin_credential n (JStr c) w = (Ok None, w) ->
  _ensure_admin_credential cfg remote n cluster w = (Ok p, w') ->
  get "source" p = JStr "created" /\ exists admin, admin_created remote n admin w w'.
Proof.
  intros Hr Hcl Hmiss E. unfold _ensure_admin_credential in E.
  rewrite (run_bind _ _ _ _ _ (ready_get_branch_manager cfg w c Hr)) in E.
  assert (Hc : effective_cluster remote cluster w = (Ok (JStr c), w)).
  { unfold effective_cluster. destruct Hcl as [-> | ->].
    - apply (ready_cluster remote w c Hr).
    - destruct Hr as (self & Hm & Hc & Ht & Ha).
      unfold truthy_opt. cbn [of_opt]. now rewrite Ht. }
  rewrite (run_bind _ _ _ _ _ Hc) in E.
  destruct (negb (truthy_opt (_project_id cfg))); [discriminate|].
  rewrite (run_bind _ _ _ _ _ Hmiss) in E. cbn [usable] in E.
  apply bind_inv_ok in E as (payload & w3 & E1 & E2).
  apply bind_inv_ok in E1 as (payload' & w4 & Ep & E1).
  apply bind_inv_ok in E1 as ([] & w5 & Es & E1).
  apply ret_inv in E1 as [[= ->] ->].
  destruct (provision_shape cfg remote n (JStr c) _ _ _ Ep) as (u & pw & h & pt & db & ->).
  destruct (provision_ok_admin cfg remote n (JStr c) _ _ _ Ep) as (admin & Ha).
  pose proof (validate_same_world cfg _ _ _ _ E2) as ->.
  apply validate_ok in E2 as (_ & _ & _ & ->).
  split.
  - destruct (truthy_opt (DEFAULT_DATABASE cfg) && negb _); reflexivity.
  - exists admin.
    apply store_inv in Es as [(records & _ & _ & ->) | [-> _]]; exact Ha.
Qed.

End Stale.

(** C3, amended.  The invalidation on delete is best effort.  After the
    delete request has succeeded, with a readable credentials file:
    when the details of the branch can still be fetched and carry its
    display name, the entry of that name under the cluster of the manager
    is removed, the next lookup of the key misses, and a later resolution
    of the name that returns a record has created a new admin user (the
    record has the source ["created"]); when the details can not be
    fetched, or carry no display name, the tool returns the answer of the
    delete request all the same, the file is as it was and every lookup
    gives what it gave before the delete: the entry stays. *)
Theorem invalidation_is_best_effort (cfg : Config) (remote : server)
    (branch_id : string) (w0 w : world) (c : string) (deleted : json) (records : cache) :
  _get_branch_manager cfg w0 = (Ok tt, w) ->
  ready w c ->
  remote (trace w) (DELETE_branch c branch_id) = Some deleted ->
  load_file (credentials_file w) = Ok records ->
  let details :=
    remote (trace w ++ [DELETE_branch c branch_id])%list (GET_branch c branch_id) in
  let w2 := add_calls [DELETE_branch c branch_id; GET_branch c branch_id] w in
  (forall info name,
     details = Some info ->
     py_get "displayName" info = Ok (JStr name) ->
     truthy (JStr name) = true ->
     exists w',
       delete_branch cfg remote branch_id w0 = (Ok deleted, w')
       /\ trace w' = trace w2
       /\ _get_cached_admin_credential name (JStr c) w' = (Ok None, w')
       /\ forall cluster p w'',
            cluster = None \/ cluster = Some c ->
            _ensure_admin_credential cfg remote name cluster w' = (Ok p, w'') ->
            get "source" p = JStr "created"
            /\ exists admin, admin_created remote name admin w' w'')
  /\ (details = None
      \/ (exists info,
            details = Some info
            /\ forall d, py_get "displayName" info = Ok d -> truthy d = false) ->
      delete_branch cfg remote branch_id w0 = (Ok deleted, w2)
      /\ credentials_file w2 = credentials_file w
      /\ forall name cl,
           _get_cached_admin_credential name cl w2
           = (fst (_get_cached_admin_credential name cl w), w2)).
Proof.
  intros Hm Hr Hdel Hl details w2.
  assert (Hstart :
            delete_branch cfg remote branch_id w0
            = (let (r, w') :=
                 try_pass
                   (info <- send remote (GET_branch c branch_id) ;;
                    display_name <- lift (py_get "displayName" info) ;;
                    if truthy display_name
                    then cl <- BranchManager__cluster remote ;;
                         _delete_admin_credential display_name cl
                    else ret tt)
                   (add_calls [DELETE_branch c branch_id] w) in
               match r with Ok _ => (Ok deleted, w') | Raise e => (Raise e, w') end)).
  { unfold delete_branch. rewrite (run_bind _ _ _ _ _ Hm).
    unfold bind at 1. rewrite (ready_delete_branch remote w c Hr), send_run.
    simpl py_str. rewrite Hdel.
    unfold bind at 1. unfold try_pass.
    unfold bind at 1.
    rewrite (ready_get_branch remote _ c (ready_add_calls _ _ _ Hr)).
    simpl py_str. unfold bind at 3.
    destruct (send remote (GET_branch c branch_id) (add_calls [DELETE_branch c branch_id] w))
      as [[info|e] w1]; [|reflexivity].
    match goal with |- context [?m w1] => destruct (m w1) as [[[]|e] w'] end; reflexivity. }
  assert (Hsend : send remote (GET_branch c branch_id) (add_calls [DELETE_branch c branch_id] w)
                  = (match details with Some v => Ok v | None => Raise HTTPError end, w2)).
  { rewrite send_run. unfold w2. rewrite add_calls_add. reflexivity. }
  split.
  - intros info name Hget Hname Ht.
    destruct (delete_credential_run name c w2 records Hl)
      as (w' & Hrun & Htrace & Hmgr & records' & Hl' & Hmiss).
    assert (Hlook : _get_cached_admin_credential name (JStr c) w' = (Ok None, w')).
    { now rewrite (get_cached_run name (JStr c) w' records' Hl' eq_refl), Hmiss. }
    assert (Hr' : ready w' c).
    { destruct (ready_add_calls [DELETE_branch c branch_id; GET_branch c branch_id] _ _ Hr)
        as (self & Hs & Hrest).
      exists self. split; [now rewrite Hmgr | exact Hrest]. }
    exists w'. split; [|split; [|split]].
    + rewrite Hstart. unfold try_pass, bind at 1. rewrite Hsend, Hget.
      unfold bind at 1. unfold lift at 1. rewrite Hname, Ht.
      rewrite (run_bind _ _ _ _ _ (ready_cluster remote w2 c (ready_add_calls _ _ _ Hr))).
      rewrite Hrun. reflexivity.
    + exact Htrace.
    + exact Hlook.
    + intros cluster p w'' Hcl E.
      exact (ensure_after_miss cfg remote name cluster w' c p w'' Hr' Hcl Hlook E).
  - intros Hskip. split; [|split].
    + rewrite Hstart. unfold try_pass, bind at 1. rewrite Hsend.
      destruct Hskip as [-> | (info & -> & Hno)]; [reflexivity|].
      unfold bind at 1. unfold lift at 1.
      destruct (py_get "displayName" info) as [d|e]; [|reflexivity].
      now rewrite (Hno d eq_refl).
    + reflexivity.
    + intros name cl. now apply get_cached_same_file.
Qed.

(** A control plane that still names the deleted branch: the entry of
    the file is gone after the delete.  A control plane that does not
    answer for a deleted branch: the entry is still found. *)
Lemma invalidation_is_best_effort_witness :
  (exists w',
     delete_branch Fixture.env Fixture.named_after_delete "b1"
       (with_file (Some [Fixture.demo_row]) Fixture.fresh)
     = (Ok (JObj []), w')
     /\ trace w' = [DELETE_branch "cluster-1" "b1"; GET_branch "cluster-1" "b1"]
     /\ _get_cached_admin_credential "demo-branch" (JStr "cluster-1") w' = (Ok None, w'))
  /\ (let w2 := add_calls [DELETE_branch "cluster-1" "b1"; GET_branch "cluster-1" "b1"]
                  Fixture.cached in
      delete_branch Fixture.env Fixture.gone_after_delete "b1"
        (with_file (Some [Fixture.demo_row]) Fixture.fresh)
      = (Ok (JObj []), w2)
      /\ _get_cached_admin_credential "demo-branch" (JStr "cluster-1") w2
         = (Ok (Some Fixture.demo_record), w2)).
Proof.
  split.
  - destruct (proj1 (invalidation_is_best_effort Fixture.env Fixture.named_after_delete "b1"
                       (with_file (Some [Fixture.demo_row]) Fixture.fresh)
                       Fixture.cached "cluster-1" (JObj [])
                       [((JStr "demo-branch", JStr "cluster-1"), Fixture.demo_record)]
                       eq_refl
                       (ex_intro _ Fixture.manager
                          (conj eq_refl (conj eq_refl (conj eq_refl (or_introl eq_refl)))))
                       eq_refl eq_refl)
                (JObj [("branchId", JStr "b1"); ("displayName", JStr "demo-branch");
                       ("state", JStr "DELETING")])
                "demo-branch" eq_refl eq_refl eq_refl)
      as (w' & H1 & H2 & H3 & _).
    exists w'. repeat split; assumption.
  - destruct (proj2 (invalidation_is_best_effort Fixture.env Fixture.gone_after_delete "b1"
                       (with_file (Some [Fixture.demo_row]) Fixture.fresh)
                       Fixture.cached "cluster-1" (JObj [])
                       [((JStr "demo-branch", JStr "cluster-1"), Fixture.demo_record)]
                       eq_refl
                       (ex_intro _ Fixture.manager
                          (conj eq_refl (conj eq_refl (conj eq_refl (or_introl eq_refl)))))
                       eq_refl eq_refl)
                (or_introl eq_refl))
      as (H1 & _ & H3).
    split; [exact H1|]. exact (H3 "demo-branch" (JStr "cluster-1")).
Defined.

(** C3 as stated fails: the branch is deleted, its details can no longer
    be fetched, and the next resolution returns the cached record of the
    deleted branch. *)
Lemma invalidation_as_stated_fails :
  let deletion := delete_branch Fixture.env Fixture.gone_after_delete "b1" Fixture.cached in
  _get_cached_admin_credential "demo-branch" (JStr "cluster-1") Fixture.cached
  = (Ok (Some Fixture.demo_record), Fixture.cached)
  /\ fst deletion = Ok (JObj [])
  /\ trace (snd deletion) = [DELETE_branch "cluster-1" "b1"; GET_branch "cluster-1" "b1"]
  /\ _get_cached_admin_credential "demo-branch" (JStr "cluster-1") (snd deletion)
     = (Ok (Some Fixture.demo_record), snd deletion)
  /\ fst (_ensure_admin_credential Fixture.env Fixture.gone_after_delete "demo-branch" None
            (snd deletion))
     = Ok (("source", JStr "cache") :: Fixture.demo_record).
Proof. repeat split. Qed.

(** ** The second call *)

Lemma csv_cell_truthy v : truthy v = true -> truthy (JStr (csv_cell v)) = true.
Proof.
  destruct v as [| b | z | s | l | d]; simpl; try discriminate.
  - now destruct b.
  - intros _. pose proof (PyStrFacts.of_Z_not_empty z) as H.
    destruct (PyStr.of_Z z =? "") eqn:E; [apply String.eqb_eq in E; contradiction | reflexivity].
  - trivial.
  - reflexivity.
  - reflexivity.
Qed.

Lemma json_eqb_from_str a y : json_eqb (JStr a) y = true -> y = JStr a.
Proof.
  destruct y; simpl; try discriminate.
  intros H. apply String.eqb_eq in H. now subst.
Qed.

(** A key under which a writable cache finds a record is made of the
    two name cells of that record. *)
Lemma lookup_key n rc (records : cache) stored :
  writable records ->
  dict_get key_eqb (JStr n, rc) records = Some stored ->
  rc = JStr (c_clusterId (row_of_record stored)).
Proof.
  intros [Hd _]. induction Hd as [|[k v] d [Hk _] _ IH]; simpl; [discriminate|].
  destruct (key_eqb k (JStr n, rc)) eqn:E.
  - intros [= <-]. simpl in Hk. subst k. unfold key_eqb, key_of_record in E. simpl in E.
    apply andb_true_iff in E as [_ E]. now apply json_eqb_from_str in E.
  - exact IH.
Qed.

Lemma get_str_get_or k d (x : pydict) s : get k x = JStr s -> get_or k d x = JStr s.
Proof. unfold get, get_or. now destruct (dict_get String.eqb k x). Qed.

Section SecondCall.

Variable cfg : Config.
Variable remote : server.

Lemma cluster_known w self :
  _branch_manager w = Some self -> truthy (cluster_id self) = true ->
  BranchManager__cluster remote w = (Ok (cluster_id self), w).
Proof.
  intros Hs Ht. unfold BranchManager__cluster, bind, this. now rewrite Hs, Ht.
Qed.

(** After [_cluster] returned, the manager holds what it returned. *)
Lemma cluster_post w v w' :
  BranchManager__cluster remote w = (Ok v, w') ->
  exists self, _branch_manager w' = Some self /\ cluster_id self = v.
Proof.
  intros E. unfold BranchManager__cluster in E.
  apply bind_inv_ok in E as (self & w1 & E1 & E).
  unfold this in E1. destruct (_branch_manager w) as [s|] eqn:Em; [|discriminate].
  injection E1 as <- <-.
  destruct (truthy (cluster_id s)).
  - apply ret_inv in E as [[= ->] ->]. eauto.
  - apply bind_inv_ok in E as (v0 & w2 & E2 & E).
    apply get_default_cluster_settled in E2. destruct (E2 _ Em) as (s2 & Hs2 & _).
    apply bind_inv_ok in E as (u & w3 & E3 & E).
    apply ret_inv in E as [[= ->] ->].
    unfold set_cluster_id in E3. injection E3 as _ <-. rewrite Hs2. simpl. eauto.
Qed.

(** Once the resolution resolved a non-empty cluster id, it resolves the
    same one, without a request, in every later world. *)
Lemma effective_cluster_again cluster w0 rc wa w1 :
  effective_cluster remote cluster w0 = (Ok rc, wa) ->
  truthy rc = true ->
  settled wa w1 ->
  (exists self, _branch_manager wa = Some self) ->
  effective_cluster remote cluster w1 = (Ok rc, w1).
Proof.
  unfold effective_cluster. intros E Ht Hs Hm.
  destruct (truthy_opt cluster).
  - now apply ret_inv in E as [[= ->] _].
  - apply cluster_post in E as (self & Hself & Hc).
    destruct (Hs _ Hself) as (self' & Hself' & Hsame).
    rewrite Hc in Hsame. specialize (Hsame Ht). subst self'.
    rewrite <- Hc. apply cluster_known; [assumption | now rewrite Hc].
Qed.

End SecondCall.

(** C2, amended.  When a first call has returned a record (so that the
    record it wrote, if any, has host and port), the cluster id of that
    record being a non-empty string and its port an integer, a second
    call with the same arguments returns from the cache and leaves the
    world as it is: it makes no request, and so creates no second admin
    user. *)
Theorem second_call_hits_cache (cfg : Config) (remote : server)
    (branch_name : string) (cluster : option string)
    (w w1 : world) (p1 : pydict) (c : string) (z : Z) :
  _ensure_admin_credential cfg remote branch_name cluster w = (Ok p1, w1) ->
  get "clusterId" p1 = JStr c ->
  truthy (JStr c) = true ->
  get "port" p1 = JNum z ->
  exists p2,
    _ensure_admin_credential cfg remote branch_name cluster w1 = (Ok p2, w1)
    /\ get "source" p2 = JStr "cache"
    /\ get "port" p2 = JNum z.
Proof.
  intros E Hc Hct Hz.
  pose proof E as E'. unfold _ensure_admin_credential in E'.
  apply bind_inv_ok in E' as ([] & w0 & E0 & E').
  destruct (proj1 (proj2 (get_branch_manager_post _ _ _ _ E0)) eq_refl) as (s0 & Hs0).
  apply bind_inv_ok in E' as (rc & wa & E1 & E').
  destruct (effective_cluster_settled remote cluster _ _ _ E1 _ Hs0) as (sa & Hsa & _).
  destruct (truthy_opt (_project_id cfg)) eqn:Hp;
    [|apply raise_inv in E' as [E' _]; discriminate].
  simpl in E'.
  apply bind_inv_ok in E' as (cached & w2 & E2 & E').
  destruct (get_cached_inv _ _ _ _ _ E2) as (records & Hload & Hhash & Hcached & ->).
  apply bind_inv_ok in E' as (payload & wb & E3 & E').
  apply validate_ok in E' as (Hh & Hport & -> & Hp1).
  assert (Hcid : get "clusterId" payload = JStr c).
  { rewrite Hp1 in Hc.
    destruct (truthy_opt (DEFAULT_DATABASE cfg) && negb (truthy (get "database" payload)));
      [|exact Hc].
    now rewrite get_set_other in Hc by discriminate. }
  assert (Hpz : get "port" payload = JNum z).
  { rewrite Hp1 in Hz.
    destruct (truthy_opt (DEFAULT_DATABASE cfg) && negb (truthy (get "database" payload)));
      [|exact Hz].
    now rewrite get_set_other in Hz by discriminate. }
  assert (Hsource : forall stored : pydict,
             get "port" stored = JNum z ->
             let tagged := ("source", JStr "cache") :: stored in
             let p2 := if truthy_opt (DEFAULT_DATABASE cfg)
                          && negb (truthy (get "database" stored))
                       then dict_set String.eqb "database" (of_opt (DEFAULT_DATABASE cfg)) tagged
                       else tagged in
             get "source" p2 = JStr "cache" /\ get "port" p2 = JNum z).
  { intros stored Hs tagged p2. unfold p2, tagged.
    destruct (truthy_opt (DEFAULT_DATABASE cfg) && negb (truthy (get "database" stored)));
      [rewrite !get_set_other by discriminate|]; split; try reflexivity; exact Hs. }
  destruct (usable cached) eqn:Eu.
  - (* the first call was itself served from the cache *)
    apply ret_inv in E3 as [[= ->] ->].
    unfold usable in Eu. destruct cached as [stored|]; [|discriminate].
    apply andb_true_iff in Eu as [Eu Hsp]. apply andb_true_iff in Eu as [_ Hsh].
    assert (rc = JStr c) as ->.
    { rewrite (lookup_key branch_name rc records stored (load_file_writable _ _ Hload)
                 (eq_sym Hcached)).
      unfold row_of_record. simpl.
      rewrite (get_str_get_or "clusterId" (JStr "") stored c); [reflexivity|].
      exact Hcid. }
    eexists. split; [|apply (Hsource stored); exact Hpz].
    apply ensure_fast_path with (w0 := wa) (c := JStr c); try assumption.
    + now apply get_branch_manager_again with (self := sa).
    + apply (effective_cluster_again remote cluster w0 (JStr c) wa wa E1 Hct);
        [apply chain_refl | eauto].
  - (* the first call provisioned the credential and wrote it *)
    apply bind_inv_ok in E3 as (payload0 & w4 & E4 & E3).
    apply bind_inv_ok in E3 as (u' & w5 & E5 & E3).
    apply ret_inv in E3 as [[= ->] ->].
    pose proof (provision_settled cfg remote _ _ _ _ _ E4) as Hsettled.
    pose proof (provision_same_file cfg remote _ _ _ _ _ E4) as Hsame.
    pose proof (provision_shape cfg remote _ _ _ _ _ E4) as (us & pw & h & pt & db & ->).
    change (get "clusterId" _) with rc in Hcid. subst rc.
    change (get "port" _) with pt in Hpz. subst pt.
    change (get "host" _) with h in Hh.
    apply store_inv in E5 as [(records4 & Hl4 & _ & ->) | (_ & [H | H])]; try discriminate H.
    set (rec := record_of_entry _) in *.
    set (d' := dict_set key_eqb _ rec records4) in *.
    assert (Hw : writable d').
    { apply (CacheFacts.writable_set records4 rec (load_file_writable _ _ Hl4)).
      exists (JNum z). apply CacheFacts.port_of_int. }
    assert (Hreload : load_file (Some (map row_of_record (dict_values d')))
                      = Ok (map (fun kv => (fst kv, reload (snd kv))) d')).
    { apply CacheFacts.reload_all. exact Hw. }
    assert (Hfound : dict_get key_eqb (JStr branch_name, JStr c)
                       (map (fun kv => (fst kv, reload (snd kv))) d')
                     = Some (reload rec)).
    { rewrite CacheFacts.dict_get_map. unfold d'.
      change (key_of_entry _) with (JStr branch_name, JStr c).
      now rewrite CacheFacts.dict_get_set. }
    destruct (Hsettled _ Hsa) as (s4 & Hs4 & _).
    eexists. split; [|apply (Hsource (reload rec))].
    + eapply ensure_fast_path with (c := JStr c).
      * now apply get_branch_manager_again with (self := s4).
      * apply (effective_cluster_again remote cluster w0 (JStr c) wa _ E1 Hct).
        -- intros self Hself. destruct (Hsettled _ Hself) as (s' & Hs' & Hk).
           exists s'. split; [exact Hs' | exact Hk].
        -- eauto.
      * exact Hp.
      * rewrite (get_cached_run branch_name (JStr c)
                   (with_file (Some (map row_of_record (dict_values d'))) w4) _
                   Hreload eq_refl), Hfound.
        reflexivity.
      * change (get "host" (reload rec)) with (JStr (csv_cell h)).
        now apply csv_cell_truthy.
      * unfold reload. change (c_port (row_of_record rec)) with (csv_cell (JNum z)).
        rewrite CacheFacts.port_of_int. exact Hport.
    + unfold reload. change (c_port (row_of_record rec)) with (csv_cell (JNum z)).
      rewrite CacheFacts.port_of_int. reflexivity.
Qed.

(** After the first call of the test scenario, the second is served from
    the cache. *)
Lemma second_call_hits_cache_witness :
  let first := _ensure_admin_credential Fixture.env Fixture.dummy "demo-branch" None
                 Fixture.fresh in
  exists p2,
    _ensure_admin_credential Fixture.env Fixture.dummy "demo-branch" None (snd first)
    = (Ok p2, snd first)
    /\ get "source" p2 = JStr "cache"
    /\ get "port" p2 = JNum 1234.
Proof.
  intros first.
  apply (second_call_hits_cache Fixture.env Fixture.dummy "demo-branch" None Fixture.fresh
           (snd first) (("source", JStr "created") :: Fixture.demo_record) "cluster-1" 1234);
    reflexivity.
Defined.

(** C2 as stated fails: the first call completes its cache write and then
    raises for want of endpoints; the second call finds the record
    unusable and creates a second admin user. *)
Lemma second_call_as_stated_fails :
  let first := _ensure_admin_credential Fixture.env Fixture.no_endpoints "demo-branch" None
                 Fixture.fresh in
  let second := _ensure_admin_credential Fixture.env Fixture.no_endpoints "demo-branch" None
                  (snd first) in
  credentials_file (snd first)
  = Some [ {| c_branchName := "demo-branch"; c_clusterId := "cluster-1";
              c_username := "u1"; c_password := "p1";
              c_host := ""; c_port := ""; c_database := "" |} ]
  /\ filter Fixture.is_admin_call (trace (snd first))
     = [POST_admin_user "proj" "cluster-1" "demo-branch"]
  /\ filter Fixture.is_admin_call (trace (snd second))
     = [POST_admin_user "proj" "cluster-1" "demo-branch";
        POST_admin_user "proj" "cluster-1" "demo-branch"].
Proof. repeat split. Qed.

(** ** The scenarios of the test suite *)

(** [test_waits_for_active_and_uses_endpoints]: the credentials that
    [_ensure_admin_credential("demo-branch")] returns, and the entry that
    [_load_admin_credentials] then finds. *)
Example test_waits_for_active_and_uses_endpoints :
  let run := _ensure_admin_credential Fixture.env Fixture.dummy "demo-branch" None
               Fixture.fresh in
  fst run = Ok (("source", JStr "created") :: Fixture.demo_record)
  /\ fst (_load_admin_credentials (snd run))
     = Ok [((JStr "demo-branch", JStr "cluster-1"), Fixture.demo_record)]
  /\ polls (trace (snd run)) = 3.
Proof. repeat split. Qed.

(** [test_create_branch_waits_for_active]: the created branch is
    returned after two checks of its state. *)
Example test_create_branch_waits_for_active :
  let run := create_branch Fixture.env Fixture.dummy "demo" None Fixture.fresh in
  fst run = Ok (JObj [("branchId", JStr "b1"); ("displayName", JStr "demo")])
  /\ trace (snd run)
     = [POST_branches "cluster-1" [("displayName", JStr "demo")];
        GET_branch "cluster-1" "b1"; Sleep 10; GET_branch "cluster-1" "b1"].
Proof. repeat split. Qed.

(** The default executor classifies a statement as the branch executor
    does. *)
Lemma run_sql_classification (cfg : Config) (remote : server) (sql : string) (w w1 : world) :
  _get_tidb_client cfg remote w = (Ok tt, w1) ->
  trace (snd (run_sql cfg remote sql w))
  = (trace w1 ++ [if is_select sql then DB_query sql else DB_execute sql])%list.
Proof.
  intros Hc. unfold run_sql. rewrite (run_bind _ _ _ _ _ Hc).
  fold (is_select sql). destruct (is_select sql).
  - unfold bind. rewrite driver_run.
    now destruct (remote (trace w1) (DB_query sql)).
  - unfold bind at 1. rewrite driver_run.
    destruct (remote (trace w1) (DB_execute sql)) as [result|]; [|reflexivity].
    unfold bind, lift.
    destruct (py_attr "rowcount" result); [|reflexivity].
    destruct (py_attr "success" result); [|reflexivity].
    now destruct (py_attr "message" result).
Qed.

(** * Further properties of the code *)

(** ** The credential store as a map *)

Lemma key_eqb_from_str a b k : key_eqb (JStr a, JStr b) k = true -> k = (JStr a, JStr b).
Proof.
  destruct k as [x y]. unfold key_eqb. cbn [fst snd]. intros H.
  apply andb_true_iff in H as [H1 H2].
  apply json_eqb_from_str in H1. apply json_eqb_from_str in H2. now subst.
Qed.

Lemma dict_get_set_other a b k' v (d : cache) :
  k' <> (JStr a, JStr b) ->
  dict_get key_eqb k' (dict_set key_eqb (JStr a, JStr b) v d) = dict_get key_eqb k' d.
Proof.
  intros Hk.
  assert (Hf : key_eqb (JStr a, JStr b) k' = false).
  { destruct (key_eqb (JStr a, JStr b) k') eqn:E; [|reflexivity].
    apply key_eqb_from_str in E. congruence. }
  induction d as [|[k0 v0] d IH]; cbn [dict_get dict_set].
  - now rewrite Hf.
  - destruct (key_eqb k0 (JStr a, JStr b)) eqn:E; cbn [dict_get].
    + apply CacheFacts.key_eqb_str in E. subst k0. now rewrite Hf.
    + now rewrite IH.
Qed.

Lemma dict_get_del_other a b k' (d : cache) :
  k' <> (JStr a, JStr b) ->
  dict_get key_eqb k' (dict_del key_eqb (JStr a, JStr b) d) = dict_get key_eqb k' d.
Proof.
  intros Hk.
  assert (Hf : key_eqb (JStr a, JStr b) k' = false).
  { destruct (key_eqb (JStr a, JStr b) k') eqn:E; [|reflexivity].
    apply key_eqb_from_str in E. congruence. }
  induction d as [|[k0 v0] d IH]; cbn [dict_get dict_del]; [reflexivity|].
  destruct (key_eqb k0 (JStr a, JStr b)) eqn:E; cbn [dict_get].
  - apply CacheFacts.key_eqb_str in E. subst k0. now rewrite Hf.
  - now rewrite IH.
Qed.

(** The record of a row is the same after one more trip through the
    file. *)
Lemma reload_record_of_row row port :
  port_of_cell (c_port row) = Ok port ->
  reload (record_of_row row port) = record_of_row row port.
Proof.
  intros Ep. unfold reload. rewrite CacheFacts.port_cell_of_row.
  rewrite (CacheFacts.port_roundtrip _ _ Ep). reflexivity.
Qed.

Lemma load_rows_reloaded rows : forall acc d,
  load_rows rows acc = Ok d ->
  Forall (fun kv => reload (snd kv) = snd kv) acc ->
  Forall (fun kv => reload (snd kv) = snd kv) d.
Proof.
  induction rows as [|row rows IH]; intros acc d H Hacc.
  - simpl in H. now injection H as <-.
  - cbn [load_rows] in H.
    destruct (port_of_cell (c_port row)) as [port|e] eqn:Ep; [|discriminate].
    apply IH in H; [assumption|].
    apply CacheFacts.dict_set_entries; [assumption|].
    now apply reload_record_of_row.
Qed.

Lemma load_file_reloaded f d :
  load_file f = Ok d -> map (fun kv => (fst kv, reload (snd kv))) d = d.
Proof.
  intros H.
  assert (Hall : Forall (fun kv => reload (snd kv) = snd kv) d).
  { destruct f as [rows|]; simpl in H.
    - eapply load_rows_reloaded; [exact H | constructor].
    - injection H as <-. constructor. }
  clear H. induction Hall as [|[k v] d Hv _ IH]; [reflexivity|].
  cbn [map fst snd] in *. now rewrite Hv, IH.
Qed.

(** What the file holds once [cache[key] = record] has been written. *)
Lemma load_after_set (records : cache) f a b v p :
  load_file f = Ok records ->
  key_of_record v = (JStr a, JStr b) ->
  port_of_cell (c_port (row_of_record v)) = Ok p ->
  load_file (Some (map row_of_record (dict_values (dict_set key_eqb (JStr a, JStr b) v records))))
  = Ok (dict_set key_eqb (JStr a, JStr b) (reload v) records).
Proof.
  intros Hl Hk Hp. cbn [load_file].
  pose proof (load_file_writable _ _ Hl) as Hw.
  rewrite CacheFacts.reload_all.
  - f_equal. rewrite <- (load_file_reloaded _ _ Hl) at 2.
    clear. induction records as [|[k0 v0] d IH]; cbn [dict_set map fst snd]; [reflexivity|].
    destruct (key_eqb k0 (JStr a, JStr b)); cbn [map fst snd]; [reflexivity | now rewrite IH].
  - rewrite <- Hk. apply CacheFacts.writable_set; [assumption | eauto].
Qed.

Lemma load_after_del (records : cache) f a b :
  load_file f = Ok records ->
  load_file (Some (map row_of_record (dict_values (dict_del key_eqb (JStr a, JStr b) records))))
  = Ok (dict_del key_eqb (JStr a, JStr b) records).
Proof.
  intros Hl. cbn [load_file].
  pose proof (load_file_writable _ _ Hl) as Hw.
  rewrite CacheFacts.reload_all by now apply CacheFacts.writable_del.
  f_equal. rewrite <- (load_file_reloaded _ _ Hl) at 2.
  clear. induction records as [|[k0 v0] d IH]; cbn [dict_del map fst snd]; [reflexivity|].
  destruct (key_eqb k0 (JStr a, JStr b)); cbn [map fst snd]; [reflexivity | now rewrite IH].
Qed.

(** The record under which an entry with string names is stored. *)
Lemma key_of_stored entry bn c :
  get_or "branchName" (JStr "") entry = JStr bn ->
  get_or "clusterId" (JStr "") entry = JStr c ->
  key_of_entry entry = (JStr bn, JStr c)
  /\ key_of_record (record_of_entry entry) = (JStr bn, JStr c)
  /\ c_port (row_of_record (record_of_entry entry)) = csv_cell (get "port" entry).
Proof.
  intros Hb Hc. unfold key_of_entry, key_of_record, row_of_record, record_of_entry.
  cbn. rewrite Hb, Hc. repeat split.
Qed.

(** X1.  Store, then look up: an entry whose two names are strings and
    whose port survives the file (an integer, [None], or the text of an
    integer) is found again under its key.  What is found is the record
    as the file holds it: the seven fields only (the [source] tag of the
    entry is not kept), the texts as they are written to a cell, the port
    as the integer read back. *)
Theorem store_then_lookup (entry : pydict) (w : world) (records : cache)
    (bn c : string) (port : json) :
  load_file (credentials_file w) = Ok records ->
  get_or "branchName" (JStr "") entry = JStr bn ->
  get_or "clusterId" (JStr "") entry = JStr c ->
  port_of_cell (csv_cell (get "port" entry)) = Ok port ->
  exists w',
    _store_admin_credential entry w = (Ok tt, w')
    /\ trace w' = trace w
    /\ _branch_manager w' = _branch_manager w
    /\ _get_cached_admin_credential bn (JStr c) w'
       = (Ok (Some [ ("branchName", JStr bn);
                     ("clusterId", JStr c);
                     ("username", JStr (csv_cell (get_or "username" (JStr "") entry)));
                     ("password", JStr (csv_cell (get_or "password" (JStr "") entry)));
                     ("host", JStr (csv_cell (get_or "host" (JStr "") entry)));
                     ("port", port);
                     ("database", JStr (csv_cell (get_or "database" (JStr "") entry))) ]),
          w').
Proof.
  intros Hl Hb Hc Hp.
  destruct (key_of_stored entry bn c Hb Hc) as (Hk & Hkr & Hport).
  eexists. split; [|split; [|split]].
  - apply (store_run entry w records Hl). now rewrite Hk.
  - reflexivity.
  - reflexivity.
  - rewrite Hk.
    erewrite get_cached_run;
      [| cbn [credentials_file with_file];
         apply (load_after_set records _ bn c _ port Hl Hkr); now rewrite Hport
       | reflexivity].
    rewrite CacheFacts.dict_get_set. do 3 f_equal.
    unfold reload. rewrite Hport, Hp.
    unfold record_of_row, row_of_record, record_of_entry. cbn. now rewrite Hb, Hc.
Qed.

Lemma store_then_lookup_witness :
  exists w',
    _store_admin_credential
      [("source", JStr "created"); ("branchName", JStr "dev"); ("clusterId", JStr "c9");
       ("username", JStr "u"); ("password", JNull); ("host", JStr "h"); ("port", JStr "4000")]
      Fixture.cached = (Ok tt, w')
    /\ trace w' = trace Fixture.cached
    /\ _branch_manager w' = _branch_manager Fixture.cached
    /\ _get_cached_admin_credential "dev" (JStr "c9") w'
       = (Ok (Some [ ("branchName", JStr "dev"); ("clusterId", JStr "c9");
                     ("username", JStr "u"); ("password", JStr ""); ("host", JStr "h");
                     ("port", JNum 4000); ("database", JStr "") ]), w').
Proof.
  apply (store_then_lookup
           [("source", JStr "created"); ("branchName", JStr "dev"); ("clusterId", JStr "c9");
            ("username", JStr "u"); ("password", JNull); ("host", JStr "h"); ("port", JStr "4000")]
           Fixture.cached
           [((JStr "demo-branch", JStr "cluster-1"), Fixture.demo_record)]
           "dev" "c9" (JNum 4000)); reflexivity.
Defined.

(** X2.  Storing an entry changes the answer for its own key only: the
    lookup of every other key gives after the store what it gave before
    (the record, the miss, or the [TypeError] of an unhashable key). *)
Theorem store_keeps_other_keys (entry : pydict) (w : world) (records : cache)
    (bn c : string) (port : json) (n' : string) (c' : json) :
  load_file (credentials_file w) = Ok records ->
  get_or "branchName" (JStr "") entry = JStr bn ->
  get_or "clusterId" (JStr "") entry = JStr c ->
  port_of_cell (csv_cell (get "port" entry)) = Ok port ->
  (JStr n', c') <> (JStr bn, JStr c) ->
  exists w',
    _store_admin_credential entry w = (Ok tt, w')
    /\ _get_cached_admin_credential n' c' w'
       = (fst (_get_cached_admin_credential n' c' w), w').
Proof.
  intros Hl Hb Hc Hp Hne.
  destruct (key_of_stored entry bn c Hb Hc) as (Hk & Hkr & Hport).
  eexists. split.
  - apply (store_run entry w records Hl). now rewrite Hk.
  - rewrite Hk. unfold _get_cached_admin_credential, bind, _load_admin_credentials.
    cbn [credentials_file with_file].
    rewrite (load_after_set records _ bn c _ port Hl Hkr) by now rewrite Hport.
    rewrite Hl. destruct (key_hashable (JStr n', c')); cbn [negb fst]; [|reflexivity].
    unfold ret. now rewrite dict_get_set_other.
Qed.

Lemma store_keeps_other_keys_witness :
  exists w',
    _store_admin_credential
      [("branchName", JStr "dev"); ("clusterId", JStr "cluster-1"); ("port", JNum 4000)]
      Fixture.cached = (Ok tt, w')
    /\ _get_cached_admin_credential "demo-branch" (JStr "cluster-1") w'
       = (fst (_get_cached_admin_credential "demo-branch" (JStr "cluster-1") Fixture.cached), w').
Proof.
  apply (store_keeps_other_keys
           [("branchName", JStr "dev"); ("clusterId", JStr "cluster-1"); ("port", JNum 4000)]
           Fixture.cached
           [((JStr "demo-branch", JStr "cluster-1"), Fixture.demo_record)]
           "dev" "cluster-1" (JNum 4000)); try reflexivity.
  discriminate.
Defined.

(** ** The credentials file as it is read *)

Lemma load_rows_app l1 : forall l2 acc,
  load_rows (l1 ++ l2) acc
  = match load_rows l1 acc with
    | Ok d => load_rows l2 d
    | Raise e => Raise e
    end.
Proof.
  induction l1 as [|row l1 IH]; intros l2 acc; [reflexivity|].
  cbn [app load_rows]. destruct (port_of_cell (c_port row)); [apply IH | reflexivity].
Qed.

Lemma row_has_key_spec n c row :
  row_has_key n c row = true
  <-> (JStr n, JStr c) = (JStr (c_branchName row), JStr (c_clusterId row)).
Proof.
  unfold row_has_key. rewrite andb_true_iff, !String.eqb_eq. split.
  - intros [-> ->]. reflexivity.
  - intros [= -> ->]. split; reflexivity.
Qed.

Lemma load_rows_last rows :
  Forall readable rows ->
  exists d, load_rows rows [] = Ok d
            /\ forall n c, dict_get key_eqb (JStr n, JStr c) d
                           = option_map record_of (find (row_has_key n c) (rev rows)).
Proof.
  induction rows as [|row rows IH] using rev_ind; intros Hall.
  - exists []. split; reflexivity.
  - apply Forall_app in Hall as [Hrows Hrow]. inversion Hrow as [|? ? [p Hp] _]; subst.
    destruct (IH Hrows) as (d & Hd & Hget).
    exists (dict_set key_eqb (JStr (c_branchName row), JStr (c_clusterId row))
              (record_of_row row p) d).
    split.
    + rewrite load_rows_app, Hd. cbn [load_rows]. now rewrite Hp.
    + intros n c. rewrite rev_app_distr. cbn [rev app find].
      destruct (row_has_key n c row) eqn:E.
      * apply row_has_key_spec in E. rewrite E, CacheFacts.dict_get_set.
        cbn [option_map]. unfold record_of. now rewrite Hp.
      * rewrite dict_get_set_other; [apply Hget|].
        intros H. apply row_has_key_spec in H. congruence.
Qed.

(** X3.  When several rows of the file carry the same two names, the
    lookup of that key answers with the last of them; it misses when no
    row carries them.  (Every port cell is empty or the text of an
    integer.) *)
Theorem last_row_wins (w : world) (rows : list csv_row) (n c : string) :
  credentials_file w = Some rows ->
  Forall readable rows ->
  _get_cached_admin_credential n (JStr c) w
  = (Ok (option_map record_of (find (row_has_key n c) (rev rows))), w).
Proof.
  intros Hf Hall. destruct (load_rows_last rows Hall) as (d & Hd & Hget).
  rewrite (get_cached_run n (JStr c) w d); [now rewrite Hget | now rewrite Hf | reflexivity].
Qed.

Lemma last_row_wins_witness :
  _get_cached_admin_credential "demo-branch" (JStr "cluster-1") Fixture.duplicated
  = (Ok (Some [ ("branchName", JStr "demo-branch"); ("clusterId", JStr "cluster-1");
                ("username", JStr "u3"); ("password", JStr "p3"); ("host", JStr "h3");
                ("port", JNum 4000); ("database", JStr "test") ]),
     Fixture.duplicated).
Proof.
  apply (last_row_wins Fixture.duplicated
           [Fixture.demo_row; Fixture.other_row; Fixture.newer_row]
           "demo-branch" "cluster-1" eq_refl).
  repeat constructor; eexists; vm_compute; reflexivity.
Defined.

Lemma load_rows_unreadable rows row :
  In row rows -> c_port row <> "" -> PyStr.to_Z (c_port row) = None ->
  forall acc, load_rows rows acc = Raise ValueError.
Proof.
  intros Hin Hne Hz.
  assert (Hbad : port_of_cell (c_port row) = Raise ValueError).
  { unfold port_of_cell. cbn [truthy].
    destruct (c_port row =? "") eqn:E; [apply String.eqb_eq in E; contradiction|].
    cbn [negb]. now rewrite Hz. }
  induction rows as [|row0 rows IH]; [contradiction|]. intros acc. cbn [load_rows].
  destruct Hin as [-> | Hin]; [now rewrite Hbad|].
  destruct (port_of_cell (c_port row0)) as [p|e] eqn:E; [now apply IH|].
  unfold port_of_cell in E.
  destruct (truthy (JStr (c_port row0))); [|discriminate].
  destruct (PyStr.to_Z (c_port row0)); [discriminate | now injection E as <-].
Qed.

(** X4.  One row whose port cell is neither empty nor the text of an
    integer makes the whole file unreadable: every lookup, every store and
    every delete raises [ValueError] and leaves the file as it is, and so
    does every credential resolution, before any request. *)
Theorem unreadable_port_fails_every_access (cfg : Config) (remote : server)
    (w : world) (rows : list csv_row) (row : csv_row) :
  credentials_file w = Some rows ->
  In row rows -> c_port row <> "" -> PyStr.to_Z (c_port row) = None ->
  (forall n cl, _get_cached_admin_credential n cl w = (Raise ValueError, w))
  /\ (forall entry, _store_admin_credential entry w = (Raise ValueError, w))
  /\ (forall n cl, _delete_admin_credential n cl w = (Raise ValueError, w))
  /\ (forall c n cluster,
        ready w c -> truthy_opt (_project_id cfg) = true ->
        _ensure_admin_credential cfg remote n cluster w = (Raise ValueError, w)).
Proof.
  intros Hf Hin Hne Hz.
  assert (Hl : _load_admin_credentials w = (Raise ValueError, w)).
  { unfold _load_admin_credentials. rewrite Hf. cbn [load_file].
    now rewrite (load_rows_unreadable rows row Hin Hne Hz). }
  assert (Hc : forall n cl, _get_cached_admin_credential n cl w = (Raise ValueError, w)).
  { intros n cl. unfold _get_cached_admin_credential, bind. now rewrite Hl. }
  split; [exact Hc|]. split; [|split].
  - intros entry. unfold _store_admin_credential, bind. now rewrite Hl.
  - intros n cl. unfold _delete_admin_credential, bind. now rewrite Hl.
  - intros c n cluster Hr Hp. unfold _ensure_admin_credential.
    rewrite (run_bind _ _ _ _ _ (ready_get_branch_manager cfg w c Hr)).
    assert (He : exists rc, effective_cluster remote cluster w = (Ok rc, w)).
    { unfold effective_cluster. destruct (truthy_opt cluster).
      - eexists. reflexivity.
      - eexists. apply (ready_cluster remote w c Hr). }
    destruct He as (rc & He). rewrite (run_bind _ _ _ _ _ He).
    rewrite Hp. cbn [negb]. unfold bind. now rewrite Hc.
Qed.

Lemma unreadable_port_fails_every_access_witness :
  let w := Fixture.damaged in
  (forall n cl, _get_cached_admin_credential n cl w = (Raise ValueError, w))
  /\ (forall entry, _store_admin_credential entry w = (Raise ValueError, w))
  /\ (forall n cl, _delete_admin_credential n cl w = (Raise ValueError, w))
  /\ (forall c n cluster,
        ready w c -> truthy_opt (_project_id Fixture.env) = true ->
        _ensure_admin_credential Fixture.env Fixture.dummy n cluster w = (Raise ValueError, w)).
Proof.
  apply (unreadable_port_fails_every_access Fixture.env Fixture.dummy Fixture.damaged
           [Fixture.demo_row; Fixture.float_port_row] Fixture.float_port_row eq_refl).
  - right. left. reflexivity.
  - discriminate.
  - reflexivity.
Defined.

(** X5.  The store does not check the port it writes: an entry whose port
    is a text that is not an integer is written, and from then on every
    lookup raises [ValueError]. *)
Theorem stored_text_port_breaks_store (entry : pydict) (w : world) (records : cache)
    (bn c s : string) :
  load_file (credentials_file w) = Ok records ->
  get_or "branchName" (JStr "") entry = JStr bn ->
  get_or "clusterId" (JStr "") entry = JStr c ->
  get "port" entry = JStr s -> s <> "" -> PyStr.to_Z s = None ->
  exists w',
    _store_admin_credential entry w = (Ok tt, w')
    /\ forall n cl, _get_cached_admin_credential n cl w' = (Raise ValueError, w').
Proof.
  intros Hl Hb Hc Hp Hne Hz.
  destruct (key_of_stored entry bn c Hb Hc) as (Hk & Hkr & Hport).
  eexists. split.
  - apply (store_run entry w records Hl). now rewrite Hk.
  - intros n cl. unfold _get_cached_admin_credential, bind, _load_admin_credentials.
    cbn [credentials_file with_file load_file].
    rewrite (load_rows_unreadable _ (row_of_record (record_of_entry entry))).
    + reflexivity.
    + apply in_map. apply dict_set_in_values.
    + rewrite Hport, Hp. exact Hne.
    + rewrite Hport, Hp. exact Hz.
Qed.

Lemma stored_text_port_breaks_store_witness :
  exists w',
    _store_admin_credential
      [("branchName", JStr "dev"); ("clusterId", JStr "cluster-1"); ("host", JStr "h");
       ("port", JStr "4000/tcp")] Fixture.cached = (Ok tt, w')
    /\ forall n cl, _get_cached_admin_credential n cl w' = (Raise ValueError, w').
Proof.
  apply (stored_text_port_breaks_store
           [("branchName", JStr "dev"); ("clusterId", JStr "cluster-1"); ("host", JStr "h");
            ("port", JStr "4000/tcp")] Fixture.cached
           [((JStr "demo-branch", JStr "cluster-1"), Fixture.demo_record)]
           "dev" "cluster-1" "4000/tcp"); try reflexivity.
  discriminate.
Defined.

(** X6.  Deleting a key: when the key is absent the file is not written
    (a missing file stays missing); in every case the key is not found
    afterwards, and the lookup of every other key gives what it gave
    before. *)
Theorem delete_removes_one_key (name c : string) (w : world) (records : cache) :
  load_file (credentials_file w) = Ok records ->
  exists w',
    _delete_admin_credential (JStr name) (JStr c) w = (Ok tt, w')
    /\ (dict_get key_eqb (JStr name, JStr c) records = None -> w' = w)
    /\ _get_cached_admin_credential name (JStr c) w' = (Ok None, w')
    /\ forall n' c', (JStr n', c') <> (JStr name, JStr c) ->
         _get_cached_admin_credential n' c' w'
         = (fst (_get_cached_admin_credential n' c' w), w').
Proof.
  intros Hl. unfold _delete_admin_credential, bind, _load_admin_credentials.
  rewrite Hl. cbn [key_hashable fst snd hashable andb negb].
  unfold dict_mem. destruct (dict_get key_eqb (JStr name, JStr c) records) as [v|] eqn:Eg.
  - eexists. split; [reflexivity|]. split; [discriminate|].
    pose proof (load_after_del records _ name c Hl) as Hl'.
    split.
    + rewrite (get_cached_run name (JStr c) (with_file _ w) _ Hl' eq_refl).
      rewrite CacheFacts.dict_get_absent; [reflexivity|].
      destruct (load_file_writable _ _ Hl) as [_ Hn]. now apply CacheFacts.dict_del_keys.
    + intros n' c' Hne. unfold _get_cached_admin_credential, bind, _load_admin_credentials.
      cbn [credentials_file with_file]. rewrite Hl', Hl.
      destruct (key_hashable (JStr n', c')); cbn [negb fst]; [|reflexivity].
      unfold ret. now rewrite dict_get_del_other.
  - exists w. split; [reflexivity|]. split; [reflexivity|]. split.
    + now rewrite (get_cached_run name (JStr c) w records Hl eq_refl), Eg.
    + intros n' c' _. now destruct (_get_cached_admin_credential n' c' w) eqn:E;
        rewrite (get_cached_same_world _ _ _ _ _ E).
Qed.

Lemma delete_removes_one_key_witness :
  exists w',
    _delete_admin_credential (JStr "demo-branch") (JStr "cluster-1") Fixture.cached = (Ok tt, w')
    /\ (dict_get key_eqb (JStr "demo-branch", JStr "cluster-1")
          [((JStr "demo-branch", JStr "cluster-1"), Fixture.demo_record)] = None
        -> w' = Fixture.cached)
    /\ _get_cached_admin_credential "demo-branch" (JStr "cluster-1") w' = (Ok None, w')
    /\ forall n' c', (JStr n', c') <> (JStr "demo-branch", JStr "cluster-1") ->
         _get_cached_admin_credential n' c' w'
         = (fst (_get_cached_admin_credential n' c' Fixture.cached), w').
Proof.
  apply (delete_removes_one_key "demo-branch" "cluster-1" Fixture.cached
           [((JStr "demo-branch", JStr "cluster-1"), Fixture.demo_record)]).
  reflexivity.
Defined.

(** X7.  Writing back what was read changes nothing that is read: the
    cache loaded from the rewritten file is the cache that was loaded,
    records and order. *)
Theorem rewrite_keeps_cache (w : world) (records : cache) :
  _load_admin_credentials w = (Ok records, w) ->
  exists w',
    _write_admin_credentials records w = (Ok tt, w')
    /\ _load_admin_credentials w' = (Ok records, w').
Proof.
  unfold _load_admin_credentials. intros [= Hl].
  eexists. split; [reflexivity|].
  cbn [credentials_file with_file load_file].
  rewrite CacheFacts.reload_all by exact (load_file_writable _ _ Hl).
  now rewrite (load_file_reloaded _ _ Hl).
Qed.

Lemma rewrite_keeps_cache_witness :
  exists w',
    _write_admin_credentials [((JStr "demo-branch", JStr "cluster-1"), Fixture.demo_record)]
      Fixture.cached = (Ok tt, w')
    /\ _load_admin_credentials w'
       = (Ok [((JStr "demo-branch", JStr "cluster-1"), Fixture.demo_record)], w').
Proof.
  apply (rewrite_keeps_cache Fixture.cached
           [((JStr "demo-branch", JStr "cluster-1"), Fixture.demo_record)]).
  reflexivity.
Defined.

(** ** The manager: credentials and cluster *)

Section Manager.

Variable cfg : Config.
Variable remote : server.

Lemma request_can_send w self x :
  _branch_manager w = Some self -> can_send self = true ->
  BranchManager__request remote x w = send remote x w.
Proof.
  intros Hm Hs. unfold BranchManager__request, BranchManager_auth, bind, this. rewrite Hm.
  unfold can_send in Hs.
  destruct (truthy_opt (access_token self)); [reflexivity|].
  cbn [orb] in Hs. apply andb_true_iff in Hs as [Hp Hk].
  rewrite Hm, Hp, Hk. reflexivity.
Qed.

Lemma request_cannot_send w self x :
  _branch_manager w = Some self -> can_send self = false ->
  BranchManager__request remote x w
  = (Raise (RuntimeError
       "Provide TIDBCLOUD_ACCESS_TOKEN or both TIDBCLOUD_PUBLIC_KEY and TIDBCLOUD_PRIVATE_KEY."),
     w).
Proof.
  intros Hm Hs. unfold BranchManager__request, BranchManager_auth, bind, this. rewrite Hm.
  unfold can_send in Hs. apply orb_false_iff in Hs as [Ht Hk]. rewrite Ht, Hm.
  apply andb_false_iff in Hk as [-> | ->]; cbn [negb orb]; [reflexivity|].
  now destruct (truthy_opt (public_key self)).
Qed.

End Manager.

(** X8.  A manager without a cluster id asks for the clusters once: it
    adopts the [clusterId] (else the [id]) of the first cluster listed,
    whatever follows in the list, and, the id being non-empty, answers
    from then on without a request, in every later world that the
    program reaches with this manager. *)
Theorem default_cluster_fetched_once (remote : server) (w : world) (self : BranchManager)
    (body first : pydict) (rest : list json) :
  _branch_manager w = Some self -> can_send self = true ->
  truthy (cluster_id self) = false ->
  remote (trace w) GET_clusters = Some (JObj body) ->
  get "clusters" body = JArr (JObj first :: rest) ->
  let v := py_or (get "clusterId" first) (get "id" first) in
  exists w',
    BranchManager__cluster remote w = (Ok v, w')
    /\ trace w' = (trace w ++ [GET_clusters])%list
    /\ credentials_file w' = credentials_file w
    /\ (truthy v = true ->
        forall w'', settled w' w'' -> BranchManager__cluster remote w'' = (Ok v, w'')).
Proof.
  intros Hm Hs Hc Hr Hl v.
  assert (Hrun : BranchManager__cluster remote w
                 = (Ok v, with_manager
                            (Some {| public_key := public_key self;
                                     private_key := private_key self;
                                     access_token := access_token self;
                                     cluster_id := v;
                                     project_id := project_id self |})
                            (add_calls [GET_clusters] w))).
  { unfold BranchManager__cluster, bind at 1, this. rewrite Hm, Hc.
    unfold BranchManager__get_default_cluster.
    unfold bind at 1. unfold bind at 1.
    rewrite (request_can_send remote w self _ Hm Hs), send_run, Hr.
    unfold bind at 1. unfold lift at 1. cbn [py_get]. rewrite Hl.
    cbn [py_or truthy negb]. unfold bind, lift. cbn [py_first py_get].
    unfold set_cluster_id, ret. unfold v, py_or.
    destruct (truthy (get "clusterId" first));
      cbn [_branch_manager add_calls]; now rewrite Hm. }
  eexists. split; [exact Hrun|]. split; [reflexivity|]. split; [reflexivity|].
  intros Hv w'' Hs''.
  destruct (Hs'' _ eq_refl) as (self'' & Hm'' & Hsame).
  specialize (Hsame Hv). subst self''.
  now rewrite (cluster_known remote w'' _ Hm'' Hv).
Qed.

Lemma default_cluster_fetched_once_witness :
  exists w',
    BranchManager__cluster Fixture.two_clusters Fixture.undiscovered = (Ok (JStr "cluster-1"), w')
    /\ trace w' = [GET_clusters]
    /\ credentials_file w' = None
    /\ (truthy (JStr "cluster-1") = true ->
        forall w'', settled w' w'' ->
          BranchManager__cluster Fixture.two_clusters w'' = (Ok (JStr "cluster-1"), w'')).
Proof.
  apply (default_cluster_fetched_once Fixture.two_clusters Fixture.undiscovered _
           [("clusters", JArr [JObj [("clusterId", JStr "cluster-1")];
                               JObj [("clusterId", JStr "cluster-2")]])]
           [("clusterId", JStr "cluster-1")] [JObj [("clusterId", JStr "cluster-2")]]
           eq_refl); reflexivity.
Defined.

(** X9.  When the manager has no cluster id and the account lists no
    cluster (the field is missing, null or empty), the cluster cannot be
    resolved: [_cluster] and the operations on branches raise the
    [RuntimeError] about clusters right after the request for the
    clusters, and send nothing else. *)
Theorem no_cluster_no_branch_request (cfg : Config) (remote : server) (w : world)
    (self : BranchManager) (body : pydict) :
  _branch_manager w = Some self -> can_send self = true ->
  truthy (cluster_id self) = false ->
  remote (trace w) GET_clusters = Some (JObj body) ->
  truthy (get "clusters" body) = false ->
  let failed : outcome json * world :=
    (Raise (RuntimeError "No clusters found for the current API key."),
     add_calls [GET_clusters] w) in
  BranchManager__cluster remote w = failed
  /\ list_branches cfg remote w = failed
  /\ (forall b, get_branch cfg remote b w = failed)
  /\ (forall b, delete_branch cfg remote b w = failed)
  /\ (forall n p, create_branch cfg remote n p w = failed)
  /\ (forall n p, create_branch_from_display_name cfg remote n p w = failed).
Proof.
  intros Hm Hs Hc Hr Hl failed.
  assert (Hrun : BranchManager__cluster remote w = failed).
  { unfold BranchManager__cluster, bind at 1, this. rewrite Hm, Hc.
    unfold BranchManager__get_default_cluster.
    unfold bind at 1. unfold bind at 1.
    rewrite (request_can_send remote w self _ Hm Hs), send_run, Hr.
    unfold bind at 1. unfold lift at 1. cbn [py_get].
    unfold py_or. rewrite Hl. reflexivity. }
  pose proof (get_branch_manager_again cfg w self Hm) as Hg.
  repeat split.
  - exact Hrun.
  - unfold list_branches. rewrite (run_bind _ _ _ _ _ Hg).
    unfold BranchManager_list_branches. now rewrite (run_bind_raise _ _ _ _ _ Hrun).
  - intros b. unfold get_branch. rewrite (run_bind _ _ _ _ _ Hg).
    unfold BranchManager_get_branch. now rewrite (run_bind_raise _ _ _ _ _ Hrun).
  - intros b. unfold delete_branch. rewrite (run_bind _ _ _ _ _ Hg).
    unfold BranchManager_delete_branch.
    now rewrite (run_bind_raise _ _ _ _ _ (run_bind_raise _ _ _ _ _ Hrun)).
  - intros n p. unfold create_branch. rewrite (run_bind _ _ _ _ _ Hg).
    unfold BranchManager_create_branch.
    now rewrite (run_bind_raise _ _ _ _ _ (run_bind_raise _ _ _ _ _ Hrun)).
  - intros n p. unfold create_branch_from_display_name. rewrite (run_bind _ _ _ _ _ Hg).
    assert (Hres : _resolve_branch_id cfg remote p w = failed).
    { unfold _resolve_branch_id. rewrite (run_bind _ _ _ _ _ Hg).
      unfold BranchManager_list_branches.
      now rewrite (run_bind_raise _ _ _ _ _ (run_bind_raise _ _ _ _ _ Hrun)). }
    now rewrite (run_bind_raise _ _ _ _ _ Hres).
Qed.

Lemma no_cluster_no_branch_request_witness :
  let failed : outcome json * world :=
    (Raise (RuntimeError "No clusters found for the current API key."),
     add_calls [GET_clusters] Fixture.undiscovered) in
  BranchManager__cluster Fixture.no_clusters Fixture.undiscovered = failed
  /\ list_branches Fixture.env Fixture.no_clusters Fixture.undiscovered = failed
  /\ (forall b, get_branch Fixture.env Fixture.no_clusters b Fixture.undiscovered = failed)
  /\ (forall b, delete_branch Fixture.env Fixture.no_clusters b Fixture.undiscovered = failed)
  /\ (forall n p, create_branch Fixture.env Fixture.no_clusters n p Fixture.undiscovered = failed)
  /\ (forall n p, create_branch_from_display_name Fixture.env Fixture.no_clusters n p
                    Fixture.undiscovered = failed).
Proof.
  apply (no_cluster_no_branch_request Fixture.env Fixture.no_clusters Fixture.undiscovered _
           [("clusters", JArr [])] eq_refl); reflexivity.
Defined.

(** X10.  The configuration check and the request check differ on empty
    keys: without a token, two keys that are set but one of them empty
    pass [_get_branch_manager], which builds the manager, and every
    request then raises the [RuntimeError] of [auth] before anything is
    sent; so does the listing of the branches. *)
Theorem empty_keys_pass_configuration (cfg : Config) (remote : server) (w : world)
    (pk sk : string) :
  _branch_manager w = None ->
  _access_token cfg = None ->
  TIDBCLOUD_PUBLIC_KEY cfg = Some pk -> TIDBCLOUD_PRIVATE_KEY cfg = Some sk ->
  pk = "" \/ sk = "" ->
  let refused : exn :=
    RuntimeError
      "Provide TIDBCLOUD_ACCESS_TOKEN or both TIDBCLOUD_PUBLIC_KEY and TIDBCLOUD_PRIVATE_KEY." in
  exists w',
    _get_branch_manager cfg w = (Ok tt, w')
    /\ trace w' = trace w
    /\ (forall c, BranchManager__request remote c w' = (Raise refused, w'))
    /\ list_branches cfg remote w = (Raise refused, w').
Proof.
  intros Hm Ht Hp Hk He refused.
  set (self := {| public_key := Some pk; private_key := Some sk; access_token := None;
                  cluster_id := of_opt (SERVERLESS_CLUSTER_ID cfg);
                  project_id := _project_id cfg |}).
  assert (Hg : _get_branch_manager cfg w = (Ok tt, with_manager (Some self) w)).
  { unfold _get_branch_manager. rewrite Hm, Ht. unfold _public_key, _private_key.
    rewrite Hp, Hk. reflexivity. }
  assert (Hs : can_send self = false).
  { unfold can_send, self, truthy_opt. cbn.
    destruct He as [-> | ->]; cbn; [reflexivity | apply andb_false_r]. }
  assert (Hreq : forall c, BranchManager__request remote c (with_manager (Some self) w)
                           = (Raise refused, with_manager (Some self) w)).
  { intros c. now apply (request_cannot_send remote _ self). }
  exists (with_manager (Some self) w). split; [exact Hg|]. split; [reflexivity|].
  split; [exact Hreq|].
  unfold list_branches. rewrite (run_bind _ _ _ _ _ Hg).
  unfold BranchManager_list_branches, BranchManager__cluster.
  unfold bind at 1. unfold bind at 1. unfold this. cbn [_branch_manager with_manager].
  destruct (truthy (cluster_id self)).
  - unfold ret. unfold bind. now rewrite Hreq.
  - unfold BranchManager__get_default_cluster. unfold bind. now rewrite Hreq.
Qed.

Lemma empty_keys_pass_configuration_witness :
  let refused : exn :=
    RuntimeError
      "Provide TIDBCLOUD_ACCESS_TOKEN or both TIDBCLOUD_PUBLIC_KEY and TIDBCLOUD_PRIVATE_KEY." in
  exists w',
    _get_branch_manager Fixture.env_empty_keys Fixture.fresh = (Ok tt, w')
    /\ trace w' = trace Fixture.fresh
    /\ (forall c, BranchManager__request Fixture.dummy c w' = (Raise refused, w'))
    /\ list_branches Fixture.env_empty_keys Fixture.dummy Fixture.fresh = (Raise refused, w').
Proof.
  apply (empty_keys_pass_configuration Fixture.env_empty_keys Fixture.dummy Fixture.fresh "" "");
    try reflexivity.
  now left.
Defined.

(** ** Branch names, creation and deletion *)

(** X11.  A display name is resolved to the id of the first branch of
    the list that bears it; later branches of the same name are not looked
    at.  When that first branch has no [branchId], the name resolves to
    [None]: the credential resolution reports the branch as not found and
    the creation from a parent name reports the parent as not found,
    right after the list request. *)
Theorem first_match_resolves (cfg : Config) (remote : server) (name : string)
    (w w2 : world) (self : BranchManager) (pre : list json) (br : pydict) (post : list json) :
  _branch_manager w = Some self ->
  BranchManager_list_branches remote w = (Ok (JArr (pre ++ JObj br :: post)), w2) ->
  Forall (fun x => exists n, py_get "displayName" x = Ok n /\ eq_str n name = false) pre ->
  get "displayName" br = JStr name ->
  _resolve_branch_id cfg remote name w = (Ok (get "branchId" br), w2)
  /\ (get "branchId" br = JNull ->
      (forall rc, provision cfg remote name rc w
                  = (Raise (RuntimeError (not_found_message name)), w2))
      /\ (forall n, create_branch_from_display_name cfg remote n name w
                    = (Raise (RuntimeError (parent_not_found_message name)), w2))).
Proof.
  intros Hm Hl Hpre Hbr.
  pose proof (get_branch_manager_again cfg w self Hm) as Hg.
  assert (Hres : _resolve_branch_id cfg remote name w = (Ok (get "branchId" br), w2)).
  { unfold _resolve_branch_id. rewrite (run_bind _ _ _ _ _ Hg), (run_bind _ _ _ _ _ Hl).
    unfold bind, lift. cbn [py_iter].
    now rewrite (scan_branches_first_match name pre br post Hpre Hbr). }
  split; [exact Hres|]. intros Hnone. split.
  - intros rc. unfold provision. rewrite (run_bind _ _ _ _ _ Hres), Hnone. reflexivity.
  - intros n. unfold create_branch_from_display_name.
    rewrite (run_bind _ _ _ _ _ Hg), (run_bind _ _ _ _ _ Hres), Hnone. reflexivity.
Qed.

Lemma first_match_resolves_witness :
  let listed := add_calls [GET_branches "cluster-1"] Fixture.managed in
  _resolve_branch_id Fixture.env Fixture.twins "demo-branch" Fixture.managed = (Ok JNull, listed)
  /\ (JNull = JNull ->
      (forall rc, provision Fixture.env Fixture.twins "demo-branch" rc Fixture.managed
                  = (Raise (RuntimeError (not_found_message "demo-branch")), listed))
      /\ (forall n, create_branch_from_display_name Fixture.env Fixture.twins n "demo-branch"
                      Fixture.managed
                    = (Raise (RuntimeError (parent_not_found_message "demo-branch")), listed))).
Proof.
  apply (first_match_resolves Fixture.env Fixture.twins "demo-branch" Fixture.managed
           (add_calls [GET_branches "cluster-1"] Fixture.managed) Fixture.manager
           [JObj [("displayName", JStr "main"); ("branchId", JStr "b0")]]
           [("displayName", JStr "demo-branch")]
           [JObj [("displayName", JStr "demo-branch"); ("branchId", JStr "b2")]]);
    try reflexivity.
  repeat constructor. exists (JStr "main"). split; reflexivity.
Defined.

Section Polls.

Variable remote : server.
Variables (c : string) (branch_id : json) (delay : Z).

Lemma poll_failed j : forall n w,
  ready w c -> j < n -> (0 < j -> sleep_refusal delay = None) ->
  (forall i, i < j -> observes remote w c (py_str branch_id) delay i = Some false) ->
  remote (trace w ++ waiting c (py_str branch_id) delay j)%list
    (GET_branch c (py_str branch_id)) = None ->
  poll remote n branch_id delay w
  = (Raise HTTPError,
     add_calls (waiting c (py_str branch_id) delay j ++ [GET_branch c (py_str branch_id)]) w).
Proof.
  induction j as [|j IH]; intros n w Hr Hlt Hd Hbefore Hj; (destruct n as [|n]; [lia|]).
  - cbn [waiting] in Hj. rewrite app_nil_r in Hj.
    cbn [poll]. unfold bind at 1. rewrite (ready_get_branch remote w c Hr), send_run, Hj.
    reflexivity.
  - assert (sleep_refusal delay = None) as Hd' by (apply Hd; lia).
    rewrite (poll_step_waiting remote c branch_id delay n w Hr Hd') by (apply Hbefore; lia).
    rewrite (IH n); [now rewrite add_calls_add | now apply ready_add_calls | lia | auto | |].
    + intros i Hi. rewrite observes_shift. apply Hbefore. lia.
    + cbn [add_calls trace]. rewrite <- app_assoc. exact Hj.
Qed.

End Polls.

(** X12.  The wait does not retry a failed request: when a poll that
    follows [j] polls of a branch not yet active fails, the wait raises
    the error of that request at once, after [j] sleeps, however many
    retries are left.  The sleeps need a delay that [time.sleep] accepts:
    when there is one ([0 < j]) the delay is neither negative nor beyond
    what the clock holds. *)
Theorem failed_poll_ends_wait (remote : server) (w : world) (branch_id : json)
    (retries delay_seconds : Z) (c : string) (j : nat) :
  let b := py_str branch_id in
  ready w c -> j < Z.to_nat retries ->
  (0 < j -> sleep_refusal delay_seconds = None) ->
  (forall i, i < j -> observes remote w c b delay_seconds i = Some false) ->
  remote (trace w ++ waiting c b delay_seconds j)%list (GET_branch c b) = None ->
  _wait_for_branch_active remote branch_id retries delay_seconds w
  = (Raise HTTPError, add_calls (waiting c b delay_seconds j ++ [GET_branch c b]) w).
Proof.
  intros b Hr Hlt Hd Hbefore Hj. unfold _wait_for_branch_active.
  now rewrite (run_bind_raise _ _ _ _ _
                 (poll_failed remote c branch_id delay_seconds j _ w Hr Hlt Hd Hbefore Hj)).
Qed.

Lemma failed_poll_ends_wait_witness :
  _wait_for_branch_active Fixture.flaky (JStr "b1") 20 10 Fixture.managed
  = (Raise HTTPError,
     add_calls [GET_branch "cluster-1" "b1"; Sleep 10; GET_branch "cluster-1" "b1"]
       Fixture.managed).
Proof.
  apply (failed_poll_ends_wait Fixture.flaky Fixture.managed (JStr "b1") 20 10 "cluster-1" 1).
  - exists Fixture.manager. repeat split. now left.
  - vm_compute. lia.
  - intros _. reflexivity.
  - intros i Hi. assert (i = 0) as -> by lia. reflexivity.
  - reflexivity.
Defined.

Section Creation.

Variable cfg : Config.
Variable remote : server.

(** What the creating tools do with the answer to the creation. *)
Lemma created_then_wait (created : pydict) w1 :
  let branch_id := py_or (get "branchId" created) (get "id" created) in
  (a <- lift (py_get "branchId" (JObj created)) ;;
   branch_id <- (if truthy a then ret a else lift (py_get "id" (JObj created))) ;;
   (if truthy branch_id then _wait_for_branch_active remote branch_id 20 10 else ret tt) ;;
   ret (JObj created)) w1
  = if truthy branch_id
    then (match fst (_wait_for_branch_active remote branch_id 20 10 w1) with
          | Ok _ => Ok (JObj created)
          | Raise e => Raise e
          end,
          snd (_wait_for_branch_active remote branch_id 20 10 w1))
    else (Ok (JObj created), w1).
Proof.
  intros branch_id. unfold bind at 1. unfold lift at 1. cbn [py_get].
  assert (Hid : (if truthy (get "branchId" created) then ret (get "branchId" created)
                 else lift (py_get "id" (JObj created))) w1 = (Ok branch_id, w1)).
  { unfold branch_id, py_or. now destruct (truthy (get "branchId" created)). }
  rewrite (run_bind _ _ _ _ _ Hid).
  destruct (truthy branch_id); [|reflexivity].
  unfold bind. now destruct (_wait_for_branch_active remote branch_id 20 10 w1) as [[[]|e] w2].
Qed.

Lemma ready_create_branch w c name parent body :
  ready w c ->
  let payload := if truthy parent
                 then [("displayName", JStr name); ("parentId", parent)]
                 else [("displayName", JStr name)] in
  remote (trace w) (POST_branches c payload) = Some body ->
  BranchManager_create_branch remote name parent JNull w
  = (Ok body, add_calls [POST_branches c payload] w).
Proof.
  intros Hr payload Hp. unfold BranchManager_create_branch.
  cbn [truthy]. rewrite (run_bind _ _ _ _ _ (ready_cluster remote w c Hr)).
  rewrite (ready_request remote w c Hr), send_run. cbn [py_str].
  assert ((if truthy parent
           then dict_set String.eqb "parentId" parent [("displayName", JStr name)]
           else [("displayName", JStr name)]) = payload) as ->.
  { unfold payload. now destruct (truthy parent). }
  now rewrite Hp.
Qed.

End Creation.

(** X13.  [create_branch] sends one creation request, whose payload
    carries [parentId] only for a non-empty parent id, and returns the
    answer as it came.  It waits for the branch only when the answer has a
    [branchId] or an [id]; when that wait fails, the tool raises although
    the branch was created. *)
Theorem create_branch_waits_for_an_id (cfg : Config) (remote : server) (w : world)
    (c name : string) (parent : option string) (created : pydict) :
  ready w c ->
  let payload := if truthy_opt parent
                 then [("displayName", JStr name); ("parentId", of_opt parent)]
                 else [("displayName", JStr name)] in
  let w1 := add_calls [POST_branches c payload] w in
  remote (trace w) (POST_branches c payload) = Some (JObj created) ->
  let branch_id := py_or (get "branchId" created) (get "id" created) in
  (truthy branch_id = false ->
     create_branch cfg remote name parent w = (Ok (JObj created), w1))
  /\ (truthy branch_id = true ->
      forall r w2, _wait_for_branch_active remote branch_id 20 10 w1 = (r, w2) ->
        create_branch cfg remote name parent w
        = (match r with Ok _ => Ok (JObj created) | Raise e => Raise e end, w2)).
Proof.
  intros Hr payload w1 Hp branch_id.
  assert (Hrun : create_branch cfg remote name parent w
                 = if truthy branch_id
                   then (match fst (_wait_for_branch_active remote branch_id 20 10 w1) with
                         | Ok _ => Ok (JObj created)
                         | Raise e => Raise e
                         end,
                         snd (_wait_for_branch_active remote branch_id 20 10 w1))
                   else (Ok (JObj created), w1)).
  { unfold create_branch.
    rewrite (run_bind _ _ _ _ _ (ready_get_branch_manager cfg w c Hr)).
    rewrite (run_bind _ _ _ _ _
               (ready_create_branch remote w c name (of_opt parent) _ Hr Hp)).
    apply created_then_wait. }
  split.
  - intros Hid. now rewrite Hrun, Hid.
  - intros Hid r w2 Hw. now rewrite Hrun, Hid, Hw.
Qed.

Lemma create_branch_waits_for_an_id_witness :
  let payload := [("displayName", JStr "demo"); ("parentId", JStr "b0")] in
  let w1 := add_calls [POST_branches "cluster-1" payload] Fixture.managed in
  let created := ("branchId", JStr "b1") :: payload in
  (truthy (JStr "b1") = false ->
     create_branch Fixture.env Fixture.flaky "demo" (Some "b0") Fixture.managed
     = (Ok (JObj created), w1))
  /\ (truthy (JStr "b1") = true ->
      forall r w2, _wait_for_branch_active Fixture.flaky (JStr "b1") 20 10 w1 = (r, w2) ->
        create_branch Fixture.env Fixture.flaky "demo" (Some "b0") Fixture.managed
        = (match r with Ok _ => Ok (JObj created) | Raise e => Raise e end, w2)).
Proof.
  apply (create_branch_waits_for_an_id Fixture.env Fixture.flaky Fixture.managed
           "cluster-1" "demo" (Some "b0")
           [("branchId", JStr "b1"); ("displayName", JStr "demo"); ("parentId", JStr "b0")]).
  - exists Fixture.manager. repeat split. now left.
  - reflexivity.
Defined.

(** X14.  A backup is a branch created without a parent, under the given
    name or, when the name is missing or empty, under ["backup-"] followed
    by the timestamp. *)
Theorem backup_is_a_branch_without_parent (cfg : Config) (remote : server)
    (utcnow : string) (display_name : option string) (w : world) :
  create_branch_backup cfg remote utcnow display_name w
  = create_branch cfg remote
      match display_name with
      | Some s => if s =? "" then "backup-" ++ utcnow else s
      | None => "backup-" ++ utcnow
      end None w.
Proof.
  unfold create_branch_backup, create_branch, BranchManager_create_backup.
  destruct display_name as [s|]; [|reflexivity].
  unfold truthy_opt. cbn [of_opt truthy]. now destruct (s =? "").
Qed.

(** X15.  [create_branch_from_display_name] creates the branch under the
    id that the parent name resolved to: when the name resolves to a
    non-empty id, the one creation request carries it as [parentId], and
    the tool then waits and returns as [create_branch] does. *)
Theorem parent_id_is_resolved (cfg : Config) (remote : server) (w w1 : world)
    (c name parent : string) (pid : json) (created : pydict) :
  ready w c ->
  _resolve_branch_id cfg remote parent w = (Ok pid, w1) ->
  truthy pid = true ->
  let post := POST_branches c [("displayName", JStr name); ("parentId", pid)] in
  let w2 := add_calls [post] w1 in
  remote (trace w1) post = Some (JObj created) ->
  let branch_id := py_or (get "branchId" created) (get "id" created) in
  (truthy branch_id = false ->
     create_branch_from_display_name cfg remote name parent w = (Ok (JObj created), w2))
  /\ (truthy branch_id = true ->
      forall r w3, _wait_for_branch_active remote branch_id 20 10 w2 = (r, w3) ->
        create_branch_from_display_name cfg remote name parent w
        = (match r with Ok _ => Ok (JObj created) | Raise e => Raise e end, w3)).
Proof.
  intros Hr Hres Hpid post w2 Hp branch_id.
  assert (Hr1 : ready w1 c).
  { eapply ready_settled; [exact Hr|]. eapply resolve_branch_id_settled. exact Hres. }
  assert (Hrun : create_branch_from_display_name cfg remote name parent w
                 = if truthy branch_id
                   then (match fst (_wait_for_branch_active remote branch_id 20 10 w2) with
                         | Ok _ => Ok (JObj created)
                         | Raise e => Raise e
                         end,
                         snd (_wait_for_branch_active remote branch_id 20 10 w2))
                   else (Ok (JObj created), w2)).
  { unfold create_branch_from_display_name.
    rewrite (run_bind _ _ _ _ _ (ready_get_branch_manager cfg w c Hr)).
    rewrite (run_bind _ _ _ _ _ Hres), Hpid. cbn [negb].
    pose proof (ready_create_branch remote w1 c name pid (JObj created) Hr1) as Hc.
    cbn zeta in Hc. rewrite Hpid in Hc.
    rewrite (run_bind _ _ _ _ _ (Hc Hp)).
    apply created_then_wait. }
  split.
  - intros Hid. now rewrite Hrun, Hid.
  - intros Hid r w3 Hw. now rewrite Hrun, Hid, Hw.
Qed.

Lemma parent_id_is_resolved_witness :
  let post := POST_branches "cluster-1" [("displayName", JStr "dev"); ("parentId", JStr "b1")] in
  let w2 := add_calls [GET_branches "cluster-1"; post] Fixture.managed in
  let created := [("branchId", JStr "b1"); ("displayName", JStr "dev"); ("parentId", JStr "b1")] in
  (truthy (JStr "b1") = false ->
     create_branch_from_display_name Fixture.env Fixture.dummy "dev" "demo-branch" Fixture.managed
     = (Ok (JObj created), w2))
  /\ (truthy (JStr "b1") = true ->
      forall r w3, _wait_for_branch_active Fixture.dummy (JStr "b1") 20 10 w2 = (r, w3) ->
        create_branch_from_display_name Fixture.env Fixture.dummy "dev" "demo-branch"
          Fixture.managed
        = (match r with Ok _ => Ok (JObj created) | Raise e => Raise e end, w3)).
Proof.
  apply (parent_id_is_resolved Fixture.env Fixture.dummy Fixture.managed
           (add_calls [GET_branches "cluster-1"] Fixture.managed)
           "cluster-1" "dev" "demo-branch" (JStr "b1")
           [("branchId", JStr "b1"); ("displayName", JStr "dev"); ("parentId", JStr "b1")]).
  - exists Fixture.manager. repeat split. now left.
  - reflexivity.
  - reflexivity.
  - reflexivity.
Defined.

Lemma delete_credential_frame n c w r w' :
  _delete_admin_credential n c w = (r, w') ->
  trace w' = trace w /\ _branch_manager w' = _branch_manager w.
Proof.
  unfold _delete_admin_credential, bind, _load_admin_credentials.
  destruct (load_file (credentials_file w)) as [records|e]; [|now intros [= <- <-]].
  destruct (key_hashable (n, c)); cbn [negb]; [|now intros [= <- <-]].
  destruct (dict_mem key_eqb (n, c) records); now intros [= <- <-].
Qed.

(** X16.  [delete_branch]: once the delete request has succeeded the
    tool returns its answer, whatever becomes of the clean-up of the
    credentials (a failed request for the details, a branch without name,
    an unreadable file): the clean-up costs exactly one request for the
    details.  When the delete request fails, the tool raises its error and
    does nothing else; the credentials file is as it was. *)
Theorem delete_survives_cleanup (cfg : Config) (remote : server) (w : world)
    (c branch_id : string) :
  ready w c ->
  (forall deleted, remote (trace w) (DELETE_branch c branch_id) = Some deleted ->
     exists w',
       delete_branch cfg remote branch_id w = (Ok deleted, w')
       /\ trace w' = (trace w ++ [DELETE_branch c branch_id; GET_branch c branch_id])%list
       /\ _branch_manager w' = _branch_manager w)
  /\ (remote (trace w) (DELETE_branch c branch_id) = None ->
      delete_branch cfg remote branch_id w
      = (Raise HTTPError, add_calls [DELETE_branch c branch_id] w)).
Proof.
  intros Hr. split.
  - intros deleted Hdel. unfold delete_branch.
    rewrite (run_bind _ _ _ _ _ (ready_get_branch_manager cfg w c Hr)).
    unfold bind at 1. rewrite (ready_delete_branch remote w c Hr), send_run.
    cbn [py_str]. rewrite Hdel.
    set (w1 := add_calls [DELETE_branch c branch_id] w).
    assert (Hr1 : ready w1 c) by now apply ready_add_calls.
    unfold bind at 1, try_pass. unfold bind at 1.
    rewrite (ready_get_branch remote w1 c Hr1), send_run. cbn [py_str].
    set (w2 := add_calls [GET_branch c branch_id] w1).
    assert (Hr2 : ready w2 c) by now apply ready_add_calls.
    assert (Ht2 : trace w2
                  = (trace w ++ [DELETE_branch c branch_id; GET_branch c branch_id])%list).
    { cbn [w2 w1 trace add_calls]. now rewrite <- app_assoc. }
    assert (Hm2 : _branch_manager w2 = _branch_manager w) by reflexivity.
    destruct (remote (trace w1) (GET_branch c branch_id)) as [info|].
    2:{ exists w2. split; [reflexivity | split; assumption]. }
    unfold bind at 1, lift at 1.
    destruct (py_get "displayName" info) as [display_name|e].
    2:{ exists w2. split; [reflexivity | split; assumption]. }
    destruct (truthy display_name).
    2:{ exists w2. split; [reflexivity | split; assumption]. }
    rewrite (run_bind _ _ _ _ _ (ready_cluster remote w2 c Hr2)).
    destruct (_delete_admin_credential display_name (JStr c) w2) as [r w3] eqn:E.
    apply delete_credential_frame in E as [Ht Hm].
    exists w3. destruct r as [[]|e]; (split; [reflexivity|]); now rewrite Ht, Hm.
  - intros Hdel. unfold delete_branch.
    rewrite (run_bind _ _ _ _ _ (ready_get_branch_manager cfg w c Hr)).
    unfold bind at 1. rewrite (ready_delete_branch remote w c Hr), send_run.
    cbn [py_str]. now rewrite Hdel.
Qed.

Lemma delete_survives_cleanup_witness :
  (forall deleted,
     Fixture.gone_after_delete (trace Fixture.damaged) (DELETE_branch "cluster-1" "b1")
     = Some deleted ->
     exists w',
       delete_branch Fixture.env Fixture.gone_after_delete "b1" Fixture.damaged = (Ok deleted, w')
       /\ trace w' = (trace Fixture.damaged
                        ++ [DELETE_branch "cluster-1" "b1"; GET_branch "cluster-1" "b1"])%list
       /\ _branch_manager w' = _branch_manager Fixture.damaged)
  /\ (Fixture.gone_after_delete (trace Fixture.damaged) (DELETE_branch "cluster-1" "b1") = None ->
      delete_branch Fixture.env Fixture.gone_after_delete "b1" Fixture.damaged
      = (Raise HTTPError, add_calls [DELETE_branch "cluster-1" "b1"] Fixture.damaged)).
Proof.
  apply (delete_survives_cleanup Fixture.env Fixture.gone_after_delete Fixture.damaged
           "cluster-1" "b1").
  exists Fixture.manager. repeat split. now left.
Defined.

(** ** What the tools leave alone *)

Section Untouched.

Variable cfg : Config.
Variable remote : server.

Lemma create_branch_method_same_file n p t :
  respects same_file (BranchManager_create_branch remote n p t).
Proof. unfold BranchManager_create_branch. frame. Qed.

Lemma delete_branch_method_same_file b :
  respects same_file (BranchManager_delete_branch remote b).
Proof. unfold BranchManager_delete_branch. frame. Qed.

Lemma respects_attempt {A : Type} R (m : M A) : respects R m -> respects R (attempt m).
Proof.
  intros Hm w r w' E. unfold attempt in E.
  destruct (m w) as [r0 w0] eqn:E0. injection E as _ <-. exact (Hm _ _ _ E0).
Qed.

Lemma delete_each_same_file items : respects same_file (delete_each cfg remote items).
Proof.
  induction items as [|br items IH]; cbn [delete_each]; [frame|].
  apply respects_bind; [typeclasses eauto | frame | intros a].
  apply respects_bind; [typeclasses eauto | frame | intros branch_id].
  apply respects_bind; [typeclasses eauto | frame | intros n].
  apply respects_bind; [typeclasses eauto | | intros r].
  - apply respects_attempt.
    apply respects_bind; [typeclasses eauto | frame | intros _].
    apply delete_branch_method_same_file.
  - apply respects_bind; [typeclasses eauto | exact IH | intros results]. frame.
Qed.

Lemma build_tidb_client_same_file : respects same_file (_build_tidb_client cfg remote).
Proof. unfold _build_tidb_client, _env. frame. Qed.

Lemma get_tidb_client_same_file : respects same_file (_get_tidb_client cfg remote).
Proof.
  intros w r w' E. unfold _get_tidb_client in E.
  destruct (_tidb_client w); [now injection E as _ <-|].
  destruct (_build_tidb_client cfg remote w) as [[u|e] w1] eqn:E1; injection E as _ <-;
    apply build_tidb_client_same_file in E1; exact E1.
Qed.

End Untouched.

(** X17.  Only the credential resolution and [delete_branch] touch the
    credentials file.  Listing, fetching and creating branches, the
    default executor and the script that deletes every branch leave it as
    it is on every run, whatever the outside answers; the listing and the
    fetching send nothing but requests that read. *)
Theorem lifecycle_tools_leave_the_store (cfg : Config) (remote : server) :
  respects same_file (list_branches cfg remote)
  /\ respects (grows is_read) (list_branches cfg remote)
  /\ (forall b, respects same_file (get_branch cfg remote b))
  /\ (forall b, respects (grows is_read) (get_branch cfg remote b))
  /\ (forall n p, respects same_file (create_branch cfg remote n p))
  /\ (forall n p, respects same_file (create_branch_from_display_name cfg remote n p))
  /\ (forall t n, respects same_file (create_branch_backup cfg remote t n))
  /\ (forall sql, respects same_file (run_sql cfg remote sql))
  /\ respects same_file (delete_all_branches cfg remote).
Proof.
  pose proof (create_branch_method_same_file remote) as Hc.
  pose proof (get_tidb_client_same_file cfg remote) as Ht.
  pose proof (delete_each_same_file cfg remote) as Hd.
  repeat split; intros;
    unfold list_branches, get_branch, create_branch, create_branch_from_display_name,
      create_branch_backup, BranchManager_create_backup, run_sql, delete_all_branches;
    frame.
Qed.

(** ** The script that deletes every branch *)

Section DeleteAll.

Variable cfg : Config.
Variable remote : server.
Variable c : string.

Lemma delete_each_run items : forall w,
  ready w c ->
  Forall (fun x => exists d, x = JObj d) items ->
  exists results,
    delete_each cfg remote items w
    = (Ok results,
       add_calls (map (fun x => DELETE_branch c (py_str (listed_id x))) items) w)
    /\ Forall2 recorded items results.
Proof.
  induction items as [|x items IH]; intros w Hr Hall.
  - exists []. split; [|constructor]. cbn [delete_each map]. unfold ret.
    now rewrite add_calls_nil.
  - inversion Hall as [|? ? [d ->] Hrest]; subst.
    cbn [delete_each]. unfold bind at 1. unfold lift at 1. cbn [py_get].
    assert (Hid : (if truthy (get "branchId" d) then ret (get "branchId" d)
                   else lift (py_get "id" (JObj d))) w = (Ok (listed_id (JObj d)), w)).
    { unfold listed_id, py_or. now destruct (truthy (get "branchId" d)). }
    rewrite (run_bind _ _ _ _ _ Hid).
    unfold bind at 1. unfold lift at 1.
    set (del := DELETE_branch c (py_str (listed_id (JObj d)))).
    assert (Hdel : attempt (_get_branch_manager cfg ;;
                            BranchManager_delete_branch remote (listed_id (JObj d))) w
                   = (Ok match remote (trace w) del with
                         | Some resp => Ok resp
                         | None => Raise HTTPError
                         end, add_calls [del] w)).
    { unfold attempt. rewrite (run_bind _ _ _ _ _ (ready_get_branch_manager cfg w c Hr)).
      rewrite (ready_delete_branch remote w c Hr), send_run. reflexivity. }
    rewrite (run_bind _ _ _ _ _ Hdel).
    destruct (IH (add_calls [del] w) (ready_add_calls _ _ _ Hr) Hrest) as (results & Hrun & Hrec).
    rewrite (run_bind _ _ _ _ _ Hrun). unfold ret. rewrite add_calls_add.
    eexists. split; [reflexivity|].
    constructor; [|exact Hrec].
    destruct (remote (trace w) del); cbn [recorded]; auto.
Qed.

End DeleteAll.

(** X18.  The script that deletes all branches sends one delete request
    for every branch of the list, in the order of the list, whether the
    earlier ones failed or not, and records one result for each.  It
    deletes by [branchId], else by [id]; and it leaves the credentials
    file as it is, the records of the deleted branches included. *)
Theorem delete_all_attempts_every_branch (cfg : Config) (remote : server) (w : world)
    (c : string) (body : pydict) (items : list json) :
  ready w c ->
  remote (trace w) (GET_branches c) = Some (JObj body) ->
  get_or "branches" (JArr []) body = JArr items ->
  items <> [] ->
  Forall (fun x => exists d, x = JObj d) items ->
  exists results w',
    delete_all_branches cfg remote w = (Ok (Some results), w')
    /\ trace w' = (trace w ++ GET_branches c
                     :: map (fun x => DELETE_branch c (py_str (listed_id x))) items)%list
    /\ Forall2 recorded items results
    /\ credentials_file w' = credentials_file w.
Proof.
  intros Hr Hl Hb Hne Hall.
  set (w1 := add_calls [GET_branches c] w).
  destruct (delete_each_run cfg remote c items w1 (ready_add_calls _ _ _ Hr) Hall)
    as (results & Hrun & Hrec).
  exists results. eexists. split; [|split; [|split; [exact Hrec|]]].
  - unfold delete_all_branches.
    rewrite (run_bind _ _ _ _ _ (ready_get_branch_manager cfg w c Hr)).
    assert (Hlist : BranchManager_list_branches remote w = (Ok (JArr items), w1)).
    { rewrite (ready_list_branches remote w c Hr). unfold bind. rewrite send_run, Hl.
      unfold lift. cbn [py_get_or]. now rewrite Hb. }
    rewrite (run_bind _ _ _ _ _ Hlist).
    assert (truthy (JArr items) = true) as -> by now destruct items.
    cbn [negb]. unfold bind at 1. unfold lift at 1. cbn [py_iter].
    rewrite (run_bind _ _ _ _ _ Hrun). reflexivity.
  - cbn [trace add_calls w1]. now rewrite <- app_assoc.
  - reflexivity.
Qed.

Lemma delete_all_attempts_every_branch_witness :
  exists results w',
    delete_all_branches Fixture.env Fixture.stubborn Fixture.cached = (Ok (Some results), w')
    /\ trace w' = [GET_branches "cluster-1"; DELETE_branch "cluster-1" "b1";
                   DELETE_branch "cluster-1" "b2"]
    /\ Forall2 recorded
         [JObj [("branchId", JStr "b1"); ("displayName", JStr "one")]; JObj [("id", JStr "b2")]]
         results
    /\ credentials_file w' = Some [Fixture.demo_row].
Proof.
  apply (delete_all_attempts_every_branch Fixture.env Fixture.stubborn Fixture.cached
           "cluster-1"
           [("branches",
             JArr [JObj [("branchId", JStr "b1"); ("displayName", JStr "one")];
                   JObj [("id", JStr "b2")]])]
           [JObj [("branchId", JStr "b1"); ("displayName", JStr "one")]; JObj [("id", JStr "b2")]]).
  - exists Fixture.manager. repeat split. now left.
  - reflexivity.
  - reflexivity.
  - discriminate.
  - repeat constructor; eexists; reflexivity.
Defined.

(** ** The executors *)

(** X19.  The record that a credential resolution returns is accepted by
    the branch connection: neither of its two checks can fail, the port
    of the record is the port of the connection (the configured default
    port is never used), and one connection is opened, to the host of the
    record. *)
Theorem resolved_credentials_connect (cfg : Config) (remote : server)
    (branch_name : string) (cluster : option string) (w w1 : world) (creds : pydict) :
  _ensure_admin_credential cfg remote branch_name cluster w = (Ok creds, w1) ->
  _connect_branch_client cfg remote creds w1
  = match py_int (get "port" creds) with
    | Ok port =>
        let connect :=
          DB_connect (get "host" creds) port (get "username" creds) (get "password" creds)
            (py_or (get "database" creds) (of_opt (DEFAULT_DATABASE cfg))) in
        (match remote (trace w1) connect with
         | Some _ => Ok tt
         | None => Raise DatabaseError
         end, add_calls [connect] w1)
    | Raise e => (Raise e, w1)
    end.
Proof.
  intros E. destruct (ensure_ends_in_validate cfg remote _ _ _ _ _ E) as (payload & Hv).
  apply validate_ok in Hv as (Hh & Hp & _ & Hc).
  assert (Hhost : truthy (get "host" creds) = true).
  { rewrite Hc. destruct (truthy_opt (DEFAULT_DATABASE cfg) && negb (truthy (get "database" payload)));
      [rewrite get_set_other by discriminate|]; exact Hh. }
  assert (Hport : truthy (get "port" creds) = true).
  { rewrite Hc. destruct (truthy_opt (DEFAULT_DATABASE cfg) && negb (truthy (get "database" payload)));
      [rewrite get_set_other by discriminate|]; exact Hp. }
  unfold _connect_branch_client. rewrite Hhost, Hport. cbn [negb].
  unfold py_or at 1. rewrite Hport.
  unfold bind at 1. unfold lift at 1.
  destruct (py_int (get "port" creds)) as [port|e]; [|reflexivity].
  unfold bind. rewrite driver_run.
  now destruct (remote (trace w1) _).
Qed.

Lemma resolved_credentials_connect_witness :
  _connect_branch_client Fixture.env Fixture.dummy_with_database
    (("source", JStr "cache") :: Fixture.demo_record) Fixture.cached
  = (Ok tt,
     add_calls [DB_connect (JStr "h1") 1234 (JStr "u1") (JStr "p1") JNull] Fixture.cached).
Proof.
  apply (resolved_credentials_connect Fixture.env Fixture.dummy_with_database
           "demo-branch" None Fixture.cached Fixture.cached
           (("source", JStr "cache") :: Fixture.demo_record)).
  reflexivity.
Defined.

(** X20.  The default client is built at the first statement and kept:
    with a client in place [run_sql] sends the statement and nothing else;
    without one it first connects to the configured host and port, and a
    failed connection leaves no client behind, so that the next statement
    connects again.  When a variable of the connection is not set, the
    first missing one is named in the [RuntimeError] and nothing is
    sent. *)
Theorem default_client_is_built_once (cfg : Config) (remote : server) (sql : string)
    (w : world) :
  (_tidb_client w = true ->
   snd (run_sql cfg remote sql w) = add_calls [statement sql] w)
  /\ (_tidb_client w = false ->
      forall h u p d,
        SERVERLESS_CLUSTER_HOST cfg = Some h -> SERVERLESS_CLUSTER_USERNAME cfg = Some u ->
        SERVERLESS_CLUSTER_PASSWORD cfg = Some p ->
        SERVERLESS_CLUSTER_DATABASE_NAME cfg = Some d ->
        let connect :=
          DB_connect (JStr h) (SERVERLESS_CLUSTER_PORT cfg) (JStr u) (JStr p) (JStr d) in
        match remote (trace w) connect with
        | Some _ =>
            snd (run_sql cfg remote sql w)
            = with_client true (add_calls [connect; statement sql] w)
        | None =>
            run_sql cfg remote sql w = (Raise DatabaseError, add_calls [connect] w)
        end)
  /\ (_tidb_client w = false ->
      forall name, first_missing cfg = Some name ->
        run_sql cfg remote sql w
        = (Raise (RuntimeError ("Missing environment variable: " ++ name)), w)).
Proof.
  assert (Hstmt : forall w1,
            snd ((if PyStr.startswith (PyStr.lower (PyStr.strip sql)) "select"
                  then rows <- driver remote (DB_query sql) ;; ret (JObj [("rows", rows)])
                  else
                    result <- driver remote (DB_execute sql) ;;
                    rowcount <- lift (py_attr "rowcount" result) ;;
                    success <- lift (py_attr "success" result) ;;
                    message <- lift (py_attr "message" result) ;;
                    ret (JObj [("rowcount", rowcount); ("success", success);
                               ("message", message)])) w1)
            = add_calls [statement sql] w1).
  { intros w1. unfold statement. fold (is_select sql). destruct (is_select sql).
    - unfold bind. rewrite driver_run. now destruct (remote (trace w1) (DB_query sql)).
    - unfold bind at 1. rewrite driver_run.
      destruct (remote (trace w1) (DB_execute sql)) as [result|]; [|reflexivity].
      unfold bind, lift.
      destruct (py_attr "rowcount" result); [|reflexivity].
      destruct (py_attr "success" result); [|reflexivity].
      now destruct (py_attr "message" result). }
  split; [|split].
  - intros Hc. unfold run_sql.
    assert (Hg : _get_tidb_client cfg remote w = (Ok tt, w)).
    { unfold _get_tidb_client. now rewrite Hc. }
    rewrite (run_bind _ _ _ _ _ Hg). apply Hstmt.
  - intros Hc h u p d Hh Hu Hp Hd connect.
    assert (Hb : _build_tidb_client cfg remote w
                 = (match remote (trace w) connect with
                    | Some _ => Ok tt
                    | None => Raise DatabaseError
                    end, add_calls [connect] w)).
    { unfold _build_tidb_client. rewrite Hh, Hu, Hp, Hd. unfold _env, bind, ret.
      rewrite driver_run. unfold DEFAULT_PORT. fold connect.
      now destruct (remote (trace w) connect). }
    unfold run_sql. destruct (remote (trace w) connect) as [answer|].
    + assert (Hg : _get_tidb_client cfg remote w
                   = (Ok tt, with_client true (add_calls [connect] w))).
      { unfold _get_tidb_client. now rewrite Hc, Hb. }
      rewrite (run_bind _ _ _ _ _ Hg). rewrite Hstmt.
      unfold add_calls, with_client. cbn. now rewrite <- app_assoc.
    + assert (Hg : _get_tidb_client cfg remote w
                   = (Raise DatabaseError, add_calls [connect] w)).
      { unfold _get_tidb_client. now rewrite Hc, Hb. }
      now rewrite (run_bind_raise _ _ _ _ _ Hg).
  - intros Hc name Hmiss.
    assert (Hb : _build_tidb_client cfg remote w
                 = (Raise (RuntimeError ("Missing environment variable: " ++ name)), w)).
    { unfold first_missing in Hmiss. unfold _build_tidb_client, _env.
      destruct (SERVERLESS_CLUSTER_HOST cfg); [|now injection Hmiss as <-].
      destruct (SERVERLESS_CLUSTER_USERNAME cfg); [|now injection Hmiss as <-].
      destruct (SERVERLESS_CLUSTER_PASSWORD cfg); [|now injection Hmiss as <-].
      destruct (SERVERLESS_CLUSTER_DATABASE_NAME cfg); [discriminate | now injection Hmiss as <-]. }
    assert (Hg : _get_tidb_client cfg remote w
                 = (Raise (RuntimeError ("Missing environment variable: " ++ name)), w)).
    { unfold _get_tidb_client. now rewrite Hc, Hb. }
    unfold run_sql. now rewrite (run_bind_raise _ _ _ _ _ Hg).
Qed.

Lemma default_client_is_built_once_witness :
  let connect := DB_connect (JStr "main-host") 4000 (JStr "root") (JStr "") (JStr "test") in
  snd (run_sql Fixture.env_with_cluster Fixture.dummy_with_database "select 1" Fixture.fresh)
  = with_client true (add_calls [connect; DB_query "select 1"] Fixture.fresh)
  /\ snd (run_sql Fixture.env_with_cluster Fixture.dummy_with_database "select 1"
            (with_client true Fixture.fresh))
     = add_calls [DB_query "select 1"] (with_client true Fixture.fresh)
  /\ run_sql Fixture.env Fixture.dummy_with_database "select 1" Fixture.fresh
     = (Raise (RuntimeError "Missing environment variable: SERVERLESS_CLUSTER_HOST"),
        Fixture.fresh).
Proof.
  intros connect. split; [|split].
  - exact (proj1 (proj2 (default_client_is_built_once Fixture.env_with_cluster
                           Fixture.dummy_with_database "select 1" Fixture.fresh))
             eq_refl "main-host" "root" "" "test" eq_refl eq_refl eq_refl eq_refl).
  - exact (proj1 (default_client_is_built_once Fixture.env_with_cluster
                    Fixture.dummy_with_database "select 1" (with_client true Fixture.fresh))
             eq_refl).
  - exact (proj2 (proj2 (default_client_is_built_once Fixture.env
                           Fixture.dummy_with_database "select 1" Fixture.fresh))
             eq_refl "SERVERLESS_CLUSTER_HOST" eq_refl).
Defined.

(** ** The classification of statements *)

Lemma lstrip_eq c1 r1 :
  PyStr.lstrip (String c1 r1)
  = if PyStr.is_space c1 then PyStr.lstrip r1
    else match r1 with
         | EmptyString => String c1 r1
         | String c2 r2 =>
             if PyStr.is_space2 c1 c2 then PyStr.lstrip r2
             else match r2 with
                  | EmptyString => String c1 r1
                  | String c3 r3 =>
                      if PyStr.is_space3 c1 c2 c3 then PyStr.lstrip r3 else String c1 r1
                  end
         end.
Proof. reflexivity. Qed.

Lemma rstrip_eq c r :
  PyStr.rstrip (String c r)
  = match PyStr.lstrip (String c r) with
    | EmptyString => EmptyString
    | _ => String c (PyStr.rstrip r)
    end.
Proof. reflexivity. Qed.

(** Whitespace before a text is stripped with the whitespace the text
    starts with. *)
Lemma lstrip_blank_upto n : forall ws s,
  String.length ws <= n -> blank ws -> PyStr.lstrip (ws ++ s) = PyStr.lstrip s.
Proof.
  unfold blank. induction n as [|n IH]; intros ws s Hn H.
  - destruct ws; [reflexivity | simpl in Hn; lia].
  - destruct ws as [|c1 r1]; [reflexivity|].
    rewrite lstrip_eq in H. cbn [append]. rewrite lstrip_eq.
    cbn [String.length] in Hn.
    destruct (PyStr.is_space c1); [apply IH; [lia | assumption]|].
    destruct r1 as [|c2 r2]; [discriminate|].
    cbn [append]. cbn [String.length] in Hn.
    destruct (PyStr.is_space2 c1 c2); [apply IH; [lia | assumption]|].
    destruct r2 as [|c3 r3]; [discriminate|].
    cbn [append]. cbn [String.length] in Hn.
    destruct (PyStr.is_space3 c1 c2 c3); [apply IH; [lia | assumption] | discriminate].
Qed.

Lemma lstrip_blank ws s : blank ws -> PyStr.lstrip (ws ++ s) = PyStr.lstrip s.
Proof. apply (lstrip_blank_upto (String.length ws)), Nat.le_refl. Qed.

(** Nothing more is stripped from a stripped text. *)
Lemma lstrip_again_upto n : forall s,
  String.length s <= n -> PyStr.lstrip (PyStr.lstrip s) = PyStr.lstrip s.
Proof.
  induction n as [|n IH]; intros s Hn.
  - destruct s; [reflexivity | simpl in Hn; lia].
  - destruct s as [|c1 r1]; [reflexivity|].
    rewrite (lstrip_eq c1 r1). cbn [String.length] in Hn.
    destruct (PyStr.is_space c1) eqn:E1; [apply IH; lia|].
    destruct r1 as [|c2 r2]; [rewrite lstrip_eq, E1; reflexivity|].
    cbn [String.length] in Hn.
    destruct (PyStr.is_space2 c1 c2) eqn:E2; [apply IH; lia|].
    destruct r2 as [|c3 r3]; [rewrite lstrip_eq, E1, E2; reflexivity|].
    cbn [String.length] in Hn.
    destruct (PyStr.is_space3 c1 c2 c3) eqn:E3; [apply IH; lia|].
    rewrite lstrip_eq, E1, E2, E3. reflexivity.
Qed.

Lemma lstrip_again s : PyStr.lstrip (PyStr.lstrip s) = PyStr.lstrip s.
Proof. apply (lstrip_again_upto (String.length s)), Nat.le_refl. Qed.

(** The first byte of a text that is not all whitespace stays. *)
Lemma rstrip_cons c r :
  PyStr.lstrip (String c r) <> "" -> PyStr.rstrip (String c r) = String c (PyStr.rstrip r).
Proof.
  intros H. rewrite rstrip_eq.
  destruct (PyStr.lstrip (String c r)); [contradiction | reflexivity].
Qed.

(** A character of the ASCII range that is not whitespace starts no
    whitespace. *)
Lemma lstrip_head c r :
  nat_of_ascii c < 128 -> PyStr.is_space c = false ->
  PyStr.lstrip (String c r) = String c r.
Proof.
  intros Hc Hs. rewrite lstrip_eq, Hs.
  destruct r as [|c2 r2]; [reflexivity|].
  assert (PyStr.is_space2 c c2 = false) as ->.
  { unfold PyStr.is_space2. cbv zeta.
    destruct (Nat.eqb_spec (nat_of_ascii c) 194); [lia | reflexivity]. }
  destruct r2 as [|c3 r3]; [reflexivity|].
  assert (PyStr.is_space3 c c2 c3 = false) as ->; [|reflexivity].
  unfold PyStr.is_space3. cbv zeta.
  destruct (Nat.eqb_spec (nat_of_ascii c) 225); [lia|].
  destruct (Nat.eqb_spec (nat_of_ascii c) 226); [lia|].
  destruct (Nat.eqb_spec (nat_of_ascii c) 227); [lia | reflexivity].
Qed.

Lemma lower_char_space c : PyStr.is_space (PyStr.lower_char c) = false -> PyStr.is_space c = false.
Proof.
  unfold PyStr.lower_char.
  destruct ((65 <=? nat_of_ascii c)%nat && (nat_of_ascii c <=? 90)%nat) eqn:E; [|trivial].
  intros _. apply andb_true_iff in E as [E1 E2].
  apply Nat.leb_le in E1. apply Nat.leb_le in E2.
  unfold PyStr.is_space. apply orb_false_iff. split; apply andb_false_iff.
  - right. apply Nat.leb_gt. lia.
  - right. apply Nat.leb_gt. lia.
Qed.

Lemma lower_char_ascii c : nat_of_ascii (PyStr.lower_char c) < 128 -> nat_of_ascii c < 128.
Proof.
  unfold PyStr.lower_char.
  destruct ((65 <=? nat_of_ascii c)%nat && (nat_of_ascii c <=? 90)%nat) eqn:E; [|trivial].
  intros _. apply andb_true_iff in E as [_ E2]. apply Nat.leb_le in E2. lia.
Qed.

(** A character whose lower case is a letter of [select] stays where it
    is when the text is stripped. *)
Lemma letter_stays c l r :
  PyStr.lower_char c = l -> nat_of_ascii l < 128 -> PyStr.is_space l = false ->
  PyStr.lstrip (String c r) = String c r.
Proof.
  intros <- Hl Hs. apply lstrip_head; [now apply lower_char_ascii | now apply lower_char_space].
Qed.

Lemma letter_kept c l r :
  PyStr.lower_char c = l -> nat_of_ascii l < 128 -> PyStr.is_space l = false ->
  PyStr.rstrip (String c r) = String c (PyStr.rstrip r).
Proof.
  intros H Hl Hs. apply rstrip_cons. now rewrite (letter_stays c l r H Hl Hs).
Qed.

Lemma keyword_then_rest kw rest :
  PyStr.lower kw = "select" ->
  PyStr.strip (kw ++ rest) = kw ++ PyStr.rstrip rest.
Proof.
  intros H.
  destruct kw as [|c1 [|c2 [|c3 [|c4 [|c5 [|c6 [|c7 kw]]]]]]]; try discriminate.
  cbn [PyStr.lower] in H.
  injection H as H1 H2 H3 H4 H5 H6.
  unfold PyStr.strip. cbn [append].
  rewrite (letter_stays c1 _ _ H1) by (cbn; first [lia | reflexivity]).
  rewrite (letter_kept c1 _ _ H1) by (cbn; first [lia | reflexivity]).
  rewrite (letter_kept c2 _ _ H2) by (cbn; first [lia | reflexivity]).
  rewrite (letter_kept c3 _ _ H3) by (cbn; first [lia | reflexivity]).
  rewrite (letter_kept c4 _ _ H4) by (cbn; first [lia | reflexivity]).
  rewrite (letter_kept c5 _ _ H5) by (cbn; first [lia | reflexivity]).
  rewrite (letter_kept c6 _ _ H6) by (cbn; first [lia | reflexivity]).
  reflexivity.
Qed.

Lemma lower_app a b : PyStr.lower (a ++ b) = PyStr.lower a ++ PyStr.lower b.
Proof. induction a as [|c a IH]; cbn [append PyStr.lower]; [reflexivity | now rewrite IH]. Qed.

(** X21.  What decides between the read path and the write path is the
    first word: a statement that starts, after any whitespace (that of
    [str.strip]: the ASCII whitespace and the other whitespace of Unicode,
    such as the no-break space), with the letters of [select] in any case
    is sent as a query, whatever follows; a statement whose first
    non-blank character is not an [s] (a comment, a parenthesis, [WITH],
    [EXPLAIN]), and an empty or blank statement, are sent to [execute]. *)
Theorem first_word_decides (sql : string) :
  (forall ws kw rest,
     blank ws -> PyStr.lower kw = "select" -> sql = ws ++ kw ++ rest ->
     is_select sql = true)
  /\ (forall c r,
        PyStr.lstrip sql = String c r -> PyStr.lower_char c <> "s"%char ->
        is_select sql = false)
  /\ (PyStr.lstrip sql = "" -> is_select sql = false).
Proof.
  split; [|split].
  - intros ws kw rest Hws Hkw ->. unfold is_select, PyStr.strip.
    rewrite (lstrip_blank ws _ Hws).
    fold (PyStr.strip (kw ++ rest)). rewrite (keyword_then_rest kw rest Hkw).
    rewrite lower_app, Hkw. unfold PyStr.startswith. cbn.
    now destruct (PyStr.lower (PyStr.rstrip rest)).
  - intros c r Hl Hc. unfold is_select, PyStr.strip. rewrite Hl.
    rewrite (rstrip_cons c r) by (rewrite <- Hl, lstrip_again, Hl; discriminate).
    cbn [PyStr.lower PyStr.startswith String.prefix].
    destruct (ascii_dec "s" (PyStr.lower_char c)) as [E|E]; [now symmetry in E | reflexivity].
  - intros Hl. unfold is_select, PyStr.strip. now rewrite Hl.
Qed.

Lemma first_word_decides_witness :
  is_select (String "194" (String "160" "  SeLeCt*from t")) = true
  /\ is_select "-- select 1" = false
  /\ is_select "   " = false.
Proof.
  split; [|split].
  - apply (proj1 (first_word_decides (String "194" (String "160" "  SeLeCt*from t")))
             (String "194" (String "160" "  ")) "SeLeCt" "*from t").
    + reflexivity.
    + reflexivity.
    + reflexivity.
  - apply (proj1 (proj2 (first_word_decides "-- select 1")) "-"%char "- select 1").
    + reflexivity.
    + discriminate.
  - apply (proj2 (proj2 (first_word_decides "   "))). reflexivity.
Defined.

(** ** Counting the requests of a resolution *)

#[export] Hint Resolve cluster_grows get_default_cluster_grows effective_cluster_grows : frames.
#[export] Hint Extern 1 (quiet _ _) => reflexivity : frames.

Section Counting.

Variable f : call -> bool.

Lemma counted_refl w : counted f 0 w w.
Proof. exists []. split; [now rewrite app_nil_r | apply Nat.le_refl]. Qed.

Lemma counted_chain k1 k2 w1 w2 w3 :
  counted f k1 w1 w2 -> counted f k2 w2 w3 -> counted f (k1 + k2) w1 w3.
Proof.
  intros (l1 & E1 & H1) (l2 & E2 & H2). exists (l1 ++ l2)%list. split.
  - now rewrite E2, E1, app_assoc.
  - rewrite filter_app, length_app. lia.
Qed.

Lemma counted_weaken k k' w w' : counted f k w w' -> k <= k' -> counted f k' w w'.
Proof. intros (l & E & H) Hk. exists l. split; [assumption | lia]. Qed.

Lemma counted_bind {A B : Type} k1 k2 (m : M A) (g : A -> M B) :
  respects (counted f k1) m -> (forall a, respects (counted f k2) (g a)) ->
  respects (counted f (k1 + k2)) (bind m g).
Proof.
  intros Hm Hg w r w' E.
  apply bind_inv in E as [(a & w1 & E1 & E2) | (e & E1 & _)].
  - eapply counted_chain; [eapply Hm | eapply Hg]; eassumption.
  - eapply counted_weaken; [eapply Hm; eassumption | lia].
Qed.

Lemma quiet_counted {A : Type} k (m : M A) :
  respects (grows (quiet f)) m -> respects (counted f k) m.
Proof.
  intros Hm w r w' E. destruct (Hm _ _ _ E) as (l & El & Hl).
  exists l. split; [assumption|]. clear El.
  induction Hl as [|c l Hc _ IH]; cbn [filter List.length]; [lia|].
  unfold quiet in Hc. now rewrite Hc.
Qed.

Lemma request_counted remote c : respects (counted f 1) (BranchManager__request remote c).
Proof.
  intros w r w' E. apply request_trace in E as [E | E].
  - exists []. split; [now rewrite app_nil_r | cbn; lia].
  - exists [c]. split; [assumption | cbn; destruct (f c); cbn; lia].
Qed.

Lemma quiet_then {A B : Type} k (m : M A) (g : A -> M B) :
  respects (grows (quiet f)) m -> (forall a, respects (counted f k) (g a)) ->
  respects (counted f k) (bind m g).
Proof. intros Hm Hg. apply (counted_bind 0 k); [now apply quiet_counted | exact Hg]. Qed.

Lemma then_quiet {A B : Type} k (m : M A) (g : A -> M B) :
  respects (counted f k) m -> (forall a, respects (grows (quiet f)) (g a)) ->
  respects (counted f k) (bind m g).
Proof.
  intros Hm Hg w r w' E.
  apply (counted_weaken (k + 0)); [|lia].
  refine (counted_bind k 0 m g Hm _ w r w' E).
  intros a. apply quiet_counted, Hg.
Qed.

Variable cfg : Config.
Variable remote : server.
Hypothesis quiet_clusters : quiet f GET_clusters.

Lemma get_branch_quiet b :
  (forall c x, quiet f (GET_branch c x)) ->
  respects (grows (quiet f)) (BranchManager_get_branch remote b).
Proof. intros H. unfold BranchManager_get_branch. frame. Qed.

Lemma resolve_branch_id_quiet n :
  (forall c, quiet f (GET_branches c)) ->
  respects (grows (quiet f)) (_resolve_branch_id cfg remote n).
Proof. intros H. unfold _resolve_branch_id, BranchManager_list_branches. frame. Qed.

Lemma wait_quiet b r d :
  (forall c x, quiet f (GET_branch c x)) -> (forall s, quiet f (Sleep s)) ->
  respects (grows (quiet f)) (_wait_for_branch_active remote b r d).
Proof.
  intros Hb Hs. unfold _wait_for_branch_active.
  apply respects_bind; [typeclasses eauto | | intros ?; frame].
  induction (Z.to_nat r) as [|n IH]; cbn [poll]; [frame|].
  pose proof (get_branch_quiet b Hb). frame.
Qed.

Lemma create_admin_quiet p c n :
  (forall x y z, quiet f (POST_admin_user x y z)) ->
  respects (grows (quiet f)) (BranchManager_create_admin_user_for_branch remote p c n).
Proof. intros H. unfold BranchManager_create_admin_user_for_branch. frame. Qed.

Lemma effective_cluster_quiet c : respects (grows (quiet f)) (effective_cluster remote c).
Proof. unfold effective_cluster. frame. Qed.

(** The steps of [_ensure_admin_credential] around [provision]. *)
Lemma ensure_counted k n cluster :
  (forall rc, respects (counted f k) (provision cfg remote n rc)) ->
  respects (counted f k) (_ensure_admin_credential cfg remote n cluster).
Proof.
  intros Hp. unfold _ensure_admin_credential.
  apply quiet_then; [frame | intros _].
  apply quiet_then; [apply effective_cluster_quiet | intros rc].
  destruct (negb (truthy_opt (_project_id cfg))); [apply quiet_counted; frame|].
  apply quiet_then; [frame | intros cached].
  apply then_quiet; [| intros payload; frame].
  destruct (usable cached); [apply quiet_counted; frame|].
  apply then_quiet; [apply Hp | intros payload; frame].
Qed.

End Counting.

Section Frugal.

Variable cfg : Config.
Variable remote : server.

Lemma create_admin_one_admin p c n :
  respects (counted is_admin_request 1)
    (BranchManager_create_admin_user_for_branch remote p c n).
Proof.
  unfold BranchManager_create_admin_user_for_branch.
  apply quiet_then; [frame | intros self].
  apply quiet_then; [destruct (truthy c); frame | intros resolved].
  match goal with |- respects _ (if ?b then _ else _) => destruct b end;
    [apply quiet_counted; frame | apply request_counted].
Qed.

Lemma provision_one_admin n rc :
  respects (counted is_admin_request 1) (provision cfg remote n rc).
Proof.
  pose proof (fun b => get_branch_quiet is_admin_request remote eq_refl b
                         (fun _ _ => eq_refl)) as Hget.
  pose proof (fun b r d => wait_quiet is_admin_request remote eq_refl b r d
                             (fun _ _ => eq_refl) (fun _ => eq_refl)) as Hwait.
  unfold provision.
  apply quiet_then; [apply resolve_branch_id_quiet; [reflexivity | intros; reflexivity]
                    | intros branch_id].
  assert (Hraise : forall e, respects (counted is_admin_request 1) (@raise pydict e))
    by (intros e; apply quiet_counted; frame).
  destruct branch_id; try apply Hraise.
  all: apply quiet_then; [apply Hwait | intros _].
  all: apply quiet_then; [apply Hget | intros info].
  all: apply quiet_then; [frame | intros endpoints].
  all: apply then_quiet; [apply create_admin_one_admin | intros admin; frame].
Qed.

Lemma list_branches_one_list :
  respects (counted is_list_request 1) (BranchManager_list_branches remote).
Proof.
  unfold BranchManager_list_branches.
  apply quiet_then; [frame | intros c].
  apply then_quiet; [apply request_counted | intros data; frame].
Qed.

Lemma provision_one_list n rc :
  respects (counted is_list_request 1) (provision cfg remote n rc).
Proof.
  pose proof (fun b => get_branch_quiet is_list_request remote eq_refl b
                         (fun _ _ => eq_refl)) as Hget.
  pose proof (fun b r d => wait_quiet is_list_request remote eq_refl b r d
                             (fun _ _ => eq_refl) (fun _ => eq_refl)) as Hwait.
  pose proof (fun p c x => create_admin_quiet is_list_request remote eq_refl p c x
                             (fun _ _ _ => eq_refl)) as Hadmin.
  unfold provision. apply then_quiet.
  - unfold _resolve_branch_id.
    apply quiet_then; [frame | intros _].
    apply then_quiet; [apply list_branches_one_list | intros; frame].
  - intros branch_id. destruct branch_id; frame.
Qed.

Lemma provision_polled n rc : respects (polled 22) (provision cfg remote n rc).
Proof.
  pose proof (fun p c x => create_admin_quiet is_poll remote eq_refl p c x
                             (fun _ _ _ => eq_refl)) as Hadmin.
  change (polled 22) with (counted is_poll 22).
  unfold provision.
  apply quiet_then; [apply resolve_branch_id_quiet; [reflexivity | intros; reflexivity]
                    | intros branch_id].
  assert (Hraise : forall e, respects (counted is_poll 22) (@raise pydict e))
    by (intros e; apply quiet_counted; frame).
  destruct branch_id; try apply Hraise.
  all: apply (counted_bind is_poll 20 2);
    [unfold _wait_for_branch_active;
     apply then_quiet; [apply poll_polled | intros; frame]
    | intros _].
  all: apply (counted_bind is_poll 1 1); [apply get_branch_polled | intros info].
  all: apply quiet_then; [frame | intros endpoints].
  all: apply quiet_then; [apply Hadmin | intros admin].
  all: apply quiet_then; [frame | intros host0].
  all: apply quiet_then; [frame | intros port0].
  all: apply then_quiet; [| intros; frame].
  all: destruct (negb (truthy host0) || negb (truthy port0));
    [apply then_quiet; [apply get_branch_polled | intros; frame]
    | apply quiet_counted; frame].
Qed.

End Frugal.

(** X22.  Whatever the outside answers, one credential resolution sends
    at most one request that creates an admin user, at most one request
    for the branch list and at most 22 requests for branch details (the
    20 of the wait and the two around the creation of the user). *)
Theorem one_resolution_is_frugal (cfg : Config) (remote : server)
    (branch_name : string) (cluster : option string) (w w' : world) (r : outcome pydict) :
  _ensure_admin_credential cfg remote branch_name cluster w = (r, w') ->
  exists new,
    trace w' = (trace w ++ new)%list
    /\ List.length (filter is_admin_request new) <= 1
    /\ List.length (filter is_list_request new) <= 1
    /\ polls new <= 22.
Proof.
  intros E.
  destruct (ensure_counted is_admin_request cfg remote eq_refl 1 branch_name cluster
              (provision_one_admin cfg remote _) _ _ _ E) as (l1 & E1 & H1).
  destruct (ensure_counted is_list_request cfg remote eq_refl 1 branch_name cluster
              (provision_one_list cfg remote _) _ _ _ E) as (l2 & E2 & H2).
  destruct (ensure_counted is_poll cfg remote eq_refl 22 branch_name cluster
              (provision_polled cfg remote _) _ _ _ E) as (l3 & E3 & H3).
  rewrite E1 in E2, E3. apply app_inv_head in E2, E3. subst l2 l3.
  exists l1. auto.
Qed.

Lemma one_resolution_is_frugal_witness :
  let run := _ensure_admin_credential Fixture.env Fixture.no_endpoints "demo-branch" None
               Fixture.fresh in
  exists new,
    trace (snd run) = (trace Fixture.fresh ++ new)%list
    /\ List.length (filter is_admin_request new) <= 1
    /\ List.length (filter is_list_request new) <= 1
    /\ polls new <= 22.
Proof.
  intros run.
  apply (one_resolution_is_frugal Fixture.env Fixture.no_endpoints "demo-branch" None
           Fixture.fresh (snd run) (fst run)).
  reflexivity.
Defined.

(** ** The slow path when the endpoints are there at once *)

Section Direct.

Variable cfg : Config.
Variable remote : server.

Lemma provision_direct n rc w1 branch_id w2 w3 cl p info ep admin :
  let b := py_str branch_id in
  let fetch := GET_branch cl b in
  let create := POST_admin_user p (py_str (py_or rc (JStr cl))) n in
  _resolve_branch_id cfg remote n w1 = (Ok branch_id, w2) ->
  branch_id <> JNull ->
  _wait_for_branch_active remote branch_id 20 10 w2 = (Ok tt, w3) ->
  ready w3 cl -> manager_project w3 p -> truthy (JStr n) = true ->
  remote (trace w3) fetch = Some info ->
  public_endpoints info = Ok (JObj ep) ->
  truthy (get "host" ep) = true -> truthy (get "port" ep) = true ->
  remote (trace w3 ++ [fetch])%list create = Some (JObj admin) ->
  provision cfg remote n rc w1
  = (Ok [ ("source", JStr "created");
          ("branchName", JStr n);
          ("clusterId", rc);
          ("username", get_or "username" (JStr "") admin);
          ("password", get_or "password" (JStr "") admin);
          ("host", get "host" ep);
          ("port", get "port" ep);
          ("database", JStr (match DEFAULT_DATABASE cfg with
                             | Some s => if truthy (JStr s) then s else ""
                             | None => ""
                             end)) ],
     add_calls [fetch; create] w3).
Proof.
  intros b fetch create Hid Hnn Hwait Hr Hp Hn H1 He Hh Hport Ha.
  unfold provision. rewrite (run_bind _ _ _ _ _ Hid).
  assert (Hgo : forall (A : Type) (x y : M A),
             match branch_id with JNull => x | _ => y end = y).
  { intros A x y. destruct branch_id; congruence. }
  rewrite Hgo. rewrite (run_bind _ _ _ _ _ Hwait).
  unfold bind at 1. rewrite (ready_get_branch remote w3 cl Hr), send_run.
  fold b. fold fetch. rewrite H1.
  unfold bind at 1. unfold lift at 1. rewrite He.
  unfold bind at 1.
  rewrite (ready_create_admin remote (add_calls [fetch] w3) cl p rc n
             (ready_add_calls _ _ _ Hr)
             ltac:(destruct Hp as (s & Hs); exists s; exact Hs) Hn).
  rewrite send_run. fold create.
  change (trace (add_calls [fetch] w3)) with (trace w3 ++ [fetch])%list. rewrite Ha.
  unfold bind at 1. unfold lift at 1. cbn [py_get].
  unfold bind at 1. unfold lift at 1.
  rewrite Hh, Hport. cbn [negb orb].
  rewrite add_calls_add. cbn [app]. reflexivity.
Qed.

End Direct.

(** X23.  On the slow path, when the details fetched after the wait
    carry host and port, the resolution creates the admin user and asks
    no more: it returns, tagged as created, the names it was called with,
    the user and password of the answer (empty when the answer lacks
    them), the host and port of the details and the default database.
    The details are asked of the cluster of the manager; the admin user is
    created under the cluster id that was passed, when one was passed. *)
Theorem endpoints_at_first_fetch (cfg : Config) (remote : server)
    (branch_name : string) (cluster : option string)
    (w w0 w1 w2 w3 : world) (rc branch_id info : json) (cached : option pydict)
    (cl p : string) (ep admin : pydict) :
  let b := py_str branch_id in
  let fetch := GET_branch cl b in
  let create := POST_admin_user p (py_str (py_or rc (JStr cl))) branch_name in
  _get_branch_manager cfg w = (Ok tt, w0) ->
  effective_cluster remote cluster w0 = (Ok rc, w1) ->
  truthy_opt (_project_id cfg) = true ->
  _get_cached_admin_credential branch_name rc w1 = (Ok cached, w1) ->
  usable cached = false ->
  _resolve_branch_id cfg remote branch_name w1 = (Ok branch_id, w2) ->
  branch_id <> JNull ->
  _wait_for_branch_active remote branch_id 20 10 w2 = (Ok tt, w3) ->
  ready w3 cl -> manager_project w3 p -> truthy (JStr branch_name) = true ->
  remote (trace w3) fetch = Some info ->
  public_endpoints info = Ok (JObj ep) ->
  truthy (get "host" ep) = true -> truthy (get "port" ep) = true ->
  remote (trace w3 ++ [fetch])%list create = Some (JObj admin) ->
  exists w',
    _ensure_admin_credential cfg remote branch_name cluster w
    = (Ok [ ("source", JStr "created");
            ("branchName", JStr branch_name);
            ("clusterId", rc);
            ("username", get_or "username" (JStr "") admin);
            ("password", get_or "password" (JStr "") admin);
            ("host", get "host" ep);
            ("port", get "port" ep);
            ("database", JStr (match DEFAULT_DATABASE cfg with
                               | Some s => if truthy (JStr s) then s else ""
                               | None => ""
                               end)) ], w')
    /\ trace w' = (trace w3 ++ [fetch; create])%list.
Proof.
  intros b fetch create Hm Hc Hp Hcache Hu Hid Hnn Hwait Hr Hproj Hn H1 He Hh Hport Ha.
  pose proof (provision_direct cfg remote branch_name rc w1 branch_id w2 w3 cl p
                info ep admin Hid Hnn Hwait Hr Hproj Hn H1 He Hh Hport Ha) as Hprov.
  fold b fetch create in Hprov.
  set (payload := [("source", JStr "created"); ("branchName", JStr branch_name);
                   ("clusterId", rc);
                   ("username", get_or "username" (JStr "") admin);
                   ("password", get_or "password" (JStr "") admin);
                   ("host", get "host" ep); ("port", get "port" ep);
                   ("database", JStr match DEFAULT_DATABASE cfg with
                                     | Some s => if truthy (JStr s) then s else ""
                                     | None => ""
                                     end)]) in *.
  destruct (get_cached_inv _ _ _ _ _ Hcache) as (records & Hload & Hhash & _ & _).
  assert (Hfile : credentials_file (add_calls [fetch; create] w3) = credentials_file w1).
  { apply resolve_branch_id_same_file in Hid. apply wait_same_file in Hwait.
    unfold same_file in *. simpl. congruence. }
  assert (Hstore := store_run payload (add_calls [fetch; create] w3) records).
  rewrite Hfile in Hstore. specialize (Hstore Hload).
  assert (key_hashable (key_of_entry payload) = true) as Hk.
  { unfold key_hashable, key_of_entry, payload. simpl. exact Hhash. }
  specialize (Hstore Hk).
  assert (Hval : forall w', validate cfg payload w' = (Ok payload, w')).
  { intros w'. rewrite validate_usable by assumption.
    assert (truthy_opt (DEFAULT_DATABASE cfg) && negb (truthy (get "database" payload)) = false)
      as ->; [|reflexivity].
    unfold payload, DEFAULT_DATABASE, truthy_opt. cbn.
    destruct (SERVERLESS_CLUSTER_DATABASE_NAME cfg) as [s|]; [|reflexivity].
    cbn. destruct (s =? "") eqn:Es; cbn; [reflexivity | now rewrite Es]. }
  eexists. split.
  - unfold _ensure_admin_credential.
    rewrite (run_bind _ _ _ _ _ Hm), (run_bind _ _ _ _ _ Hc), Hp. cbn [negb].
    rewrite (run_bind _ _ _ _ _ Hcache), Hu.
    unfold bind at 1. unfold bind at 1. rewrite Hprov.
    unfold bind at 1. rewrite Hstore. unfold ret. apply Hval.
  - reflexivity.
Qed.

(** The resolution of the test suite against a control plane that
    publishes the endpoints at once, for a cluster id passed by the
    caller. *)
Lemma endpoints_at_first_fetch_witness :
  exists w',
    _ensure_admin_credential Fixture.env Fixture.prompt "demo-branch" (Some "cluster-2")
      Fixture.fresh
    = (Ok [ ("source", JStr "created"); ("branchName", JStr "demo-branch");
            ("clusterId", JStr "cluster-2"); ("username", JStr "u1"); ("password", JStr "p1");
            ("host", JStr "h1"); ("port", JNum 1234); ("database", JStr "") ], w')
    /\ trace w' = [GET_branches "cluster-1"; GET_branch "cluster-1" "b1";
                   GET_branch "cluster-1" "b1";
                   POST_admin_user "proj" "cluster-2" "demo-branch"].
Proof.
  apply (endpoints_at_first_fetch Fixture.env Fixture.prompt "demo-branch" (Some "cluster-2")
           Fixture.fresh Fixture.managed Fixture.managed
           (add_calls [GET_branches "cluster-1"] Fixture.managed)
           (add_calls [GET_branches "cluster-1"; GET_branch "cluster-1" "b1"] Fixture.managed)
           (JStr "cluster-2") (JStr "b1")
           (Fixture.branch_json "b1" "ACTIVE" Fixture.h1_1234)
           None "cluster-1" "proj"
           [("host", JStr "h1"); ("port", JNum 1234)]
           [("username", JStr "u1"); ("password", JStr "p1")]);
    try reflexivity.
  - discriminate.
  - exists Fixture.manager. repeat split. now left.
  - exists Fixture.manager. repeat split.
Defined.

(** ** A statement on a branch whose credentials are in the file *)

Section Warm.

Variable cfg : Config.
Variable remote : server.

Lemma run_sql_on_branch_trace n sql w creds w1 w2 :
  _ensure_admin_credential cfg remote n None w = (Ok creds, w1) ->
  _connect_branch_client cfg remote creds w1 = (Ok tt, w2) ->
  snd (run_sql_on_branch cfg remote n sql w) = add_calls [statement sql] w2.
Proof.
  intros He Hc. unfold statement. destruct (is_select sql) eqn:Es.
  - now rewrite (run_sql_on_branch_select cfg remote n sql w creds w1 w2 He Hc Es).
  - now rewrite (run_sql_on_branch_other cfg remote n sql w creds w1 w2 He Hc Es).
Qed.

Lemma ready_row_resolves n w c rows row z :
  ready w c -> truthy_opt (_project_id cfg) = true ->
  credentials_file w = Some rows -> Forall readable rows ->
  find (row_has_key n c) (rev rows) = Some row ->
  c_host row <> "" -> c_port row <> "" -> PyStr.to_Z (c_port row) = Some z -> z <> 0%Z ->
  let stored := record_of_row row (JNum z) in
  _ensure_admin_credential cfg remote n None w
  = (Ok (if truthy_opt (DEFAULT_DATABASE cfg) && negb (truthy (get "database" stored))
         then dict_set String.eqb "database" (of_opt (DEFAULT_DATABASE cfg))
                (("source", JStr "cache") :: stored)
         else ("source", JStr "cache") :: stored),
     w).
Proof.
  intros Hr Hp Hf Hall Hfind Hh Hpc Hz Hnz stored.
  destruct (load_rows_last rows Hall) as (d & Hd & Hget).
  assert (Hport : port_of_cell (c_port row) = Ok (JNum z)).
  { unfold port_of_cell. cbn [truthy].
    destruct (c_port row =? "") eqn:E; [apply String.eqb_eq in E; contradiction|].
    cbn [negb]. now rewrite Hz. }
  apply (ensure_fast_path cfg remote n None w w (JStr c) w stored).
  - apply (ready_get_branch_manager cfg w c Hr).
  - apply (ready_cluster remote w c Hr).
  - exact Hp.
  - rewrite (get_cached_run n (JStr c) w d); [| now rewrite Hf | reflexivity].
    rewrite Hget, Hfind. cbn [option_map]. unfold record_of. now rewrite Hport.
  - unfold stored. cbn. destruct (c_host row =? "") eqn:E; [|reflexivity].
    apply String.eqb_eq in E. contradiction.
  - unfold stored. cbn. destruct (z =? 0)%Z eqn:E; [|reflexivity].
    apply Z.eqb_eq in E. contradiction.
Qed.

End Warm.

(** X24.  A statement on a branch whose row in the credentials file has
    a host and a non-zero port costs no request to the control plane: the
    executor opens one connection, with the host, port, user and password
    of the last row of the branch (the database of the row, else the
    default one), sends the statement, and leaves the file and the manager
    as they are.  When the connection fails nothing else is sent. *)
Theorem warm_cache_statement (cfg : Config) (remote : server) (branch_name sql : string)
    (w : world) (c : string) (rows : list csv_row) (row : csv_row) (z : Z) :
  ready w c -> truthy_opt (_project_id cfg) = true ->
  credentials_file w = Some rows -> Forall readable rows ->
  find (row_has_key branch_name c) (rev rows) = Some row ->
  c_host row <> "" -> c_port row <> "" -> PyStr.to_Z (c_port row) = Some z -> z <> 0%Z ->
  let connect :=
    DB_connect (JStr (c_host row)) z (JStr (c_username row)) (JStr (c_password row))
      (py_or (JStr (c_database row)) (of_opt (DEFAULT_DATABASE cfg))) in
  snd (run_sql_on_branch cfg remote branch_name sql w)
  = add_calls match remote (trace w) connect with
              | Some _ => [connect; statement sql]
              | None => [connect]
              end w.
Proof.
  intros Hr Hp Hf Hall Hfind Hh Hpc Hz Hnz connect.
  pose proof (ready_row_resolves cfg remote branch_name w c rows row z
                Hr Hp Hf Hall Hfind Hh Hpc Hz Hnz) as He.
  cbn zeta in He.
  set (creds := if truthy_opt (DEFAULT_DATABASE cfg)
                   && negb (truthy (get "database" (record_of_row row (JNum z))))
                then dict_set String.eqb "database" (of_opt (DEFAULT_DATABASE cfg))
                       (("source", JStr "cache") :: record_of_row row (JNum z))
                else ("source", JStr "cache") :: record_of_row row (JNum z)) in *.
  assert (Hhost : (c_host row =? "") = false).
  { destruct (c_host row =? "") eqn:E; [apply String.eqb_eq in E; contradiction | reflexivity]. }
  assert (Hzero : (z =? 0)%Z = false).
  { destruct (z =? 0)%Z eqn:E; [apply Z.eqb_eq in E; contradiction | reflexivity]. }
  assert (Hconn : _connect_branch_client cfg remote creds w
                  = (match remote (trace w) connect with
                     | Some _ => Ok tt
                     | None => Raise DatabaseError
                     end, add_calls [connect] w)).
  { assert (Hfields : get "host" creds = JStr (c_host row)
                      /\ get "port" creds = JNum z
                      /\ get "username" creds = JStr (c_username row)
                      /\ get "password" creds = JStr (c_password row)
                      /\ py_or (get "database" creds) (of_opt (DEFAULT_DATABASE cfg))
                         = py_or (JStr (c_database row)) (of_opt (DEFAULT_DATABASE cfg))).
    { unfold creds. cbn [record_of_row get dict_get String.eqb Ascii.eqb Bool.eqb].
      cbn.
      destruct (truthy_opt (DEFAULT_DATABASE cfg)) eqn:Ed; cbn [andb];
        [destruct (c_database row =? "") eqn:Eb; cbn [negb]|]; cbn; repeat split.
      unfold py_or. fold (truthy_opt (DEFAULT_DATABASE cfg)). rewrite Ed.
      cbn [truthy]. now rewrite Eb. }
    destruct Hfields as (F1 & F2 & F3 & F4 & F5).
    unfold _connect_branch_client. rewrite F1, F2, F3, F4, F5.
    cbn [truthy]. rewrite Hhost, Hzero. cbn [negb].
    unfold py_or at 1. cbn [truthy]. rewrite Hzero. cbn [negb].
    unfold bind at 1. unfold lift at 1. cbn [py_int].
    unfold bind. rewrite driver_run. fold connect.
    now destruct (remote (trace w) connect). }
  destruct (remote (trace w) connect) as [answer|].
  - rewrite (run_sql_on_branch_trace cfg remote branch_name sql w creds w _ He Hconn).
    now rewrite add_calls_add.
  - unfold run_sql_on_branch. rewrite (run_bind _ _ _ _ _ He).
    now rewrite (run_bind_raise _ _ _ _ _ Hconn).
Qed.

Lemma warm_cache_statement_witness :
  snd (run_sql_on_branch Fixture.env_with_database Fixture.dummy_with_database
         "demo-branch" "show tables" Fixture.duplicated)
  = add_calls [DB_connect (JStr "h3") 4000 (JStr "u3") (JStr "p3") (JStr "test");
               DB_execute "show tables"] Fixture.duplicated.
Proof.
  apply (warm_cache_statement Fixture.env_with_database Fixture.dummy_with_database
           "demo-branch" "show tables" Fixture.duplicated "cluster-1"
           [Fixture.demo_row; Fixture.other_row; Fixture.newer_row] Fixture.newer_row 4000).
  - exists Fixture.manager. repeat split. now left.
  - reflexivity.
  - reflexivity.
  - repeat constructor; eexists; vm_compute; reflexivity.
  - reflexivity.
  - discriminate.
  - discriminate.
  - reflexivity.
  - discriminate.
Defined.

(** ** What a resolution returns *)

Lemma load_rows_named rows : forall acc d,
  load_rows rows acc = Ok d ->
  Forall (fun kv => exists row port,
            snd kv = record_of_row row port
            /\ fst kv = (JStr (c_branchName row), JStr (c_clusterId row))) acc ->
  Forall (fun kv => exists row port,
            snd kv = record_of_row row port
            /\ fst kv = (JStr (c_branchName row), JStr (c_clusterId row))) d.
Proof.
  induction rows as [|row rows IH]; intros acc d H Hacc.
  - simpl in H. now injection H as <-.
  - cbn [load_rows] in H.
    destruct (port_of_cell (c_port row)) as [port|e]; [|discriminate].
    apply IH in H; [assumption|].
    apply CacheFacts.dict_set_entries; [assumption|].
    exists row, port. split; reflexivity.
Qed.

(** A record found in the loaded cache bears the two names of the key
    under which it was looked up. *)
Lemma loaded_record_names f records n rc stored :
  load_file f = Ok records ->
  dict_get key_eqb (JStr n, rc) records = Some stored ->
  get "branchName" stored = JStr n /\ get "clusterId" stored = rc.
Proof.
  intros Hl Hg.
  assert (Hall : Forall (fun kv => exists row port,
                           snd kv = record_of_row row port
                           /\ fst kv = (JStr (c_branchName row), JStr (c_clusterId row)))
                   records).
  { destruct f as [rows|]; cbn [load_file] in Hl.
    - eapply load_rows_named; [exact Hl | constructor].
    - injection Hl as <-. constructor. }
  clear Hl. induction Hall as [|[k v] d (row & port & Hv & Hk) _ IH];
    cbn [dict_get] in Hg; [discriminate|].
  destruct (key_eqb k (JStr n, rc)) eqn:E; [|now apply IH].
  injection Hg as <-. cbn [fst snd] in Hv, Hk. subst k v.
  apply key_eqb_from_str in E. injection E as -> ->. split; reflexivity.
Qed.

(** X25.  The record that a credential resolution returns is the record
    of the branch that was asked for: its [branchName] is the name passed,
    its [clusterId] is the cluster id passed (when one was passed), and
    its [source] tells whether it came from the file or was just
    created. *)
Theorem resolution_returns_the_requested_branch (cfg : Config) (remote : server)
    (branch_name : string) (cluster : option string) (w w' : world) (creds : pydict) :
  _ensure_admin_credential cfg remote branch_name cluster w = (Ok creds, w') ->
  get "branchName" creds = JStr branch_name
  /\ (truthy_opt cluster = true -> get "clusterId" creds = of_opt cluster)
  /\ (get "source" creds = JStr "cache" \/ get "source" creds = JStr "created").
Proof.
  intros E. unfold _ensure_admin_credential in E.
  apply bind_inv_ok in E as (u & w0 & _ & E).
  apply bind_inv_ok in E as (rc & w1 & Ec & E).
  destruct (negb (truthy_opt (_project_id cfg)));
    [apply raise_inv in E as [E _]; discriminate|].
  apply bind_inv_ok in E as (cached & w2 & Eg & E).
  apply bind_inv_ok in E as (payload & w3 & Ep & Ev).
  assert (Hrc : truthy_opt cluster = true -> rc = of_opt cluster).
  { intros Ht. unfold effective_cluster in Ec. rewrite Ht in Ec.
    now apply ret_inv in Ec as [[= ->] _]. }
  assert (Hpayload : get "branchName" payload = JStr branch_name
                     /\ get "clusterId" payload = rc
                     /\ (get "source" payload = JStr "cache"
                         \/ get "source" payload = JStr "created")).
  { destruct (usable cached) eqn:Hu.
    - apply ret_inv in Ep as [[= ->] _].
      destruct cached as [stored|]; [|discriminate].
      apply get_cached_inv in Eg as (records & Hl & _ & Hg & _).
      destruct (loaded_record_names _ _ _ _ _ Hl (eq_sym Hg)) as [Hn Hc].
      unfold from_cache. repeat split; [exact Hn | exact Hc | now left].
    - apply bind_inv_ok in Ep as (made & w4 & Em & Ep).
      apply provision_shape in Em as (us & pw & h & pt & db & ->).
      apply bind_inv_ok in Ep as ([] & w5 & _ & Ep).
      apply ret_inv in Ep as [[= ->] _].
      repeat split. now right. }
  destruct Hpayload as (Hn & Hc & Hs).
  apply validate_ok in Ev as (_ & _ & _ & ->).
  destruct (truthy_opt (DEFAULT_DATABASE cfg) && negb (truthy (get "database" payload))).
  - rewrite !get_set_other by discriminate.
    split; [exact Hn|]. split; [|exact Hs]. intros Ht. now rewrite Hc, (Hrc Ht).
  - split; [exact Hn|]. split; [|exact Hs]. intros Ht. now rewrite Hc, (Hrc Ht).
Qed.

Lemma resolution_returns_the_requested_branch_witness :
  let creds := [ ("source", JStr "created"); ("branchName", JStr "demo-branch");
                 ("clusterId", JStr "cluster-2"); ("username", JStr "u1");
                 ("password", JStr "p1"); ("host", JStr "h1"); ("port", JNum 1234);
                 ("database", JStr "") ] in
  get "branchName" creds = JStr "demo-branch"
  /\ (truthy_opt (Some "cluster-2") = true -> get "clusterId" creds = of_opt (Some "cluster-2"))
  /\ (get "source" creds = JStr "cache" \/ get "source" creds = JStr "created").
Proof.
  intros creds.
  apply (resolution_returns_the_requested_branch Fixture.env Fixture.prompt "demo-branch"
           (Some "cluster-2") Fixture.fresh
           (snd (_ensure_admin_credential Fixture.env Fixture.prompt "demo-branch"
                   (Some "cluster-2") Fixture.fresh))
           creds).
  reflexivity.
Defined.
